(** * dump_rtprio: a shallow embedding of [src/dump_rtprio.cpp]

    The program scans the identifier space of a Linux system and prints one
    CSV line per live thread.  Every function of the source is embedded under
    its own name.  The C library and the kernel are an explicit oracle
    ([kernel]); the ambient state of the process ([errno], what was written
    to standard output, which kernel interfaces were called) is threaded
    through a small state-and-abort monad ([M]). *)

From Stdlib Require Import ZArith List String Ascii Bool Lia DecimalString.
From Stdlib Require Import Sorted DecimalZ.
From Stdlib Require DecimalPos DecimalFacts.
Import ListNotations.

Local Open Scope string_scope.
Local Open Scope list_scope.
Local Open Scope Z_scope.

(** ** Platform constants (Linux, glibc) *)

(** Error codes are positive; [errno] is 0 when clear. *)
Definition ENOENT : positive := 2.
Definition ESRCH : positive := 3.
Definition EACCES : positive := 13.

Definition SCHED_OTHER : Z := 0.
Definition SCHED_FIFO : Z := 1.
Definition SCHED_RR : Z := 2.
Definition SCHED_BATCH : Z := 3.
Definition SCHED_IDLE : Z := 5.
Definition SCHED_DEADLINE : Z := 6.

(** Number of CPUs a [cpu_set_t] can hold. *)
Definition CPU_SETSIZE : Z := 1024.

Definition INT_MIN : Z := - 2 ^ 31.
Definition INT_MAX : Z := 2 ^ 31 - 1.
Definition LONG_MIN : Z := - 2 ^ 63.
Definition LONG_MAX : Z := 2 ^ 63 - 1.

(** ** Outcomes and the process state *)

(** How the process can stop early: [LOG(FATAL, ...)] prints a diagnostic and
    calls [std::exit(1)]; an exception nobody catches ([CHECK_EQ], [PCHECK],
    [std::stoi]) ends in [std::terminate]; an out-of-contract access
    ([front()] of an empty view, an uninitialised buffer) is undefined. *)
Inductive halt : Type :=
| Exit1
| Uncaught
| Undefined.

Inductive result (A : Type) : Type :=
| Ok (a : A)
| Abort (f : halt).
Arguments Ok {A} a.
Arguments Abort {A} f.

(** The kernel interfaces the program calls, with their arguments. *)
Inductive call : Type :=
| call_sysconf_nprocessors_conf
| call_sched_getaffinity (process : Z)
| call_sched_getparam (process : Z)
| call_sched_getscheduler (process : Z)
| call_readlink (path : string)
| call_getpriority (process : Z)
| call_fopen (path : string).

Record world : Type := mkWorld {
  errno : Z;                (* the thread's error indicator *)
  stdout : list string;     (* what each completed printf put into the stream,
                               oldest first; see [delivered] for what of it
                               leaves the process *)
  trace : list call         (* kernel interfaces called so far, oldest first *)
}.

Definition M (A : Type) : Type := world -> result A * world.

Definition ret {A} (a : A) : M A := fun w => (Ok a, w).

Definition bind {A B} (m : M A) (k : A -> M B) : M B :=
  fun w =>
    match m w with
    | (Ok a, w') => k a w'
    | (Abort f, w') => (Abort f, w')
    end.

Definition abort {A} (f : halt) : M A := fun w => (Abort f, w).

(** A computation that touches no state, run inside [M]. *)
Definition lift {A} (r : result A) : M A := fun w => (r, w).

Definition result_bind {A B} (r : result A) (k : A -> result B) : result B :=
  match r with
  | Ok a => k a
  | Abort f => Abort f
  end.

Notation "x <- m ;; k" := (bind m (fun x => k))
  (at level 61, m at next level, right associativity).
Notation "' p <- m ;; k" := (bind m (fun p => k))
  (at level 61, p pattern, m at next level, right associativity).
Notation "m ;;; k" := (bind m (fun _ => k))
  (at level 61, right associativity).

Definition get_errno : M Z := fun w => (Ok (errno w), w).

Definition set_errno (e : Z) : M unit :=
  fun w => (Ok tt, mkWorld e (stdout w) (trace w)).

Definition log_call (c : call) : M unit :=
  fun w => (Ok tt, mkWorld (errno w) (stdout w) (trace w ++ [c])).

(** Puts [s] into the stream; the stream is not flushed here. *)
Definition write_stdout (s : string) : M unit :=
  fun w => (Ok tt, mkWorld (errno w) (stdout w ++ [s]) (trace w)).

(** ** The kernel and C library oracle *)

(** A call either succeeds with a value, or fails: it then returns its error
    value (-1, a null pointer) and stores the error code in [errno].  A
    successful call leaves [errno] alone. *)
Inductive sysres (A : Type) : Type :=
| Success (a : A)
| Failure (e : positive).
Arguments Success {A} a.
Arguments Failure {A} e.

(** An open [FILE*]: the strings successive [fgets] calls store in the
    caller's buffer (each shorter than the buffer and without a NUL, as
    [fgets] delivers them), whether the stream then reports an error (with
    the [errno] it leaves) or plain end of file, and what [fclose] will
    return. *)
Record FILE : Type := mkFILE {
  f_lines : list string;
  f_error : option positive;
  f_close : Z
}.

Definition cpu_set_t : Type := Z.      (* bit c set: CPU c is in the set *)

Record sched_param : Type := mkSchedParam { sched_priority : Z }.

Record kernel : Type := mkKernel {
  k_sysconf_nprocessors_conf : sysres Z;
  k_fopen : string -> sysres FILE;
  k_sched_getaffinity : Z -> sysres cpu_set_t;
  k_sched_getparam : Z -> sysres sched_param;
  k_sched_getscheduler : Z -> sysres Z;
  k_readlink : string -> sysres string;
  k_getpriority : Z -> sysres Z
}.

(** The value an [int]-returning call hands back. *)
Definition retval {A} (r : sysres A) : Z :=
  match r with
  | Success _ => 0
  | Failure _ => -1
  end.

(** Runs one oracle call: logs it, and on failure stores the error code. *)
Definition syscall {A} (c : call) (r : sysres A) : M (sysres A) :=
  log_call c ;;;
  match r with
  | Success a => ret (Success a)
  | Failure e => set_errno (Z.pos e) ;;; ret (Failure e)
  end.

(** ** Logging and checking helpers *)

Definition CHECK_EQ (val1 val2 : Z) : M unit :=
  if val1 =? val2 then ret tt else abort Uncaught.

Definition PCHECK (val : Z) : M unit :=
  if val =? 0 then ret tt else abort Uncaught.

Inductive LogLevel : Type := FATAL | WARNING.

(** The diagnostic goes to the error stream, which is not modelled. *)
Definition LOG {A} (level : LogLevel) (dflt : A) : M A :=
  match level with
  | FATAL => abort Exit1
  | WARNING => ret dflt
  end.

Definition PLOG {A} (level : LogLevel) (dflt : A) : M A := LOG level dflt.

(** ** Text helpers of the C and C++ libraries *)

(** [std::to_string(int)] and the [%d] conversion. *)
Definition to_string (z : Z) : string := NilZero.string_of_int (Z.to_int z).

Inductive printf_arg : Type :=
| arg_s (s : string)
| arg_d (d : Z).

(** The two conversions the program uses; [None] when the arguments do not
    fit the format. *)
Fixpoint sprintf (fmt : string) (args : list printf_arg) : option string :=
  match fmt with
  | EmptyString => Some ""
  | String "%" (String "s" fmt') =>
      match args with
      | arg_s s :: args' => option_map (append s) (sprintf fmt' args')
      | _ => None
      end
  | String "%" (String "d" fmt') =>
      match args with
      | arg_d d :: args' => option_map (append (to_string d)) (sprintf fmt' args')
      | _ => None
      end
  | String c fmt' => option_map (String c) (sprintf fmt' args)
  end.

Definition printf (fmt : string) (args : list printf_arg) : M unit :=
  match sprintf fmt args with
  | Some s => write_stdout s
  | None => abort Undefined
  end.

Definition is_digit (c : ascii) : bool :=
  let n := Z.of_nat (nat_of_ascii c) in (48 <=? n) && (n <=? 57).

Definition digit_value (c : ascii) : Z := Z.of_nat (nat_of_ascii c) - 48.

Definition isspace (c : ascii) : bool :=
  let n := Z.of_nat (nat_of_ascii c) in (n =? 32) || ((9 <=? n) && (n <=? 13)).

Fixpoint skip_spaces (l : list ascii) : list ascii :=
  match l with
  | c :: l' => if isspace c then skip_spaces l' else l
  | [] => []
  end.

Fixpoint read_digits (l : list ascii) (acc : Z) : Z :=
  match l with
  | c :: l' => if is_digit c then read_digits l' (10 * acc + digit_value c) else acc
  | [] => acc
  end.

(** Base-10 [strtol]: leading white space, an optional sign, then digits;
    what follows the digits is ignored.  [None] when there is no digit. *)
Definition strtol10 (l : list ascii) : option Z :=
  let l1 := skip_spaces l in
  let '(neg, l2) :=
    match l1 with
    | "-"%char :: r => (true, r)
    | "+"%char :: r => (false, r)
    | _ => (false, l1)
    end in
  match l2 with
  | c :: _ =>
      if is_digit c
      then Some (if neg then - read_digits l2 0 else read_digits l2 0)
      else None
  | [] => None
  end.

(** [std::stoi]: throws [std::invalid_argument] when there is no number and
    [std::out_of_range] when it does not fit an [int]; nothing catches them. *)
Definition stoi (s : list ascii) : result Z :=
  match strtol10 s with
  | Some v => if (INT_MIN <=? v) && (v <=? INT_MAX) then Ok v else Abort Uncaught
  | None => Abort Uncaught
  end.

(** ** [std::string_view] *)

Record string_view : Type := mkView {
  sv_data : list ascii;     (* the characters of the buffer viewed *)
  sv_begin : nat;
  sv_size : nat
}.

Definition view_of (buffer : list ascii) : string_view :=
  mkView buffer 0 (List.length buffer).

Definition sv_chars (v : string_view) : list ascii :=
  firstn (sv_size v) (skipn (sv_begin v) (sv_data v)).

(** [std::string{view}] *)
Definition sv_string (v : string_view) : string :=
  string_of_list_ascii (sv_chars v).

Definition sv_wf (v : string_view) : Prop :=
  (sv_begin v + sv_size v <= List.length (sv_data v))%nat.

Fixpoint list_prefix (p l : list ascii) : bool :=
  match p, l with
  | [], _ => true
  | a :: p', b :: l' => Ascii.eqb a b && list_prefix p' l'
  | _ :: _, [] => false
  end.

Definition starts_with (v : string_view) (p : string) : bool :=
  list_prefix (list_ascii_of_string p) (sv_chars v).

(** [remove_prefix(n)] requires [n <= size()]. *)
Definition remove_prefix (n : nat) (v : string_view) : option string_view :=
  if (n <=? sv_size v)%nat
  then Some (mkView (sv_data v) (sv_begin v + n) (sv_size v - n))
  else None.

(** [sizeof("...")] of a string literal counts the terminating NUL. *)
Definition sizeof_literal (s : string) : nat := S (String.length s).

(** A C string ends at its first NUL. *)
Fixpoint c_str (l : list ascii) : list ascii :=
  match l with
  | c :: l' => if Ascii.eqb c zero then [] else c :: c_str l'
  | [] => []
  end.

Definition nl : string := String (ascii_of_nat 10) EmptyString.

(** * The program *)

Definition policy_string (policy : Z) : string :=
  if policy =? SCHED_OTHER then "OTHER"
  else if policy =? SCHED_BATCH then "BATCH"
  else if policy =? SCHED_IDLE then "IDLE"
  else if policy =? SCHED_FIFO then "FIFO"
  else if policy =? SCHED_RR then "RR"
  else if policy =? SCHED_DEADLINE then "DEADLINE"
  else "???".

(** The three characters [strip] removes. *)
Definition is_blank (c : ascii) : bool :=
  Ascii.eqb c " " || Ascii.eqb c (ascii_of_nat 9) || Ascii.eqb c (ascii_of_nat 10).

(** The first loop of [strip]: each turn reads [front()] and, on a blank,
    does [remove_prefix(1)].  The recursion is on the size of the view;
    [None] is [front()] of an empty view. *)
Fixpoint strip_left (data : list ascii) (begin size : nat) : option string_view :=
  match size with
  | O => None
  | S size' =>
      if is_blank (nth begin data zero)
      then strip_left data (S begin) size'
      else Some (mkView data begin size)
  end.

(** The second loop: [back()] and [remove_suffix(1)]. *)
Fixpoint strip_right (data : list ascii) (begin size : nat) : option string_view :=
  match size with
  | O => None
  | S size' =>
      if is_blank (nth (begin + size') data zero)
      then strip_right data begin size'
      else Some (mkView data begin size)
  end.

Definition strip (str : string_view) : option string_view :=
  match strip_left (sv_data str) (sv_begin str) (sv_size str) with
  | Some str1 => strip_right (sv_data str1) (sv_begin str1) (sv_size str1)
  | None => None
  end.

Definition fclose (f : FILE) : Z := f_close f.

(** Conversion of a [long] to [int]. *)
Definition to_int32 (z : Z) : Z := (z + 2 ^ 31) mod 2 ^ 32 - 2 ^ 31.

(** [strtol] hands back [LONG_MIN] or [LONG_MAX] for a number beyond them. *)
Definition clamp_long (z : Z) : Z := Z.max LONG_MIN (Z.min LONG_MAX z).

(** [fscanf(f, "%d", &r)]: the number of items converted (or [EOF], -1) and
    the value stored.  glibc reads the digits with [strtol] and stores the
    [long] as an [int]. *)
Definition fscanf_d (f : FILE) : Z * Z :=
  let text := list_ascii_of_string (String.concat "" (f_lines f)) in
  match skip_spaces text with
  | [] => (-1, 0)
  | _ :: _ =>
      match strtol10 text with
      | Some v => (1, to_int32 (clamp_long v))
      | None => (0, 0)
      end
  end.

Definition pid_max_path : string := "/proc/sys/kernel/pid_max".

Definition find_pid_max (k : kernel) : M Z :=
  res <- syscall (call_fopen pid_max_path) (k_fopen k pid_max_path) ;;
  match res with
  | Failure _ => PLOG FATAL 0
  | Success pid_max_file =>
      let '(n, r) := fscanf_d pid_max_file in
      CHECK_EQ 1 n ;;;
      PCHECK (fclose pid_max_file) ;;;
      ret r
  end.

(** Conversion of a [long] to [int16_t]. *)
Definition to_int16 (z : Z) : Z := (z + 2 ^ 15) mod 2 ^ 16 - 2 ^ 15.

Definition CPU_ZERO : cpu_set_t := 0.

(** glibc's [CPU_SET] ignores a CPU the set cannot hold. *)
Definition CPU_SET (cpu : Z) (set : cpu_set_t) : cpu_set_t :=
  if (0 <=? cpu) && (cpu <? CPU_SETSIZE)
  then Z.lor set (Z.shiftl 1 cpu)
  else set.

Definition CPU_ISSET (cpu : Z) (set : cpu_set_t) : bool := Z.testbit set cpu.

Definition CPU_EQUAL (a b : cpu_set_t) : bool := a =? b.

(** [for (int16_t i = ...; i < nproc; ++i) CPU_SET(i, &r)], by the number of
    turns left. *)
Fixpoint cpu_set_loop (turns : nat) (i : Z) (r : cpu_set_t) : cpu_set_t :=
  match turns with
  | O => r
  | S turns' => cpu_set_loop turns' (i + 1) (CPU_SET i r)
  end.

Definition find_all_cpus (k : kernel) : M cpu_set_t :=
  res <- syscall call_sysconf_nprocessors_conf (k_sysconf_nprocessors_conf k) ;;
  let nproc := to_int16 (match res with Success n => n | Failure _ => -1 end) in
  (if nproc =? -1 then PLOG FATAL tt else ret tt) ;;;
  ret (cpu_set_loop (Z.to_nat nproc) 0 CPU_ZERO).

(** Every reader below takes the current value of the caller's [not_there]
    and returns the new one next to its own result. *)

Definition find_cpu_mask (k : kernel) (process : Z) (not_there : bool)
  : M (cpu_set_t * bool) :=
  res <- syscall (call_sched_getaffinity process) (k_sched_getaffinity k process) ;;
  let result := retval res in
  e <- get_errno ;;
  if (result =? -1) && (e =? Z.pos ESRCH) then ret (CPU_ZERO, true)
  else
    (if negb (result =? 0) then PLOG FATAL tt else ret tt) ;;;
    ret (match res with Success r => r | Failure _ => CPU_ZERO end, not_there).

Definition find_sched_param (k : kernel) (process : Z) (not_there : bool)
  : M (sched_param * bool) :=
  res <- syscall (call_sched_getparam process) (k_sched_getparam k process) ;;
  let result := retval res in
  e <- get_errno ;;
  if (result =? -1) && (e =? Z.pos ESRCH) then ret (mkSchedParam 0, true)
  else
    (if negb (result =? 0) then PLOG FATAL tt else ret tt) ;;;
    ret (match res with Success r => r | Failure _ => mkSchedParam 0 end, not_there).

Definition find_scheduler (k : kernel) (process : Z) (not_there : bool)
  : M (Z * bool) :=
  res <- syscall (call_sched_getscheduler process) (k_sched_getscheduler k process) ;;
  let scheduler := match res with Success s => s | Failure _ => -1 end in
  e <- get_errno ;;
  if (scheduler =? -1) && (e =? Z.pos ESRCH) then ret (0, true)
  else
    (if scheduler =? -1 then PLOG FATAL tt else ret tt) ;;;
    ret (scheduler, not_there).

Definition proc_path (process : Z) (entry : string) : string :=
  append "/proc/" (append (to_string process) entry).

Definition find_exe (k : kernel) (process : Z) (not_there : bool)
  : M (string * bool) :=
  let exe_filename := proc_path process "/exe" in
  res <- syscall (call_readlink exe_filename) (k_readlink k exe_filename) ;;
  let exe_size :=
    match res with
    | Success exe_buffer => Z.of_nat (String.length exe_buffer)
    | Failure _ => -1
    end in
  if exe_size =? -1 then
    e <- get_errno ;;
    if e =? Z.pos ENOENT then ret ("ENOENT", not_there)
    else if e =? Z.pos ESRCH then ret ("", true)
    else PLOG FATAL ("", not_there)
  else
    ret (match res with Success exe_buffer => exe_buffer | Failure _ => "" end,
         not_there).

Definition find_nice_value (k : kernel) (process : Z) (not_there : bool)
  : M (Z * bool) :=
  set_errno 0 ;;;
  res <- syscall (call_getpriority process) (k_getpriority k process) ;;
  let nice_value := match res with Success n => n | Failure _ => -1 end in
  e <- get_errno ;;
  if e =? Z.pos ESRCH then ret (0, true)
  else
    (if negb (e =? 0) then PLOG FATAL tt else ret tt) ;;;
    ret (nice_value, not_there).

(** The locals of [read_stat]'s scanning loop, with the two integers the
    caller passed by pointer. *)
Record stat_state : Type := mkStat {
  st_pid : Z;
  st_ppid : Z;
  st_sid : Z;
  st_field : Z;
  st_field_start : nat;
  st_parens : Z
}.

(** What a completed field stores, by its index. *)
Definition stat_store (field_string : list ascii) (s : stat_state)
  : result stat_state :=
  if st_field s =? 0 then
    result_bind (stoi field_string) (fun v =>
      Ok (mkStat v (st_ppid s) (st_sid s) (st_field s) (st_field_start s) (st_parens s)))
  else if st_field s =? 3 then
    result_bind (stoi field_string) (fun v =>
      Ok (mkStat (st_pid s) v (st_sid s) (st_field s) (st_field_start s) (st_parens s)))
  else if st_field s =? 4 then
    result_bind (stoi field_string) (fun v =>
      Ok (mkStat (st_pid s) (st_ppid s) v (st_field s) (st_field_start s) (st_parens s)))
  else Ok s.

(** The loop over [buffer]: [rest] is what lies from index [i] on.  The
    NUL that [fgets] stores ends the loop before the bound
    [i < sizeof(buffer)] can. *)
Fixpoint stat_loop (buffer rest : list ascii) (i : nat) (s : stat_state)
  : result stat_state :=
  match rest with
  | [] => Ok s
  | c :: rest' =>
      if Ascii.eqb c zero then Ok s
      else
        let parens := if Ascii.eqb c "(" then st_parens s + 1 else st_parens s in
        if parens >? 0 then
          let parens := if Ascii.eqb c ")" then parens - 1 else parens in
          stat_loop buffer rest' (S i)
            (mkStat (st_pid s) (st_ppid s) (st_sid s) (st_field s) (st_field_start s) parens)
        else if Ascii.eqb c " " then
          let field_string :=
            firstn (i - st_field_start s) (skipn (st_field_start s) buffer) in
          result_bind (stat_store field_string s) (fun s' =>
            stat_loop buffer rest' (S i)
              (mkStat (st_pid s') (st_ppid s') (st_sid s') (st_field s' + 1) (S i) parens))
        else
          stat_loop buffer rest' (S i)
            (mkStat (st_pid s) (st_ppid s) (st_sid s) (st_field s) (st_field_start s) parens)
  end.

(** The scan of one record, from the initial values of the locals. *)
Definition scan_stat (buffer : string) (ppid sid : Z) : result stat_state :=
  let b := list_ascii_of_string buffer in
  stat_loop b b 0 (mkStat 0 ppid sid 0 0 0).

Definition read_stat (k : kernel) (process : Z) (ppid sid : Z) (not_there : bool)
  : M (Z * Z * bool) :=
  let stat_filename := proc_path process "/stat" in
  res <- syscall (call_fopen stat_filename) (k_fopen k stat_filename) ;;
  e <- get_errno ;;
  match res with
  | Failure _ =>
      if e =? Z.pos ENOENT then ret (ppid, sid, true)
      else PLOG FATAL (ppid, sid, not_there)
  | Success stat =>
      match f_lines stat with
      | [] =>
          (* fgets returned a null pointer *)
          match f_error stat with
          | Some e' =>
              set_errno (Z.pos e') ;;;
              e <- get_errno ;;
              if e =? Z.pos ESRCH then ret (ppid, sid, true)
              else PLOG FATAL (ppid, sid, not_there)
          | None => abort Undefined     (* the buffer is scanned uninitialised *)
          end
      | buffer :: _ =>
          s <- lift (scan_stat buffer ppid sid) ;;
          PCHECK (fclose stat) ;;;
          (if st_field s <? 4 then LOG FATAL tt else ret tt) ;;;
          CHECK_EQ (st_pid s) process ;;;
          ret (st_ppid s, st_sid s, not_there)
      end
  end.

(** The locals of [read_status]'s loop, with the two objects the caller
    passed by pointer. *)
Record status_state : Type := mkStatus {
  ss_name : string;
  ss_pid : Z;
  ss_status_ppid : Z;
  ss_pgrp : Z
}.

(** [line.remove_prefix(sizeof(label))] followed by [strip(line)]. *)
Definition label_value (label : string) (line : string_view) : result string_view :=
  match remove_prefix (sizeof_literal label) line with
  | None => Abort Undefined
  | Some line' =>
      match strip line' with
      | None => Abort Undefined
      | Some v => Ok v
      end
  end.

(** One turn of the loop, for the line [fgets] stored in [buffer]. *)
Definition status_line (buffer : string) (s : status_state) : result status_state :=
  let line := view_of (c_str (list_ascii_of_string buffer)) in
  if starts_with line "Name:" then
    result_bind (label_value "Name:" line) (fun v =>
      Ok (mkStatus (sv_string v) (ss_pid s) (ss_status_ppid s) (ss_pgrp s)))
  else if starts_with line "Pid:" then
    result_bind (label_value "Pid:" line) (fun v =>
    result_bind (stoi (sv_chars v)) (fun n =>
      Ok (mkStatus (ss_name s) n (ss_status_ppid s) (ss_pgrp s))))
  else if starts_with line "PPid:" then
    result_bind (label_value "PPid:" line) (fun v =>
    result_bind (stoi (sv_chars v)) (fun n =>
      Ok (mkStatus (ss_name s) (ss_pid s) n (ss_pgrp s))))
  else if starts_with line "Tgid:" then
    result_bind (label_value "Tgid:" line) (fun v =>
    result_bind (stoi (sv_chars v)) (fun n =>
      Ok (mkStatus (ss_name s) (ss_pid s) (ss_status_ppid s) n)))
  else Ok s.

(** The pure part of the loop: every line [fgets] delivers, in order. *)
Fixpoint scan_status (lines : list string) (s : status_state) : result status_state :=
  match lines with
  | [] => Ok s
  | buffer :: rest => result_bind (status_line buffer s) (scan_status rest)
  end.

Definition read_status (k : kernel) (process : Z) (ppid : Z) (pgrp : Z)
  (name : string) (not_there : bool) : M (Z * string * bool) :=
  let status_filename := proc_path process "/status" in
  res <- syscall (call_fopen status_filename) (k_fopen k status_filename) ;;
  e <- get_errno ;;
  match res with
  | Failure _ =>
      if e =? Z.pos ENOENT then ret (pgrp, name, true)
      else PLOG FATAL (pgrp, name, not_there)
  | Success status =>
      s <- lift (scan_status (f_lines status) (mkStatus name 0 0 pgrp)) ;;
      (* fgets has returned a null pointer *)
      match f_error status with
      | Some e' => set_errno (Z.pos e') ;;; PLOG FATAL (pgrp, name, not_there)
      | None =>
          PCHECK (fclose status) ;;;
          CHECK_EQ (ss_pid s) process ;;;
          CHECK_EQ (ss_status_ppid s) ppid ;;;
          ret (ss_pgrp s, ss_name s, not_there)
      end
  end.

Definition header_format : string :=
  append "exe,name,cpumask,policy,nice,priority,tid,pid,ppid,sid,cpu" nl.

Definition row_format : string :=
  append "%s,%s,%s,%s,%d,%d,%d,%d,%d,%d" nl.

(** The body of [main]'s loop for the identifier [i]. *)
Definition main_loop_body (k : kernel) (all_cpus : cpu_set_t) (i : Z) : M unit :=
  let not_there := false in
  '(cpu_mask, not_there) <- find_cpu_mask k i not_there ;;
  '(param, not_there) <- find_sched_param k i not_there ;;
  '(scheduler, not_there) <- find_scheduler k i not_there ;;
  '(exe, not_there) <- find_exe k i not_there ;;
  '(nice_value, not_there) <- find_nice_value k i not_there ;;
  '(ppid, sid, not_there) <- read_stat k i 0 0 not_there ;;
  '(pgrp, name, not_there) <- read_status k i ppid 0 "" not_there ;;
  if not_there then ret tt
  else
    let cpu_mask_string := if CPU_EQUAL cpu_mask all_cpus then "all" else "???" in
    printf row_format
      [arg_s exe; arg_s name; arg_s cpu_mask_string;
       arg_s (policy_string (scheduler mod 2 ^ 32));
       arg_d nice_value; arg_d (sched_priority param); arg_d i;
       arg_d pgrp; arg_d ppid; arg_d sid].

(** [for (int i = ...; i < pid_max; ++i)], by the number of turns left. *)
Fixpoint main_loop (k : kernel) (all_cpus : cpu_set_t) (turns : nat) (i : Z) : M unit :=
  match turns with
  | O => ret tt
  | S turns' => main_loop_body k all_cpus i ;;; main_loop k all_cpus turns' (i + 1)
  end.

Definition main (k : kernel) : M unit :=
  printf header_format [] ;;;
  pid_max <- find_pid_max k ;;
  all_cpus <- find_all_cpus k ;;
  main_loop k all_cpus (Z.to_nat pid_max) 0.

(** * Vocabulary of the properties *)

(** The ten values of a data line, in the order [main] passes them. *)
Record row : Type := mkRow {
  row_exe : string;
  row_name : string;
  row_cpumask : string;
  row_policy : string;
  row_nice : Z;
  row_priority : Z;
  row_tid : Z;
  row_pid : Z;
  row_ppid : Z;
  row_sid : Z
}.

Definition row_values (r : row) : list string :=
  [row_exe r; row_name r; row_cpumask r; row_policy r;
   to_string (row_nice r); to_string (row_priority r); to_string (row_tid r);
   to_string (row_pid r); to_string (row_ppid r); to_string (row_sid r)].

Definition row_text (r : row) : string :=
  append (String.concat "," (row_values r)) nl.

Definition header_labels : list string :=
  ["exe"; "name"; "cpumask"; "policy"; "nice"; "priority"; "tid"; "pid";
   "ppid"; "sid"; "cpu"].

(** The kernel interfaces one turn of the scan calls, in order: the first
    call of each of the seven readers. *)
Definition probe_calls (i : Z) : list call :=
  [call_sched_getaffinity i; call_sched_getparam i; call_sched_getscheduler i;
   call_readlink (proc_path i "/exe"); call_getpriority i;
   call_fopen (proc_path i "/stat"); call_fopen (proc_path i "/status")].

(** ** When a reader finds its value, and when it sees the identifier gone *)

Definition exe_found (k : kernel) (process : Z) (exe : string) : Prop :=
  k_readlink k (proc_path process "/exe") = Success exe \/
  (k_readlink k (proc_path process "/exe") = Failure ENOENT /\ exe = "ENOENT").

Definition stat_found (k : kernel) (process ppid0 sid0 : Z) (s : stat_state) : Prop :=
  exists stat buffer rest,
    k_fopen k (proc_path process "/stat") = Success stat /\
    f_lines stat = buffer :: rest /\
    scan_stat buffer ppid0 sid0 = Ok s /\
    f_close stat = 0 /\
    4 <= st_field s /\
    st_pid s = process.

Definition stat_vanished (k : kernel) (process : Z) : Prop :=
  k_fopen k (proc_path process "/stat") = Failure ENOENT \/
  exists stat,
    k_fopen k (proc_path process "/stat") = Success stat /\
    f_lines stat = [] /\ f_error stat = Some ESRCH.

Definition status_found (k : kernel) (process ppid pgrp0 : Z) (name0 : string)
  (s : status_state) : Prop :=
  exists status,
    k_fopen k (proc_path process "/status") = Success status /\
    scan_status (f_lines status) (mkStatus name0 0 0 pgrp0) = Ok s /\
    f_error status = None /\
    f_close status = 0 /\
    ss_pid s = process /\
    ss_status_ppid s = ppid.

(** The flag a reader hands back: its own verdict, or the one it received. *)
Definition flag_after (not_there not_there' : bool) (found : Prop) : Prop :=
  (not_there' = not_there /\ found) \/ not_there' = true.

(** The identifiers [turns] turns of the scan visit, starting at [i]. *)
Fixpoint ids (turns : nat) (i : Z) : list Z :=
  match turns with
  | O => []
  | S turns' => i :: ids turns' (i + 1)
  end.

(** A call answers: it succeeds, or it says the identifier does not exist. *)
Definition answers {A} (r : sysres A) : Prop :=
  (exists a, r = Success a) \/ r = Failure ESRCH.

Definition status_answers (k : kernel) (i ppid : Z) : Prop :=
  (exists ss, status_found k i ppid 0 "" ss) \/
  k_fopen k (proc_path i "/status") = Failure ENOENT.

(** Every reader, for [i], either finds its value or sees the identifier
    gone: none meets another error, a malformed record or a mismatch. *)
Definition no_fatal (k : kernel) (i : Z) : Prop :=
  answers (k_sched_getaffinity k i) /\
  answers (k_sched_getparam k i) /\
  ((exists s, k_sched_getscheduler k i = Success s /\ s <> -1) \/
   k_sched_getscheduler k i = Failure ESRCH) /\
  ((exists exe, exe_found k i exe) \/
   k_readlink k (proc_path i "/exe") = Failure ESRCH) /\
  answers (k_getpriority k i) /\
  ((exists s, stat_found k i 0 0 s /\ status_answers k i (st_ppid s)) \/
   (stat_vanished k i /\ status_answers k i 0)).

(** A reader's outcome with the flag it was handed folded in. *)
Definition keep_flag {A} (not_there : bool) (x : result (A * bool) * world)
  : result (A * bool) * world :=
  match x with
  | (Ok (a, nt'), w) => (Ok (a, not_there || nt'), w)
  | (Abort f, w) => (Abort f, w)
  end.

(** Every reader found its value for [i], and [r] is the row they make. *)
Definition live (k : kernel) (all_cpus : cpu_set_t) (i : Z) (r : row) : Prop :=
  exists cpu_mask param scheduler s ss,
    k_sched_getaffinity k i = Success cpu_mask /\
    k_sched_getparam k i = Success param /\
    k_sched_getscheduler k i = Success scheduler /\ scheduler <> -1 /\
    exe_found k i (row_exe r) /\
    k_getpriority k i = Success (row_nice r) /\
    stat_found k i 0 0 s /\
    status_found k i (st_ppid s) 0 "" ss /\
    r = mkRow (row_exe r) (ss_name ss)
          (if CPU_EQUAL cpu_mask all_cpus then "all" else "???")
          (policy_string (scheduler mod 2 ^ 32))
          (row_nice r) (sched_priority param) i
          (ss_pgrp ss) (st_ppid s) (st_sid s).

(** Some reader is told that the identifier does not exist. *)
Definition vanishes (k : kernel) (i : Z) : Prop :=
  k_sched_getaffinity k i = Failure ESRCH \/
  k_sched_getparam k i = Failure ESRCH \/
  k_sched_getscheduler k i = Failure ESRCH \/
  k_readlink k (proc_path i "/exe") = Failure ESRCH \/
  k_getpriority k i = Failure ESRCH \/
  stat_vanished k i \/
  k_fopen k (proc_path i "/status") = Failure ENOENT.

(** A character that neither ends a C string or a field nor opens or
    closes a parenthesis. *)
Definition plain (c : ascii) : bool :=
  negb (Ascii.eqb c zero || Ascii.eqb c " " || Ascii.eqb c "(" || Ascii.eqb c ")").

(** Read from nesting depth [d], the characters of [l] each open a
    parenthesis or lie within one, and together leave the depth at zero. *)
Fixpoint opaque (d : Z) (l : list ascii) : bool :=
  match l with
  | [] => d =? 0
  | c :: l' =>
      negb (Ascii.eqb c zero) &&
      (let d1 := if Ascii.eqb c "(" then d + 1 else d in
       (d1 >? 0) && opaque (if Ascii.eqb c ")" then d1 - 1 else d1) l')
  end.

Definition with_parens (s : stat_state) (parens : Z) : stat_state :=
  mkStat (st_pid s) (st_ppid s) (st_sid s) (st_field s) (st_field_start s) parens.

(** The locals after a field was completed at index [i]. *)
Definition next_field (s : stat_state) (i : nat) : stat_state :=
  mkStat (st_pid s) (st_ppid s) (st_sid s) (st_field s + 1) (S i) 0.

(** The value of the decimal digits [d], read after the number [acc]. *)
Fixpoint uint_value (d : Decimal.uint) (acc : Z) : Z :=
  match d with
  | Decimal.Nil => acc
  | Decimal.D0 d' => uint_value d' (10 * acc + 0)
  | Decimal.D1 d' => uint_value d' (10 * acc + 1)
  | Decimal.D2 d' => uint_value d' (10 * acc + 2)
  | Decimal.D3 d' => uint_value d' (10 * acc + 3)
  | Decimal.D4 d' => uint_value d' (10 * acc + 4)
  | Decimal.D5 d' => uint_value d' (10 * acc + 5)
  | Decimal.D6 d' => uint_value d' (10 * acc + 6)
  | Decimal.D7 d' => uint_value d' (10 * acc + 7)
  | Decimal.D8 d' => uint_value d' (10 * acc + 8)
  | Decimal.D9 d' => uint_value d' (10 * acc + 9)
  end.

(** The characters [%d] writes for the digits [d]. *)
Definition uint_chars (d : Decimal.uint) : list ascii :=
  list_ascii_of_string (NilEmpty.string_of_uint d).

(** How often the character [c] occurs in [s]. *)
Fixpoint count_char (c : ascii) (s : string) : nat :=
  match s with
  | EmptyString => O
  | String a s' => (if Ascii.eqb a c then 1 else 0) + count_char c s'
  end.

(** No character of [l] is a NUL. *)
Definition no_nul (l : list ascii) : Prop :=
  Forall (fun c => Ascii.eqb c zero = false) l.

(** Trimming as a function on the characters alone: the leading blanks
    dropped, then the trailing ones; [None] when nothing else is there. *)
Fixpoint drop_blanks (l : list ascii) : list ascii :=
  match l with
  | c :: l' => if is_blank c then drop_blanks l' else l
  | [] => []
  end.

Definition strip_chars (l : list ascii) : option (list ascii) :=
  match drop_blanks l with
  | [] => None
  | l1 => Some (rev (drop_blanks (rev l1)))
  end.

(** A text with something at either end that [strip] keeps. *)
Definition trimmed (l : list ascii) : Prop :=
  exists c t init c',
    l = c :: t /\ is_blank c = false /\ l = init ++ [c'] /\ is_blank c' = false.

(** A statistics record in the kernel's layout: the identifier, the name in
    parentheses, the state, the parent id, field 4, and what follows. *)
Definition stat_record (pid : Z) (comm state : list ascii) (ppid sid : Z)
  (tail : list ascii) : string :=
  string_of_list_ascii
    (list_ascii_of_string (to_string pid)
       ++ " "%char :: ("("%char :: comm ++ [")"%char])
       ++ " "%char :: state
       ++ " "%char :: list_ascii_of_string (to_string ppid)
       ++ " "%char :: list_ascii_of_string (to_string sid)
       ++ " "%char :: tail).

(** Read from nesting depth [d], the characters of [l] never bring the
    depth back to zero (up to a NUL, where the loop stops). *)
Fixpoint stays_open (d : Z) (l : list ascii) : bool :=
  match l with
  | [] => true
  | c :: l' =>
      if Ascii.eqb c zero then true
      else
        let d1 := if Ascii.eqb c "(" then d + 1 else d in
        (d1 >? 0) && stays_open (if Ascii.eqb c ")" then d1 - 1 else d1) l'
  end.

(** Every character is one [strip] removes. *)
Definition all_blank (l : list ascii) : Prop :=
  Forall (fun c => is_blank c = true) l.

(** A call is refused: it fails, and not because the identifier does not
    exist. *)
Definition refuses {A} (r : sysres A) : Prop :=
  exists e, r = Failure e /\ e <> ESRCH.

(** Of the three scheduling queries for [i], the [n]th is refused and those
    before it answer. *)
Definition sched_refused (k : kernel) (i : Z) (n : nat) : Prop :=
  match n with
  | 1%nat => refuses (k_sched_getaffinity k i)
  | 2%nat => answers (k_sched_getaffinity k i) /\ refuses (k_sched_getparam k i)
  | 3%nat =>
      answers (k_sched_getaffinity k i) /\ answers (k_sched_getparam k i) /\
      refuses (k_sched_getscheduler k i)
  | _ => False
  end.

(** The line starts with one of the four labels [read_status] looks for. *)
Definition labelled (buffer : string) : bool :=
  let line := view_of (c_str (list_ascii_of_string buffer)) in
  existsb (starts_with line) ["Name:"; "Pid:"; "PPid:"; "Tgid:"].

(** The labels of the four lines [read_status] looks for. *)
Definition status_labels : list (list ascii) :=
  map list_ascii_of_string ["Name"; "Pid"; "PPid"; "Tgid"].

Definition no_colon (l : list ascii) : bool :=
  forallb (fun c => negb (Ascii.eqb c ":")) l.

(** The newline character. *)
Definition newline : ascii := ascii_of_nat 10.

Definition no_newline (l : list ascii) : bool :=
  forallb (fun c => negb (Ascii.eqb c newline)) l.

(** One call of [fgets] with room for [room] characters before the NUL:
    what it stores, up to and including the first newline, and what is left
    of the text for the next call. *)
Fixpoint fgets (room : nat) (text : list ascii) : list ascii * list ascii :=
  match room, text with
  | S room', c :: text' =>
      if Ascii.eqb c newline then ([c], text')
      else let '(line, rest) := fgets room' text' in (c :: line, rest)
  | _, _ => ([], text)
  end.

(** What successive calls of [fgets] with a buffer of [size] characters
    store, up to end of file. *)
Fixpoint fgets_lines (calls size : nat) (text : list ascii) : list string :=
  match calls, text with
  | S calls', _ :: _ =>
      let '(line, rest) := fgets (size - 1) text in
      string_of_list_ascii line :: fgets_lines calls' size rest
  | _, _ => []
  end.

(** The [f_lines] of a file that holds [text], read through a buffer of
    [size] characters. *)
Definition file_lines (size : nat) (text : string) : list string :=
  let l := list_ascii_of_string text in
  fgets_lines (List.length l) size l.

(** A line that [fgets] stores whole in a buffer of [size] characters. *)
Definition one_line (size : nat) (s : string) : Prop :=
  exists body,
    list_ascii_of_string s = body ++ [newline] /\
    no_newline body = true /\
    (List.length body + 2 <= size)%nat.

(** What has left the process on file descriptor 1 when it is gone.  The
    stream is flushed when [main] returns and by [std::exit]; an exception
    nobody catches ends in [std::terminate] and [abort], which does not
    flush: then only some beginning of the text has been handed over (all
    of it when the stream is line buffered, none when it is fully buffered
    and its buffer never filled).  After undefined behaviour nothing is
    known. *)
Definition delivered (x : result unit * world) (out : string) : Prop :=
  let text := String.concat "" (stdout (snd x)) in
  match fst x with
  | Ok _ | Abort Exit1 => out = text
  | Abort Uncaught => String.prefix out text = true
  | Abort Undefined => True
  end.

(** * Test kernels *)

Definition tab : string := String (ascii_of_nat 9) EmptyString.

(** What the kernel exposes about one thread. *)
Record thread : Type := mkThread {
  t_tid : Z;
  t_affinity : cpu_set_t;
  t_priority : Z;
  t_policy : Z;
  t_exe : sysres string;
  t_nice : Z;
  t_stat : string;
  t_status : list string
}.

Definition status_record (name : string) (tgid pid ppid : Z) : list string :=
  [append "Name:" (append tab (append name nl));
   append "Umask:" (append tab (append "0022" nl));
   append "Tgid:" (append tab (append (to_string tgid) nl));
   append "Pid:" (append tab (append (to_string pid) nl));
   append "PPid:" (append tab (append (to_string ppid) nl))].

Fixpoint find_thread (ts : list thread) (p : Z) : option thread :=
  match ts with
  | [] => None
  | t :: ts' => if t_tid t =? p then Some t else find_thread ts' p
  end.

Fixpoint find_file (ts : list thread) (path : string) : sysres FILE :=
  match ts with
  | [] => Failure ENOENT
  | t :: ts' =>
      if String.eqb path (proc_path (t_tid t) "/stat")
      then Success (mkFILE [t_stat t] None 0)
      else if String.eqb path (proc_path (t_tid t) "/status")
      then Success (mkFILE (t_status t) None 0)
      else find_file ts' path
  end.

Fixpoint find_link (ts : list thread) (path : string) : sysres string :=
  match ts with
  | [] => Failure ENOENT
  | t :: ts' =>
      if String.eqb path (proc_path (t_tid t) "/exe") then t_exe t
      else find_link ts' path
  end.

Definition thread_query {A} (ts : list thread) (f : thread -> A) (p : Z)
  : sysres A :=
  match find_thread ts p with
  | Some t => Success (f t)
  | None => Failure ESRCH
  end.

(** A kernel with [nproc] processors, the given [pid_max] file and exactly
    the threads [ts]. *)
Definition kernel_of (pid_max : string) (nproc : Z) (ts : list thread) : kernel :=
  {| k_sysconf_nprocessors_conf := Success nproc;
     k_fopen := fun path =>
       if String.eqb path pid_max_path
       then Success (mkFILE [pid_max] None 0)
       else find_file ts path;
     k_sched_getaffinity := thread_query ts t_affinity;
     k_sched_getparam := thread_query ts (fun t => mkSchedParam (t_priority t));
     k_sched_getscheduler := thread_query ts t_policy;
     k_readlink := find_link ts;
     k_getpriority := thread_query ts t_nice |}.

Definition world0 : world := mkWorld 0 [] [].

Definition init_thread : thread :=
  mkThread 1 15 0 SCHED_OTHER (Success "/bin/init") 0
    (append "1 (init) S 0 1 1 0 -1" nl) (status_record "init" 1 1 0).

(** A kernel thread: no executable, real-time, pinned to CPU 0. *)
Definition kernel_thread : thread :=
  mkThread 2 1 99 SCHED_FIFO (Failure ENOENT) (-20)
    (append "2 (kth (a b)) S 1 0 0 0 -1" nl) (status_record "kth (a b)" 2 2 1).

Definition k_demo : kernel :=
  kernel_of (append "3" nl) 4 [init_thread; kernel_thread].

(** Thread 1 exits right after its affinity was read, and stays gone. *)
Definition k_gone : kernel :=
  let k := kernel_of (append "3" nl) 4 [kernel_thread] in
  mkKernel (k_sysconf_nprocessors_conf k) (k_fopen k)
    (fun p => if p =? 1 then Success 15 else k_sched_getaffinity k p)
    (k_sched_getparam k) (k_sched_getscheduler k) (k_readlink k)
    (k_getpriority k).

(** Thread 1 is gone when its scheduling parameter is asked for, and the
    link of a newcomer under the same identifier may not be read. *)
Definition k_exits_midway : kernel :=
  mkKernel (k_sysconf_nprocessors_conf k_demo) (k_fopen k_demo)
    (k_sched_getaffinity k_demo)
    (fun p => if p =? 1 then Failure ESRCH else k_sched_getparam k_demo p)
    (k_sched_getscheduler k_demo)
    (fun path =>
       if String.eqb path (proc_path 1 "/exe") then Failure EACCES
       else k_readlink k_demo path)
    (k_getpriority k_demo).

(** Thread 2 is gone for the affinity query and has no statistics record,
    but a status record is there again when it is opened. *)
Definition k_reused : kernel :=
  mkKernel (k_sysconf_nprocessors_conf k_demo)
    (fun path =>
       if String.eqb path (proc_path 2 "/stat") then Failure ENOENT
       else k_fopen k_demo path)
    (fun p => if p =? 2 then Failure ESRCH else k_sched_getaffinity k_demo p)
    (k_sched_getparam k_demo) (k_sched_getscheduler k_demo)
    (k_readlink k_demo) (k_getpriority k_demo).

(** Thread 1, whose two records disagree with its identifier. *)
Definition k_mismatch : kernel :=
  kernel_of (append "3" nl) 4
    [mkThread 1 15 0 SCHED_OTHER (Success "/bin/init") 0
       (append "5 (init) S 0 1 1 0 -1" nl) (status_record "init" 1 1 7)].

(** A kernel that answers for identifier 0 as well, with [pid_max] 2. *)
Definition k_from_zero : kernel :=
  kernel_of (append "2" nl) 4
    [mkThread 0 15 0 SCHED_OTHER (Failure ENOENT) 0
       (append "0 (swapper) S 0 0 0 0 -1" nl) (status_record "swapper" 0 0 0);
     init_thread].

(** Thread 7, whose statistics record stops after the parent id. *)
Definition k_short : kernel :=
  kernel_of (append "8" nl) 4
    [mkThread 7 15 0 SCHED_OTHER (Success "/bin/x") 0
       "7 (x) S 1 " (status_record "x" 7 7 1)].

(** A world in which an earlier call has left [ESRCH] in the indicator. *)
Definition world_stale : world := mkWorld (Z.pos ESRCH) [] [].

(** Every link query says the identifier is gone, and every niceness query
    is refused. *)
Definition k_refusing : kernel :=
  mkKernel (k_sysconf_nprocessors_conf k_demo) (k_fopen k_demo)
    (k_sched_getaffinity k_demo) (k_sched_getparam k_demo)
    (k_sched_getscheduler k_demo)
    (fun _ => Failure ESRCH) (fun _ => Failure EACCES).

Definition EPERM : positive := 1.

(** The scheduling parameter of thread 2 may not be read. *)
Definition k_denied : kernel :=
  mkKernel (k_sysconf_nprocessors_conf k_demo) (k_fopen k_demo)
    (k_sched_getaffinity k_demo)
    (fun p => if p =? 2 then Failure EPERM else k_sched_getparam k_demo p)
    (k_sched_getscheduler k_demo) (k_readlink k_demo) (k_getpriority k_demo).

(** Thread 7, whose name has an opening parenthesis that nothing closes. *)
Definition k_unclosed : kernel :=
  kernel_of (append "8" nl) 4
    [mkThread 7 15 0 SCHED_OTHER (Success "/bin/x") 0
       (append "7 (a(b) S 1 7 7 0 -1" nl) (status_record "a(b" 7 7 1)].

(** Thread 7, whose name closes a parenthesis, goes on after a blank and
    opens one. *)
Definition k_split : kernel :=
  kernel_of (append "8" nl) 4
    [mkThread 7 15 0 SCHED_OTHER (Success "/bin/x") 0
       (append "7 (a) (b) S 1 7 7 0 -1" nl) (status_record "a) (b" 7 7 1)].

(** Thread 1 runs [SCHED_FIFO] with the reset-on-fork flag, which
    [sched_getscheduler] reports within the policy value. *)
Definition k_reset_on_fork : kernel :=
  kernel_of (append "3" nl) 4
    [mkThread 1 15 10 (SCHED_FIFO + 2 ^ 30) (Success "/bin/init") 0
       (append "1 (init) S 0 1 1 0 -1" nl) (status_record "init" 1 1 0)].

(** Thread 1, whose name holds a comma. *)
Definition k_comma : kernel :=
  kernel_of (append "3" nl) 4
    [mkThread 1 15 0 SCHED_OTHER (Success "/bin/init") 0
       (append "1 (a,b) S 0 1 1 0 -1" nl) (status_record "a,b" 1 1 0)].

(** The six policy values [policy_string] knows. *)
Definition known_policies : list Z :=
  [SCHED_OTHER; SCHED_BATCH; SCHED_IDLE; SCHED_FIFO; SCHED_RR; SCHED_DEADLINE].

Definition policy_labels : list string :=
  ["OTHER"; "BATCH"; "IDLE"; "FIFO"; "RR"; "DEADLINE"; "???"].

Arguments proc_path : simpl never.
Arguments to_string : simpl never.

(** * What the readers do *)

Ltac world_simpl := cbn [errno stdout trace fst snd].

(** Unfolds the monad down to plain functions on the world. *)
Ltac run_monad :=
  unfold syscall, PLOG, LOG, CHECK_EQ, PCHECK, retval, fclose;
  unfold bind, ret, abort, lift, get_errno, set_errno, log_call;
  world_simpl.

(** Splits on a test of the error indicator against an error code. *)
Ltac case_errno :=
  match goal with
  | |- context [Z.pos ?e =? Z.pos ?c] =>
      let E := fresh "E" in destruct (Z.pos e =? Z.pos c) eqn:E
  end.

Ltac done_run :=
  eexists _, _; (split; [reflexivity |]); world_simpl; auto 8.

Lemma eqb_pos_ESRCH (e : positive) :
  (Z.pos e =? Z.pos ESRCH) = true <-> e = ESRCH.
Proof.
  rewrite Z.eqb_eq. split; intros H; [now inversion H | now subst].
Qed.

Lemma eqb_pos_ENOENT (e : positive) :
  (Z.pos e =? Z.pos ENOENT) = true <-> e = ENOENT.
Proof.
  rewrite Z.eqb_eq. split; intros H; [now inversion H | now subst].
Qed.

Section Readers.

Variable k : kernel.
Variable process : Z.

(** *** CPU affinity *)

Lemma find_cpu_mask_spec not_there w :
  exists r w',
    find_cpu_mask k process not_there w = (r, w') /\
    stdout w' = stdout w /\
    trace w' = trace w ++ [call_sched_getaffinity process] /\
    match r with
    | Ok (mask, nt') =>
        flag_after not_there nt' (k_sched_getaffinity k process = Success mask)
    | Abort f => f = Exit1
    end.
Proof.
  unfold find_cpu_mask, flag_after. run_monad.
  destruct (k_sched_getaffinity k process) as [mask | e]; world_simpl.
  - cbn. done_run.
  - case_errno; cbn; done_run.
Qed.

Lemma find_cpu_mask_found not_there w mask :
  k_sched_getaffinity k process = Success mask ->
  exists w', find_cpu_mask k process not_there w = (Ok (mask, not_there), w').
Proof.
  intros H. unfold find_cpu_mask. run_monad. rewrite H. cbn. eauto.
Qed.

Lemma find_cpu_mask_vanished not_there w :
  k_sched_getaffinity k process = Failure ESRCH ->
  exists w', find_cpu_mask k process not_there w = (Ok (CPU_ZERO, true), w').
Proof.
  intros H. unfold find_cpu_mask. run_monad. rewrite H. cbn. eauto.
Qed.

(** *** Scheduling parameter *)

Lemma find_sched_param_spec not_there w :
  exists r w',
    find_sched_param k process not_there w = (r, w') /\
    stdout w' = stdout w /\
    trace w' = trace w ++ [call_sched_getparam process] /\
    match r with
    | Ok (param, nt') =>
        flag_after not_there nt' (k_sched_getparam k process = Success param)
    | Abort f => f = Exit1
    end.
Proof.
  unfold find_sched_param, flag_after. run_monad.
  destruct (k_sched_getparam k process) as [param | e]; world_simpl.
  - cbn. done_run.
  - case_errno; cbn; done_run.
Qed.

Lemma find_sched_param_found not_there w param :
  k_sched_getparam k process = Success param ->
  exists w', find_sched_param k process not_there w = (Ok (param, not_there), w').
Proof.
  intros H. unfold find_sched_param. run_monad. rewrite H. cbn. eauto.
Qed.

Lemma find_sched_param_vanished not_there w :
  k_sched_getparam k process = Failure ESRCH ->
  exists w',
    find_sched_param k process not_there w = (Ok (mkSchedParam 0, true), w').
Proof.
  intros H. unfold find_sched_param. run_monad. rewrite H. cbn. eauto.
Qed.

(** *** Scheduling policy *)

Lemma find_scheduler_spec not_there w :
  exists r w',
    find_scheduler k process not_there w = (r, w') /\
    stdout w' = stdout w /\
    trace w' = trace w ++ [call_sched_getscheduler process] /\
    match r with
    | Ok (scheduler, nt') =>
        flag_after not_there nt'
          (k_sched_getscheduler k process = Success scheduler /\ scheduler <> -1)
    | Abort f => f = Exit1
    end.
Proof.
  unfold find_scheduler, flag_after. run_monad.
  destruct (k_sched_getscheduler k process) as [s | e]; world_simpl.
  - destruct (s =? -1) eqn:Es.
    + destruct (errno w =? Z.pos ESRCH); cbn; done_run.
    + apply Z.eqb_neq in Es. cbn. done_run.
  - case_errno; cbn; done_run.
Qed.

Lemma find_scheduler_found not_there w scheduler :
  k_sched_getscheduler k process = Success scheduler ->
  scheduler <> -1 ->
  exists w', find_scheduler k process not_there w = (Ok (scheduler, not_there), w').
Proof.
  intros H Hs. unfold find_scheduler. run_monad. rewrite H. world_simpl.
  apply Z.eqb_neq in Hs. rewrite Hs. cbn. eauto.
Qed.

Lemma find_scheduler_vanished not_there w :
  k_sched_getscheduler k process = Failure ESRCH ->
  exists w', find_scheduler k process not_there w = (Ok (0, true), w').
Proof.
  intros H. unfold find_scheduler. run_monad. rewrite H. cbn. eauto.
Qed.

(** *** Executable *)

Lemma readlink_size_not_error (exe_buffer : string) :
  (Z.of_nat (String.length exe_buffer) =? -1) = false.
Proof. apply Z.eqb_neq. lia. Qed.

Lemma find_exe_spec not_there w :
  exists r w',
    find_exe k process not_there w = (r, w') /\
    stdout w' = stdout w /\
    trace w' = trace w ++ [call_readlink (proc_path process "/exe")] /\
    match r with
    | Ok (exe, nt') => flag_after not_there nt' (exe_found k process exe)
    | Abort f => f = Exit1
    end.
Proof.
  unfold find_exe, flag_after, exe_found. run_monad.
  destruct (k_readlink k (proc_path process "/exe")) as [exe | e]; world_simpl.
  - rewrite readlink_size_not_error. done_run.
  - change (-1 =? -1) with true. cbv iota. world_simpl.
    case_errno.
    + apply eqb_pos_ENOENT in E. subst e. done_run.
    + case_errno; done_run.
Qed.

Lemma find_exe_found not_there w exe :
  exe_found k process exe ->
  exists w', find_exe k process not_there w = (Ok (exe, not_there), w').
Proof.
  intros [H | [H ->]]; unfold find_exe; run_monad; rewrite H; world_simpl.
  - rewrite readlink_size_not_error. eauto.
  - cbn. eauto.
Qed.

Lemma find_exe_vanished not_there w :
  k_readlink k (proc_path process "/exe") = Failure ESRCH ->
  exists w', find_exe k process not_there w = (Ok ("", true), w').
Proof.
  intros H. unfold find_exe. run_monad. rewrite H. cbn. eauto.
Qed.

(** *** Niceness *)

Lemma find_nice_value_spec not_there w :
  exists r w',
    find_nice_value k process not_there w = (r, w') /\
    stdout w' = stdout w /\
    trace w' = trace w ++ [call_getpriority process] /\
    match r with
    | Ok (nice_value, nt') =>
        flag_after not_there nt' (k_getpriority k process = Success nice_value)
    | Abort f => f = Exit1
    end.
Proof.
  unfold find_nice_value, flag_after. run_monad.
  destruct (k_getpriority k process) as [n | e]; world_simpl.
  - cbn. done_run.
  - case_errno; cbn; done_run.
Qed.

Lemma find_nice_value_found not_there w nice_value :
  k_getpriority k process = Success nice_value ->
  exists w',
    find_nice_value k process not_there w = (Ok (nice_value, not_there), w').
Proof.
  intros H. unfold find_nice_value. run_monad. rewrite H. cbn. eauto.
Qed.

Lemma find_nice_value_vanished not_there w :
  k_getpriority k process = Failure ESRCH ->
  exists w', find_nice_value k process not_there w = (Ok (0, true), w').
Proof.
  intros H. unfold find_nice_value. run_monad. rewrite H. cbn. eauto.
Qed.

(** *** Statistics record *)

Lemma read_stat_spec ppid0 sid0 not_there w :
  exists r w',
    read_stat k process ppid0 sid0 not_there w = (r, w') /\
    stdout w' = stdout w /\
    trace w' = trace w ++ [call_fopen (proc_path process "/stat")] /\
    match r with
    | Ok (ppid, sid, nt') =>
        flag_after not_there nt'
          (exists s, stat_found k process ppid0 sid0 s /\
                     ppid = st_ppid s /\ sid = st_sid s)
    | Abort f => True
    end.
Proof.
  unfold read_stat, flag_after, stat_found. run_monad.
  destruct (k_fopen k (proc_path process "/stat")) as [stat | e] eqn:Eo;
    world_simpl.
  - destruct (f_lines stat) as [| buffer rest] eqn:El.
    + destruct (f_error stat) as [e' |]; world_simpl.
      * case_errno; done_run.
      * done_run.
    + destruct (scan_stat buffer ppid0 sid0) as [s | f] eqn:Es; world_simpl.
      * destruct (f_close stat =? 0) eqn:Ec; world_simpl; [| done_run].
        destruct (st_field s <? 4) eqn:Ef; world_simpl; [done_run |].
        destruct (st_pid s =? process) eqn:Ep; world_simpl; [| done_run].
        apply Z.eqb_eq in Ec, Ep. apply Z.ltb_ge in Ef.
        eexists _, _. split; [reflexivity |]. cbn.
        repeat split; auto. left. split; auto.
        exists s. repeat split; auto. exists stat, buffer, rest. auto 8.
      * done_run.
  - case_errno; done_run.
Qed.

Lemma read_stat_found ppid0 sid0 not_there w s :
  stat_found k process ppid0 sid0 s ->
  exists w',
    read_stat k process ppid0 sid0 not_there w
    = (Ok (st_ppid s, st_sid s, not_there), w').
Proof.
  intros (stat & buffer & rest & Ho & Hl & Hs & Hc & Hf & Hp).
  unfold read_stat. run_monad. rewrite Ho. world_simpl. rewrite Hl, Hs.
  world_simpl. rewrite Hc. cbn.
  apply Z.ltb_ge in Hf. rewrite Hf. apply Z.eqb_eq in Hp. rewrite Hp. eauto.
Qed.

Lemma read_stat_vanished ppid0 sid0 not_there w :
  stat_vanished k process ->
  exists w',
    read_stat k process ppid0 sid0 not_there w = (Ok (ppid0, sid0, true), w').
Proof.
  intros [H | (stat & Ho & Hl & He)]; unfold read_stat; run_monad.
  - rewrite H. cbn. eauto.
  - rewrite Ho. world_simpl. rewrite Hl, He. cbn. eauto.
Qed.

(** *** Status record *)

Lemma read_status_spec ppid pgrp0 name0 not_there w :
  exists r w',
    read_status k process ppid pgrp0 name0 not_there w = (r, w') /\
    stdout w' = stdout w /\
    trace w' = trace w ++ [call_fopen (proc_path process "/status")] /\
    match r with
    | Ok (pgrp, name, nt') =>
        flag_after not_there nt'
          (exists s, status_found k process ppid pgrp0 name0 s /\
                     pgrp = ss_pgrp s /\ name = ss_name s)
    | Abort f => True
    end.
Proof.
  unfold read_status, flag_after, status_found. run_monad.
  destruct (k_fopen k (proc_path process "/status")) as [status | e] eqn:Eo;
    world_simpl.
  - destruct (scan_status (f_lines status) (mkStatus name0 0 0 pgrp0))
      as [s | f] eqn:Es; world_simpl; [| done_run].
    destruct (f_error status) as [e' |] eqn:Ee; world_simpl; [done_run |].
    destruct (f_close status =? 0) eqn:Ec; world_simpl; [| done_run].
    destruct (ss_pid s =? process) eqn:Ep; world_simpl; [| done_run].
    destruct (ss_status_ppid s =? ppid) eqn:Epp; world_simpl; [| done_run].
    apply Z.eqb_eq in Ec, Ep, Epp.
    eexists _, _. split; [reflexivity |]. cbn.
    repeat split; auto. left. split; auto.
    exists s. repeat split; auto. exists status. auto 8.
  - case_errno; done_run.
Qed.

Lemma read_status_found ppid pgrp0 name0 not_there w s :
  status_found k process ppid pgrp0 name0 s ->
  exists w',
    read_status k process ppid pgrp0 name0 not_there w
    = (Ok (ss_pgrp s, ss_name s, not_there), w').
Proof.
  intros (status & Ho & Hs & He & Hc & Hp & Hpp).
  unfold read_status. run_monad. rewrite Ho. world_simpl. rewrite Hs.
  world_simpl. rewrite He, Hc. cbn.
  apply Z.eqb_eq in Hp, Hpp. rewrite Hp, Hpp. eauto.
Qed.

Lemma read_status_vanished ppid pgrp0 name0 not_there w :
  k_fopen k (proc_path process "/status") = Failure ENOENT ->
  exists w',
    read_status k process ppid pgrp0 name0 not_there w
    = (Ok (pgrp0, name0, true), w').
Proof.
  intros H. unfold read_status. run_monad. rewrite H. cbn. eauto.
Qed.

End Readers.

(** * One turn of the scan *)

Lemma append_assoc (a b c : string) :
  append (append a b) c = append a (append b c).
Proof.
  induction a as [| ch a IH]; cbn; [reflexivity | now rewrite IH].
Qed.

Lemma sprintf_row (r : row) :
  sprintf row_format
    [arg_s (row_exe r); arg_s (row_name r); arg_s (row_cpumask r);
     arg_s (row_policy r); arg_d (row_nice r); arg_d (row_priority r);
     arg_d (row_tid r); arg_d (row_pid r); arg_d (row_ppid r);
     arg_d (row_sid r)]
  = Some (row_text r).
Proof.
  unfold row_text, row_values. cbn.
  repeat (rewrite append_assoc; cbn [append]). reflexivity.
Qed.

Lemma printf_row exe name cpumask policy nice priority tid pid ppid sid w :
  printf row_format
    [arg_s exe; arg_s name; arg_s cpumask; arg_s policy; arg_d nice;
     arg_d priority; arg_d tid; arg_d pid; arg_d ppid; arg_d sid] w
  = (Ok tt,
     mkWorld (errno w)
       (stdout w
        ++ [row_text (mkRow exe name cpumask policy nice priority tid pid ppid sid)])
       (trace w)).
Proof.
  unfold printf.
  pose proof (sprintf_row
    (mkRow exe name cpumask policy nice priority tid pid ppid sid)) as H.
  cbn [row_exe row_name row_cpumask row_policy row_nice row_priority row_tid
       row_pid row_ppid row_sid] in H.
  rewrite H. reflexivity.
Qed.

Lemma flag_after_false nt (found : Prop) :
  flag_after nt false found -> nt = false /\ found.
Proof.
  intros [[<- H] | H]; [auto | discriminate].
Qed.

Lemma flag_after_true nt' (found : Prop) :
  flag_after true nt' found -> nt' = true.
Proof.
  intros [[-> _] | H]; auto.
Qed.

(** Closes the case in which a reader stopped the program. *)
Ltac reader_aborted :=
  eexists _, _; split; [reflexivity |];
  split; [left; congruence | discriminate].

(** What one turn leaves behind: nothing on standard output, or the row of
    a live identifier; and, when the turn completes, the seven calls. *)
Lemma main_loop_body_inv k all_cpus i w :
  exists r w',
    main_loop_body k all_cpus i w = (r, w') /\
    (stdout w' = stdout w \/
     (r = Ok tt /\
      exists ro, live k all_cpus i ro /\ stdout w' = stdout w ++ [row_text ro])) /\
    (r = Ok tt -> trace w' = trace w ++ probe_calls i).
Proof.
  unfold main_loop_body, bind.
  destruct (find_cpu_mask_spec k i false w) as (r1 & w1 & E1 & S1 & T1 & C1).
  rewrite E1. destruct r1 as [[cpu_mask nt1] | f]; [| reader_aborted].
  destruct (find_sched_param_spec k i nt1 w1) as (r2 & w2 & E2 & S2 & T2 & C2).
  rewrite E2. destruct r2 as [[param nt2] | f]; [| reader_aborted].
  destruct (find_scheduler_spec k i nt2 w2) as (r3 & w3 & E3 & S3 & T3 & C3).
  rewrite E3. destruct r3 as [[scheduler nt3] | f]; [| reader_aborted].
  destruct (find_exe_spec k i nt3 w3) as (r4 & w4 & E4 & S4 & T4 & C4).
  rewrite E4. destruct r4 as [[exe nt4] | f]; [| reader_aborted].
  destruct (find_nice_value_spec k i nt4 w4) as (r5 & w5 & E5 & S5 & T5 & C5).
  rewrite E5. destruct r5 as [[nice_value nt5] | f]; [| reader_aborted].
  destruct (read_stat_spec k i 0 0 nt5 w5) as (r6 & w6 & E6 & S6 & T6 & C6).
  rewrite E6. destruct r6 as [[[ppid sid] nt6] | f]; [| reader_aborted].
  destruct (read_status_spec k i ppid 0 "" nt6 w6) as (r7 & w7 & E7 & S7 & T7 & C7).
  rewrite E7. destruct r7 as [[[pgrp name] nt7] | f]; [| reader_aborted].
  assert (HT : trace w7 = trace w ++ probe_calls i).
  { rewrite T7, T6, T5, T4, T3, T2, T1. unfold probe_calls.
    repeat rewrite <- app_assoc. reflexivity. }
  destruct nt7.
  - unfold ret. eexists _, _. split; [reflexivity |].
    split; [left; congruence | auto].
  - rewrite printf_row. eexists _, _. split; [reflexivity |]. cbn [stdout trace].
    split; [| auto]. right. split; [reflexivity |].
    apply flag_after_false in C7. destruct C7 as [-> (ss & F7 & -> & ->)].
    apply flag_after_false in C6. destruct C6 as [-> (s & F6 & -> & ->)].
    apply flag_after_false in C5. destruct C5 as [-> F5].
    apply flag_after_false in C4. destruct C4 as [-> F4].
    apply flag_after_false in C3. destruct C3 as [-> [F3 N3]].
    apply flag_after_false in C2. destruct C2 as [-> F2].
    apply flag_after_false in C1. destruct C1 as [_ F1].
    eexists. split; [| f_equal; congruence].
    exists cpu_mask, param, scheduler, s, ss. cbn. auto 12.
Qed.

Lemma live_not_vanishes k all_cpus i ro :
  live k all_cpus i ro -> vanishes k i -> False.
Proof.
  intros (cpu_mask & param & scheduler & s & ss & H1 & H2 & H3 & _ & H4 & H5
          & (stat & buffer & rest & H6 & H6l & _) & (status & H7 & _) & _).
  intros [V | [V | [V | [V | [V | [V | V]]]]]]; try congruence.
  - destruct H4 as [H4 | [H4 _]]; rewrite H4 in V; discriminate.
  - destruct V as [V | (stat' & V & Vl & _)]; congruence.
Qed.

(** A turn in which some reader is told the identifier is gone prints
    nothing, however the turn ends. *)
Lemma main_loop_body_vanishes k all_cpus i w :
  vanishes k i ->
  stdout (snd (main_loop_body k all_cpus i w)) = stdout w.
Proof.
  intros V.
  destruct (main_loop_body_inv k all_cpus i w) as (r & w' & E & [H | H] & _);
    rewrite E; cbn [snd]; [exact H |].
  destruct H as (_ & ro & L & _). destruct (live_not_vanishes _ _ _ _ L V).
Qed.

(** A live identifier gets its row. *)
Lemma main_loop_body_live k all_cpus i ro w :
  live k all_cpus i ro ->
  exists w',
    main_loop_body k all_cpus i w = (Ok tt, w') /\
    stdout w' = stdout w ++ [row_text ro] /\
    trace w' = trace w ++ probe_calls i.
Proof.
  intros (cpu_mask & param & scheduler & s & ss & H1 & H2 & H3 & N3 & H4 & H5
          & H6 & H7 & Hro).
  assert (E : exists w',
             main_loop_body k all_cpus i w = (Ok tt, w') /\
             stdout w' = stdout w ++ [row_text ro]).
  { unfold main_loop_body, bind.
    destruct (find_cpu_mask_found k i false w cpu_mask H1) as (w1 & E1).
    destruct (find_cpu_mask_spec k i false w) as (r1 & w1' & E1' & S1 & _).
    rewrite E1 in *. inversion E1'; subst r1 w1'; clear E1'.
    destruct (find_sched_param_found k i false w1 param H2) as (w2 & E2).
    destruct (find_sched_param_spec k i false w1) as (r2 & w2' & E2' & S2 & _).
    rewrite E2 in *. inversion E2'; subst r2 w2'; clear E2'.
    destruct (find_scheduler_found k i false w2 scheduler H3 N3) as (w3 & E3).
    destruct (find_scheduler_spec k i false w2) as (r3 & w3' & E3' & S3 & _).
    rewrite E3 in *. inversion E3'; subst r3 w3'; clear E3'.
    destruct (find_exe_found k i false w3 (row_exe ro) H4) as (w4 & E4).
    destruct (find_exe_spec k i false w3) as (r4 & w4' & E4' & S4 & _).
    rewrite E4 in *. inversion E4'; subst r4 w4'; clear E4'.
    destruct (find_nice_value_found k i false w4 (row_nice ro) H5) as (w5 & E5).
    destruct (find_nice_value_spec k i false w4) as (r5 & w5' & E5' & S5 & _).
    rewrite E5 in *. inversion E5'; subst r5 w5'; clear E5'.
    destruct (read_stat_found k i 0 0 false w5 s H6) as (w6 & E6).
    destruct (read_stat_spec k i 0 0 false w5) as (r6 & w6' & E6' & S6 & _).
    rewrite E6 in *. inversion E6'; subst r6 w6'; clear E6'.
    destruct (read_status_found k i (st_ppid s) 0 "" false w6 ss H7) as (w7 & E7).
    destruct (read_status_spec k i (st_ppid s) 0 "" false w6)
      as (r7 & w7' & E7' & S7 & _).
    rewrite E7 in *. inversion E7'; subst r7 w7'; clear E7'.
    rewrite printf_row. eexists. split; [reflexivity |]. cbn [stdout].
    rewrite <- Hro. f_equal. congruence. }
  destruct E as (w' & E & S). exists w'. repeat split; auto.
  destruct (main_loop_body_inv k all_cpus i w) as (r & w'' & E' & _ & T).
  rewrite E in E'. inversion E'; subst. auto.
Qed.

(** * The whole scan *)

Lemma live_tid k all_cpus i ro : live k all_cpus i ro -> row_tid ro = i.
Proof.
  intros (cpu_mask & param & scheduler & s & ss & H). decompose [and] H.
  match goal with E : ro = _ |- _ => rewrite E end. reflexivity.
Qed.

Lemma ids_seq (turns : nat) (i : Z) :
  ids turns i = map (fun j => i + Z.of_nat j) (seq 0 turns).
Proof.
  revert i. induction turns as [| n IH]; intros i; [reflexivity |].
  cbn [ids seq map]. rewrite IH, <- seq_shift, map_map. f_equal.
  - lia.
  - apply map_ext. intros j. lia.
Qed.

Lemma main_loop_inv k all_cpus turns :
  forall i w,
  exists r w' rows,
    main_loop k all_cpus turns i w = (r, w') /\
    stdout w' = stdout w ++ map row_text rows /\
    Forall (fun ro => i <= row_tid ro < i + Z.of_nat turns /\
                      live k all_cpus (row_tid ro) ro) rows /\
    StronglySorted Z.lt (map row_tid rows) /\
    (r = Ok tt -> trace w' = trace w ++ flat_map probe_calls (ids turns i)).
Proof.
  induction turns as [| n IH]; intros i w.
  - exists (Ok tt), w, []. cbn. rewrite !app_nil_r.
    repeat split; auto. constructor.
  - cbn [main_loop ids flat_map]. unfold bind.
    destruct (main_loop_body_inv k all_cpus i w) as (r1 & w1 & E1 & O1 & T1).
    rewrite E1. destruct r1 as [[] | f].
    + destruct (IH (i + 1) w1) as (r & w' & rows & E & O & F & Srt & T).
      rewrite E.
      assert (F' : Forall (fun ro => i <= row_tid ro < i + Z.of_nat (S n) /\
                                     live k all_cpus (row_tid ro) ro) rows).
      { eapply Forall_impl; [| exact F]. cbn beta. intros ro [B L]. split; [lia | auto]. }
      assert (T' : r = Ok tt ->
                   trace w' = trace w ++ probe_calls i
                                       ++ flat_map probe_calls (ids n (i + 1))).
      { intros Hr. rewrite (T Hr), (T1 eq_refl), app_assoc. reflexivity. }
      destruct O1 as [O1 | (_ & ro & L & O1)].
      * exists r, w', rows. repeat split; auto. congruence.
      * exists r, w', (ro :: rows). cbn [map].
        pose proof (live_tid _ _ _ _ L) as Htid.
        repeat split; auto.
        -- rewrite O, O1, <- app_assoc. reflexivity.
        -- constructor; [| exact F']. rewrite Htid. split; [lia | auto].
        -- constructor; [exact Srt |]. rewrite Forall_map.
           eapply Forall_impl; [| exact F]. cbn beta. intros ro' [B _]. lia.
    + exists (Abort f), w1, []. cbn [map]. rewrite app_nil_r.
      repeat split; auto; try constructor; try discriminate.
      destruct O1 as [O1 | (Hr & _)]; [exact O1 | discriminate].
Qed.

Lemma printf_header w :
  printf header_format [] w
  = (Ok tt, mkWorld (errno w) (stdout w ++ [header_format]) (trace w)).
Proof. reflexivity. Qed.

Lemma find_pid_max_spec k w :
  exists r w',
    find_pid_max k w = (r, w') /\
    stdout w' = stdout w /\
    trace w' = trace w ++ [call_fopen pid_max_path] /\
    forall w0, fst (find_pid_max k w0) = r.
Proof.
  unfold find_pid_max. run_monad.
  destruct (k_fopen k pid_max_path) as [f | e]; world_simpl.
  - destruct (fscanf_d f) as [n v]. run_monad.
    destruct (1 =? n); world_simpl; [| done_run].
    destruct (f_close f =? 0); world_simpl; done_run.
  - done_run.
Qed.

Lemma find_all_cpus_spec k w :
  exists r w',
    find_all_cpus k w = (r, w') /\
    stdout w' = stdout w /\
    trace w' = trace w ++ [call_sysconf_nprocessors_conf] /\
    forall w0, fst (find_all_cpus k w0) = r.
Proof.
  unfold find_all_cpus. run_monad.
  destruct (k_sysconf_nprocessors_conf k) as [n | e]; world_simpl.
  - destruct (to_int16 n =? -1); world_simpl; done_run.
  - destruct (to_int16 (-1) =? -1); world_simpl; done_run.
Qed.

(** What a run of the program writes and calls. *)
Lemma main_inv k w :
  exists r w' rows,
    main k w = (r, w') /\
    stdout w' = stdout w ++ header_format :: map row_text rows /\
    StronglySorted Z.lt (map row_tid rows) /\
    (forall ro, In ro rows ->
       exists pid_max all_cpus,
         fst (find_pid_max k w) = Ok pid_max /\
         fst (find_all_cpus k w) = Ok all_cpus /\
         0 <= row_tid ro < pid_max /\
         live k all_cpus (row_tid ro) ro) /\
    (r = Ok tt ->
       exists pid_max,
         fst (find_pid_max k w) = Ok pid_max /\
         trace w' = trace w
                    ++ [call_fopen pid_max_path; call_sysconf_nprocessors_conf]
                    ++ flat_map probe_calls (ids (Z.to_nat pid_max) 0)).
Proof.
  unfold main, bind. rewrite printf_header.
  set (w0 := mkWorld (errno w) (stdout w ++ [header_format]) (trace w)).
  destruct (find_pid_max_spec k w0) as (r1 & w1 & E1 & S1 & T1 & P1).
  rewrite E1. destruct r1 as [pid_max | f].
  2:{ exists (Abort f), w1, []. cbn [map]. repeat split; try constructor.
      - rewrite S1. subst w0. cbn [stdout]. reflexivity.
      - intros ro [].
      - discriminate. }
  destruct (find_all_cpus_spec k w1) as (r2 & w2 & E2 & S2 & T2 & P2).
  rewrite E2. destruct r2 as [all_cpus | f].
  2:{ exists (Abort f), w2, []. cbn [map]. repeat split; try constructor.
      - rewrite S2, S1. subst w0. cbn [stdout]. reflexivity.
      - intros ro [].
      - discriminate. }
  destruct (main_loop_inv k all_cpus (Z.to_nat pid_max) 0 w2)
    as (r & w' & rows & E & O & F & Srt & T).
  rewrite E. exists r, w', rows. repeat split; auto.
  - rewrite O, S2, S1. subst w0. cbn [stdout]. rewrite <- app_assoc. reflexivity.
  - intros ro Hin. rewrite Forall_forall in F. destruct (F ro Hin) as [B L].
    exists pid_max, all_cpus. rewrite (P1 w), (P2 w). repeat split; auto; lia.
  - intros Hr. exists pid_max. rewrite (P1 w). split; [reflexivity |].
    rewrite (T Hr), T2, T1. subst w0. cbn [trace].
    repeat rewrite <- app_assoc. reflexivity.
Qed.

(** * The configured CPU set *)

Lemma CPU_SET_bits (i c : Z) (r : cpu_set_t) :
  0 <= i -> 0 <= c ->
  Z.testbit (CPU_SET i r) c = Z.testbit r c || ((i =? c) && (i <? CPU_SETSIZE)).
Proof.
  intros Hi Hc. unfold CPU_SET.
  replace (0 <=? i) with true by (symmetry; apply Z.leb_le; lia).
  cbn [andb]. destruct (i <? CPU_SETSIZE).
  - rewrite Z.lor_spec, Z.shiftl_1_l, Z.pow2_bits_eqb by lia.
    now rewrite andb_true_r.
  - now rewrite andb_false_r, orb_false_r.
Qed.

Lemma cpu_set_loop_bits (turns : nat) :
  forall (i c : Z) (r : cpu_set_t),
    0 <= i -> 0 <= c ->
    Z.testbit (cpu_set_loop turns i r) c
    = Z.testbit r c
      || ((i <=? c) && (c <? i + Z.of_nat turns) && (c <? CPU_SETSIZE)).
Proof.
  induction turns as [| n IH]; intros i c r Hi Hc.
  - cbn [cpu_set_loop].
    replace ((i <=? c) && (c <? i + Z.of_nat 0)) with false; [now rewrite orb_false_r |].
    symmetry. apply andb_false_iff.
    destruct (Z.le_gt_cases i c); [right; apply Z.ltb_ge; lia | left; apply Z.leb_gt; lia].
  - cbn [cpu_set_loop]. rewrite IH, CPU_SET_bits by lia.
    rewrite <- orb_assoc. f_equal.
    destruct (Z.eqb_spec i c) as [-> | Hne].
    + replace (c + 1 <=? c) with false by (symmetry; apply Z.leb_gt; lia).
      replace (c <=? c) with true by (symmetry; apply Z.leb_le; lia).
      replace (c <? c + Z.of_nat (S n)) with true by (symmetry; apply Z.ltb_lt; lia).
      cbn [andb orb]. now rewrite orb_false_r.
    + cbn [andb orb].
      replace (i + 1 <=? c) with (i <=? c).
      * replace (i + 1 + Z.of_nat n) with (i + Z.of_nat (S n)) by lia. reflexivity.
      * destruct (Z.leb_spec i c), (Z.leb_spec (i + 1) c); auto; lia.
Qed.

Lemma to_int16_small (n : Z) : - 2 ^ 15 <= n < 2 ^ 15 -> to_int16 n = n.
Proof.
  intros H. unfold to_int16. rewrite Z.mod_small; lia.
Qed.

(** With [n] configured processors, [find_all_cpus] returns the set of the
    CPUs below [n] that a [cpu_set_t] can hold. *)
Lemma find_all_cpus_bits k w n :
  k_sysconf_nprocessors_conf k = Success n ->
  0 <= n < 2 ^ 15 ->
  exists all_cpus w',
    find_all_cpus k w = (Ok all_cpus, w') /\
    forall c, 0 <= c ->
      CPU_ISSET c all_cpus = (c <? n) && (c <? CPU_SETSIZE).
Proof.
  intros Hn Hr. unfold find_all_cpus. run_monad. rewrite Hn. world_simpl.
  rewrite to_int16_small by lia.
  replace (n =? -1) with false by (symmetry; apply Z.eqb_neq; lia).
  world_simpl. eexists _, _. split; [reflexivity |].
  intros c Hc. unfold CPU_ISSET. rewrite cpu_set_loop_bits by lia.
  unfold CPU_ZERO. rewrite Z.bits_0. cbn [orb].
  replace (0 <=? c) with true by (symmetry; apply Z.leb_le; lia).
  rewrite Z2Nat.id by lia. reflexivity.
Qed.

(** * [strip] *)

Lemma skipn_nth_cons (data : list ascii) (b : nat) :
  (b < List.length data)%nat ->
  skipn b data = nth b data zero :: skipn (S b) data.
Proof.
  revert b. induction data as [| x data IH]; intros b Hb; cbn in Hb; [lia |].
  destruct b as [| b]; [reflexivity |]. cbn. apply IH. lia.
Qed.

Lemma firstn_snoc_nth (l : list ascii) (n : nat) :
  (n < List.length l)%nat ->
  firstn (S n) l = firstn n l ++ [nth n l zero].
Proof.
  revert n. induction l as [| x l IH]; intros n Hn; cbn in Hn; [lia |].
  destruct n as [| n]; [reflexivity |].
  cbn [firstn nth app]. f_equal. apply IH. lia.
Qed.

Lemma nth_skipn_plus (data : list ascii) (b t : nat) :
  nth t (skipn b data) zero = nth (b + t) data zero.
Proof.
  revert data. induction b as [| b IH]; intros data; [reflexivity |].
  destruct data as [| x data]; [now destruct t |]. cbn. apply IH.
Qed.

(** The first loop: what it removes is blank, and what it leaves starts with
    a character that is not; it runs off the view exactly when the whole
    view is blank. *)
Lemma strip_left_spec (data : list ascii) (size : nat) :
  forall begin,
    (begin + size <= List.length data)%nat ->
    match strip_left data begin size with
    | Some v =>
        sv_data v = data /\ sv_wf v /\
        exists l c rest,
          firstn size (skipn begin data) = l ++ sv_chars v /\
          all_blank l /\
          sv_chars v = c :: rest /\ is_blank c = false
    | None => all_blank (firstn size (skipn begin data))
    end.
Proof.
  induction size as [| n IH]; intros b Hb.
  - cbn. constructor.
  - cbn [strip_left].
    rewrite (skipn_nth_cons data b) by lia. cbn [firstn].
    destruct (is_blank (nth b data zero)) eqn:Eb.
    + specialize (IH (S b)). destruct (strip_left data (S b) n) as [v |].
      * destruct IH as (Hd & Hwf & l & c & rest & Hl & Hbl & Hc & Hnb); [lia |].
        repeat split; auto.
        exists (nth b data zero :: l), c, rest. rewrite Hl.
        repeat split; auto. constructor; auto.
      * constructor; auto. apply IH. lia.
    + unfold sv_wf, sv_chars. cbn [sv_data sv_begin sv_size].
      repeat split; auto.
      exists [], (nth b data zero), (firstn n (skipn (S b) data)).
      rewrite (skipn_nth_cons data b) by lia. cbn [firstn app].
      repeat split; auto. constructor.
Qed.

(** The second loop, likewise at the other end. *)
Lemma strip_right_spec (data : list ascii) (size : nat) :
  forall begin,
    (begin + size <= List.length data)%nat ->
    match strip_right data begin size with
    | Some v =>
        sv_data v = data /\ sv_begin v = begin /\ sv_wf v /\
        exists r init c,
          firstn size (skipn begin data) = sv_chars v ++ r /\
          all_blank r /\
          sv_chars v = init ++ [c] /\ is_blank c = false
    | None => all_blank (firstn size (skipn begin data))
    end.
Proof.
  induction size as [| n IH]; intros b Hb.
  - cbn. constructor.
  - cbn [strip_right].
    assert (Hs : firstn (S n) (skipn b data)
                 = firstn n (skipn b data) ++ [nth (b + n) data zero]).
    { rewrite firstn_snoc_nth by (rewrite length_skipn; lia).
      now rewrite nth_skipn_plus. }
    destruct (is_blank (nth (b + n) data zero)) eqn:Eb.
    + specialize (IH b). destruct (strip_right data b n) as [v |].
      * destruct IH as (Hd & Hbeg & Hwf & r & init & c & Hr & Hbl & Hc & Hnb); [lia |].
        repeat split; auto.
        exists (r ++ [nth (b + n) data zero]), init, c.
        rewrite Hs, Hr, app_assoc. repeat split; auto.
        apply Forall_app. split; auto.
      * rewrite Hs. apply Forall_app. split; [apply IH; lia | auto].
    + unfold sv_wf, sv_chars. cbn [sv_data sv_begin sv_size].
      repeat split; auto.
      exists [], (firstn n (skipn b data)), (nth (b + n) data zero).
      rewrite app_nil_r. repeat split; auto. constructor.
Qed.

(** * The flag does not steer the readers

    A reader does the same calls, stops the program in the same cases and
    returns the same value whether or not the flag is already set; it only
    never clears it. *)

Ltac flag_done nt := destruct nt; reflexivity.

Section Flag.

Variable k : kernel.
Variable process : Z.

Lemma find_cpu_mask_flag not_there w :
  find_cpu_mask k process not_there w
  = keep_flag not_there (find_cpu_mask k process false w).
Proof.
  unfold find_cpu_mask. run_monad.
  destruct (k_sched_getaffinity k process) as [mask | e]; world_simpl.
  - cbn. flag_done not_there.
  - case_errno; cbn; flag_done not_there.
Qed.

Lemma find_sched_param_flag not_there w :
  find_sched_param k process not_there w
  = keep_flag not_there (find_sched_param k process false w).
Proof.
  unfold find_sched_param. run_monad.
  destruct (k_sched_getparam k process) as [param | e]; world_simpl.
  - cbn. flag_done not_there.
  - case_errno; cbn; flag_done not_there.
Qed.

Lemma find_scheduler_flag not_there w :
  find_scheduler k process not_there w
  = keep_flag not_there (find_scheduler k process false w).
Proof.
  unfold find_scheduler. run_monad.
  destruct (k_sched_getscheduler k process) as [s | e]; world_simpl.
  - destruct (s =? -1).
    + destruct (errno w =? Z.pos ESRCH); cbn; flag_done not_there.
    + cbn. flag_done not_there.
  - case_errno; cbn; flag_done not_there.
Qed.

Lemma find_exe_flag not_there w :
  find_exe k process not_there w
  = keep_flag not_there (find_exe k process false w).
Proof.
  unfold find_exe. run_monad.
  destruct (k_readlink k (proc_path process "/exe")) as [exe | e]; world_simpl.
  - rewrite readlink_size_not_error. cbn. flag_done not_there.
  - change (-1 =? -1) with true. cbv iota. world_simpl.
    case_errno; [cbn; flag_done not_there |].
    case_errno; cbn; flag_done not_there.
Qed.

Lemma find_nice_value_flag not_there w :
  find_nice_value k process not_there w
  = keep_flag not_there (find_nice_value k process false w).
Proof.
  unfold find_nice_value. run_monad.
  destruct (k_getpriority k process) as [n | e]; world_simpl.
  - cbn. flag_done not_there.
  - case_errno; cbn; flag_done not_there.
Qed.

Lemma read_stat_flag ppid sid not_there w :
  read_stat k process ppid sid not_there w
  = keep_flag not_there (read_stat k process ppid sid false w).
Proof.
  unfold read_stat. run_monad.
  destruct (k_fopen k (proc_path process "/stat")) as [stat | e]; world_simpl.
  - destruct (f_lines stat) as [| buffer rest].
    + destruct (f_error stat) as [e' |]; world_simpl; [| reflexivity].
      case_errno; cbn; flag_done not_there.
    + destruct (scan_stat buffer ppid sid) as [s | f]; world_simpl; [| reflexivity].
      destruct (f_close stat =? 0); world_simpl; [| reflexivity].
      destruct (st_field s <? 4); world_simpl; [reflexivity |].
      destruct (st_pid s =? process); world_simpl; [| reflexivity].
      cbn. flag_done not_there.
  - case_errno; cbn; flag_done not_there.
Qed.

Lemma read_status_flag ppid pgrp name not_there w :
  read_status k process ppid pgrp name not_there w
  = keep_flag not_there (read_status k process ppid pgrp name false w).
Proof.
  unfold read_status. run_monad.
  destruct (k_fopen k (proc_path process "/status")) as [status | e]; world_simpl.
  - destruct (scan_status (f_lines status) (mkStatus name 0 0 pgrp)) as [s | f];
      world_simpl; [| reflexivity].
    destruct (f_error status) as [e' |]; world_simpl; [reflexivity |].
    destruct (f_close status =? 0); world_simpl; [| reflexivity].
    destruct (ss_pid s =? process); world_simpl; [| reflexivity].
    destruct (ss_status_ppid s =? ppid); world_simpl; [| reflexivity].
    cbn. flag_done not_there.
  - case_errno; cbn; flag_done not_there.
Qed.

End Flag.

(** * A turn no reader stops *)

Lemma main_loop_body_no_fatal k all_cpus i w :
  no_fatal k i ->
  exists w', main_loop_body k all_cpus i w = (Ok tt, w').
Proof.
  intros (H1 & H2 & H3 & H4 & H5 & H6).
  unfold main_loop_body, bind.
  assert (E1 : exists a nt w1, find_cpu_mask k i false w = (Ok (a, nt), w1)).
  { destruct H1 as [[a H] | H].
    - destruct (find_cpu_mask_found k i false w a H) as (w1 & E). eauto.
    - destruct (find_cpu_mask_vanished k i false w H) as (w1 & E). eauto. }
  destruct E1 as (cpu_mask & nt1 & w1 & E1). rewrite E1. clear E1.
  assert (E2 : exists a nt w2, find_sched_param k i nt1 w1 = (Ok (a, nt), w2)).
  { destruct H2 as [[a H] | H].
    - destruct (find_sched_param_found k i nt1 w1 a H) as (w2 & E). eauto.
    - destruct (find_sched_param_vanished k i nt1 w1 H) as (w2 & E). eauto. }
  destruct E2 as (param & nt2 & w2 & E2). rewrite E2. clear E2.
  assert (E3 : exists a nt w3, find_scheduler k i nt2 w2 = (Ok (a, nt), w3)).
  { destruct H3 as [(a & H & N) | H].
    - destruct (find_scheduler_found k i nt2 w2 a H N) as (w3 & E). eauto.
    - destruct (find_scheduler_vanished k i nt2 w2 H) as (w3 & E). eauto. }
  destruct E3 as (scheduler & nt3 & w3 & E3). rewrite E3. clear E3.
  assert (E4 : exists a nt w4, find_exe k i nt3 w3 = (Ok (a, nt), w4)).
  { destruct H4 as [[a H] | H].
    - destruct (find_exe_found k i nt3 w3 a H) as (w4 & E). eauto.
    - destruct (find_exe_vanished k i nt3 w3 H) as (w4 & E). eauto. }
  destruct E4 as (exe & nt4 & w4 & E4). rewrite E4. clear E4.
  assert (E5 : exists a nt w5, find_nice_value k i nt4 w4 = (Ok (a, nt), w5)).
  { destruct H5 as [[a H] | H].
    - destruct (find_nice_value_found k i nt4 w4 a H) as (w5 & E). eauto.
    - destruct (find_nice_value_vanished k i nt4 w4 H) as (w5 & E). eauto. }
  destruct E5 as (nice_value & nt5 & w5 & E5). rewrite E5. clear E5.
  assert (E6 : exists ppid sid nt w6,
             read_stat k i 0 0 nt5 w5 = (Ok (ppid, sid, nt), w6) /\
             status_answers k i ppid).
  { destruct H6 as [(s & H & A) | [H A]].
    - destruct (read_stat_found k i 0 0 nt5 w5 s H) as (w6 & E). eauto 8.
    - destruct (read_stat_vanished k i 0 0 nt5 w5 H) as (w6 & E). eauto 8. }
  destruct E6 as (ppid & sid & nt6 & w6 & E6 & A). rewrite E6. clear E6.
  assert (E7 : exists pgrp name nt w7,
             read_status k i ppid 0 "" nt6 w6 = (Ok (pgrp, name, nt), w7)).
  { destruct A as [[ss H] | H].
    - destruct (read_status_found k i ppid 0 "" nt6 w6 ss H) as (w7 & E). eauto 8.
    - destruct (read_status_vanished k i ppid 0 "" nt6 w6 H) as (w7 & E). eauto 8. }
  destruct E7 as (pgrp & name & nt7 & w7 & E7). rewrite E7. clear E7.
  destruct nt7.
  - unfold ret. eauto.
  - rewrite printf_row. eauto.
Qed.

Lemma snoc_neq {A} (l : list A) (x : A) : l ++ [x] <> l.
Proof.
  intros H. apply (f_equal (@List.length A)) in H.
  rewrite length_app in H. cbn in H. lia.
Qed.

(** The line a turn prints, if it prints one, is the row of a live
    identifier. *)
Lemma main_loop_body_line k all_cpus i w line :
  stdout (snd (main_loop_body k all_cpus i w)) = stdout w ++ [line] ->
  exists ro, live k all_cpus i ro /\ line = row_text ro.
Proof.
  intros H.
  destruct (main_loop_body_inv k all_cpus i w) as (r & w' & E & [O | O] & _);
    rewrite E in H; cbn [snd] in H.
  - rewrite O in H. symmetry in H. destruct (snoc_neq _ _ H).
  - destruct O as (_ & ro & L & O). rewrite O in H.
    apply app_inv_head in H. inversion H. eauto.
Qed.

(** * The vanished identifier *)

(** C1, what fails: in [k_exits_midway] the affinity query for identifier 1
    succeeds and the scheduling-parameter query reports [ESRCH], yet the
    turn, and with it the program, ends in [LOG(FATAL)], because [readlink]
    then fails with [EACCES]. *)
Lemma vanished_identifier_can_end_fatally :
  k_sched_getaffinity k_exits_midway 1 = Success 15 /\
  k_sched_getparam k_exits_midway 1 = Failure ESRCH /\
  fst (main_loop_body k_exits_midway 15 1 world0) = Abort Exit1 /\
  fst (main k_exits_midway world0) = Abort Exit1.
Proof. vm_compute. repeat split; reflexivity. Qed.

(** C1, as amended: when a reader is told that the identifier does not
    exist, no line is written for it, however the turn ends; and when
    moreover no reader stops the program (each finds its value or sees the
    identifier gone), the turn completes and the scan goes on with the next
    identifier. *)
Theorem vanished_identifier_no_row k all_cpus i w :
  vanishes k i ->
  stdout (snd (main_loop_body k all_cpus i w)) = stdout w /\
  (no_fatal k i ->
   exists w',
     main_loop_body k all_cpus i w = (Ok tt, w') /\
     stdout w' = stdout w /\
     forall turns,
       main_loop k all_cpus (S turns) i w = main_loop k all_cpus turns (i + 1) w').
Proof.
  intros V. pose proof (main_loop_body_vanishes k all_cpus i w V) as S.
  split; [exact S |]. intros NF.
  destruct (main_loop_body_no_fatal k all_cpus i w NF) as (w' & E).
  exists w'. rewrite E in S. cbn [snd] in S. repeat split; auto.
  intros turns. cbn [main_loop]. unfold bind. rewrite E. reflexivity.
Qed.

Lemma k_gone_no_fatal : no_fatal k_gone 1.
Proof.
  unfold no_fatal, answers, status_answers, stat_vanished, exe_found.
  repeat split.
  - left. exists 15. reflexivity.
  - right. reflexivity.
  - right. reflexivity.
  - left. exists "ENOENT". right. split; reflexivity.
  - right. reflexivity.
  - right. split; [left | right]; reflexivity.
Defined.

(** In [k_gone] the affinity query for identifier 1 succeeds and the
    scheduling-parameter query reports [ESRCH]. *)
Lemma vanished_identifier_no_row_witness :
  k_sched_getaffinity k_gone 1 = Success 15 /\
  k_sched_getparam k_gone 1 = Failure ESRCH /\
  stdout (snd (main_loop_body k_gone 15 1 world0)) = stdout world0 /\
  exists w',
    main_loop_body k_gone 15 1 world0 = (Ok tt, w') /\
    stdout w' = stdout world0 /\
    forall turns,
      main_loop k_gone 15 (S turns) 1 world0 = main_loop k_gone 15 turns (1 + 1) w'.
Proof.
  split; [reflexivity |]. split; [reflexivity |].
  assert (V : vanishes k_gone 1) by (right; left; reflexivity).
  destruct (vanished_identifier_no_row k_gone 15 1 world0 V) as [S C].
  split; [exact S | exact (C k_gone_no_fatal)].
Defined.

(** * All readers run, whatever the flag *)

(** C2, what fails: in [k_reused] the first reader sets the flag for
    identifier 2; the last reader still runs, finds a parent id that differs
    from the one [main] holds, and its [CHECK_EQ] ends the program. *)
Lemma reader_after_flag_can_end_fatally :
  fst (find_cpu_mask k_reused 2 false world0) = Ok (CPU_ZERO, true) /\
  fst (main_loop_body k_reused 15 2 world0) = Abort Uncaught /\
  fst (main k_reused world0) = Abort Uncaught.
Proof. vm_compute. repeat split; reflexivity. Qed.

(** C2, as amended: a turn that completes has called the seven readers in
    their order, whether or not the flag was set on the way; a turn in which
    the flag is set writes nothing; and each reader does the same calls,
    stops the program in the same cases and returns the same value whatever
    flag it is handed, only never clearing it.  (So a reader that runs after
    the flag was set can still stop the program.) *)
Theorem readers_all_invoked k all_cpus i w :
  (fst (main_loop_body k all_cpus i w) = Ok tt ->
   trace (snd (main_loop_body k all_cpus i w)) = trace w ++ probe_calls i) /\
  (vanishes k i -> stdout (snd (main_loop_body k all_cpus i w)) = stdout w) /\
  (forall nt w1,
     find_cpu_mask k i nt w1 = keep_flag nt (find_cpu_mask k i false w1) /\
     find_sched_param k i nt w1 = keep_flag nt (find_sched_param k i false w1) /\
     find_scheduler k i nt w1 = keep_flag nt (find_scheduler k i false w1) /\
     find_exe k i nt w1 = keep_flag nt (find_exe k i false w1) /\
     find_nice_value k i nt w1 = keep_flag nt (find_nice_value k i false w1)) /\
  (forall nt w1 ppid sid,
     read_stat k i ppid sid nt w1 = keep_flag nt (read_stat k i ppid sid false w1)) /\
  (forall nt w1 ppid pgrp name,
     read_status k i ppid pgrp name nt w1
     = keep_flag nt (read_status k i ppid pgrp name false w1)).
Proof.
  split; [| split; [| split; [| split]]].
  - destruct (main_loop_body_inv k all_cpus i w) as (r & w' & E & _ & T).
    rewrite E. cbn [fst snd]. exact T.
  - apply main_loop_body_vanishes.
  - intros nt w1.
    split; [apply find_cpu_mask_flag |].
    split; [apply find_sched_param_flag |].
    split; [apply find_scheduler_flag |].
    split; [apply find_exe_flag | apply find_nice_value_flag].
  - intros. apply read_stat_flag.
  - intros. apply read_status_flag.
Qed.

Lemma readers_all_invoked_witness :
  trace (snd (main_loop_body k_gone 15 1 world0)) = trace world0 ++ probe_calls 1 /\
  stdout (snd (main_loop_body k_gone 15 1 world0)) = stdout world0.
Proof.
  destruct (readers_all_invoked k_gone 15 1 world0) as (T & S & _).
  split.
  - apply T. reflexivity.
  - apply S. right. left. reflexivity.
Defined.

(** * Identifiers of a row *)

Lemma read_stat_mismatch k process ppid0 sid0 not_there w stat buffer rest s :
  k_fopen k (proc_path process "/stat") = Success stat ->
  f_lines stat = buffer :: rest ->
  scan_stat buffer ppid0 sid0 = Ok s ->
  st_pid s <> process ->
  exists f w',
    read_stat k process ppid0 sid0 not_there w = (Abort f, w') /\ f <> Undefined.
Proof.
  intros Ho Hl Hs Hp. unfold read_stat. run_monad.
  rewrite Ho. world_simpl. rewrite Hl, Hs. world_simpl.
  destruct (f_close stat =? 0); world_simpl;
    [| eexists _, _; split; [reflexivity | discriminate]].
  destruct (st_field s <? 4); world_simpl;
    [eexists _, _; split; [reflexivity | discriminate] |].
  apply Z.eqb_neq in Hp. rewrite Hp. world_simpl.
  eexists _, _; split; [reflexivity | discriminate].
Qed.

Lemma read_status_mismatch k process ppid pgrp0 name0 not_there w status ss :
  k_fopen k (proc_path process "/status") = Success status ->
  scan_status (f_lines status) (mkStatus name0 0 0 pgrp0) = Ok ss ->
  ss_pid ss <> process \/ ss_status_ppid ss <> ppid ->
  exists f w',
    read_status k process ppid pgrp0 name0 not_there w = (Abort f, w') /\
    f <> Undefined.
Proof.
  intros Ho Hs Hm. unfold read_status. run_monad.
  rewrite Ho. world_simpl. rewrite Hs. world_simpl.
  destruct (f_error status); world_simpl;
    [eexists _, _; split; [reflexivity | discriminate] |].
  destruct (f_close status =? 0); world_simpl;
    [| eexists _, _; split; [reflexivity | discriminate]].
  destruct (ss_pid ss =? process) eqn:Ep; world_simpl;
    [| eexists _, _; split; [reflexivity | discriminate]].
  destruct (ss_status_ppid ss =? ppid) eqn:Epp; world_simpl;
    [| eexists _, _; split; [reflexivity | discriminate]].
  apply Z.eqb_eq in Ep, Epp. destruct Hm; contradiction.
Qed.

(** C3: the line written for [i] carries [i] as its tid; the statistics
    record and the [Pid:] of the status record both name [i]; the pid column
    is the [Tgid:] of the status record; and the ppid column is the parent id
    of the statistics record, which is the [PPid:] of the status record.  A
    record that was read and disagrees ends the program in its reader, by
    [CHECK_EQ] (or by an earlier check of that reader), even when the flag is
    already set. *)
Theorem row_ids_consistent k all_cpus i :
  (forall w line,
     stdout (snd (main_loop_body k all_cpus i w)) = stdout w ++ [line] ->
     exists ro s ss,
       line = row_text ro /\
       stat_found k i 0 0 s /\
       status_found k i (st_ppid s) 0 "" ss /\
       row_tid ro = i /\ st_pid s = i /\ ss_pid ss = i /\
       row_pid ro = ss_pgrp ss /\
       row_ppid ro = st_ppid s /\ row_ppid ro = ss_status_ppid ss) /\
  (forall not_there w ppid0 sid0 stat buffer rest s,
     k_fopen k (proc_path i "/stat") = Success stat ->
     f_lines stat = buffer :: rest ->
     scan_stat buffer ppid0 sid0 = Ok s ->
     st_pid s <> i ->
     exists f w',
       read_stat k i ppid0 sid0 not_there w = (Abort f, w') /\ f <> Undefined) /\
  (forall not_there w ppid pgrp0 name0 status ss,
     k_fopen k (proc_path i "/status") = Success status ->
     scan_status (f_lines status) (mkStatus name0 0 0 pgrp0) = Ok ss ->
     ss_pid ss <> i \/ ss_status_ppid ss <> ppid ->
     exists f w',
       read_status k i ppid pgrp0 name0 not_there w = (Abort f, w') /\
       f <> Undefined).
Proof.
  split; [| split].
  - intros w line H.
    destruct (main_loop_body_line k all_cpus i w line H) as (ro & L & ->).
    pose proof L as L'.
    destruct L' as (cpu_mask & param & scheduler & s & ss & _ & _ & _ & _ & _
                    & _ & H6 & H7 & Hro).
    exists ro, s, ss.
    pose proof H6 as (stat & buffer & rest & _ & _ & _ & _ & _ & Hp).
    pose proof H7 as (status & _ & _ & _ & _ & Hsp & Hspp).
    rewrite Hro. cbn. auto 12.
  - intros. eapply read_stat_mismatch; eauto.
  - intros. eapply read_status_mismatch; eauto.
Qed.

Lemma row_ids_consistent_witness :
  (exists ro s ss,
     append "/bin/init,init,all,OTHER,0,0,1,1,0,1" nl = row_text ro /\
     stat_found k_demo 1 0 0 s /\
     status_found k_demo 1 (st_ppid s) 0 "" ss /\
     row_tid ro = 1 /\ st_pid s = 1 /\ ss_pid ss = 1 /\
     row_pid ro = ss_pgrp ss /\
     row_ppid ro = st_ppid s /\ row_ppid ro = ss_status_ppid ss) /\
  (exists f w',
     read_stat k_mismatch 1 0 0 true world0 = (Abort f, w') /\ f <> Undefined) /\
  (exists f w',
     read_status k_mismatch 1 0 0 "" true world0 = (Abort f, w') /\
     f <> Undefined).
Proof.
  split; [| split].
  - apply (proj1 (row_ids_consistent k_demo 15 1) world0).
    vm_compute. reflexivity.
  - destruct (scan_stat (t_stat (mkThread 1 15 0 SCHED_OTHER (Success "/bin/init") 0
                (append "5 (init) S 0 1 1 0 -1" nl) (status_record "init" 1 1 7)))
                0 0) as [s | f] eqn:E; [| vm_compute in E; discriminate].
    eapply (proj1 (proj2 (row_ids_consistent k_mismatch 15 1))
              true world0 0 0 _ _ [] s).
    + vm_compute. reflexivity.
    + reflexivity.
    + exact E.
    + vm_compute in E. inversion E. cbn. discriminate.
  - destruct (scan_status (status_record "init" 1 1 7) (mkStatus "" 0 0 0))
      as [ss | f] eqn:E; [| vm_compute in E; discriminate].
    eapply (proj2 (proj2 (row_ids_consistent k_mismatch 15 1))
              true world0 0 0 "" _ ss).
    + vm_compute. reflexivity.
    + exact E.
    + right. vm_compute in E. inversion E. cbn. discriminate.
Defined.

(** * The range of the scan *)

(** C4, what fails: with [pid_max] 2 the scan visits the identifiers 0 and 1
    and never 2; and the row written for identifier 0 has tid 0. *)
Lemma scan_starts_at_zero_and_stops_before_pid_max :
  fst (find_pid_max k_from_zero world0) = Ok 2 /\
  fst (main k_from_zero world0) = Ok tt /\
  trace (snd (main k_from_zero world0))
  = [call_fopen pid_max_path; call_sysconf_nprocessors_conf]
    ++ probe_calls 0 ++ probe_calls 1 /\
  stdout (snd (main k_from_zero world0))
  = [header_format;
     row_text (mkRow "ENOENT" "swapper" "all" "OTHER" 0 0 0 0 0 0);
     row_text (mkRow "/bin/init" "init" "all" "OTHER" 0 0 1 1 0 1)].
Proof. vm_compute. repeat split; reflexivity. Qed.

(** C4, as amended: with [pid_max] read from the configuration file, a scan
    that completes has run one turn for each identifier from 0 to
    [pid_max - 1], in ascending order, and nothing else after its two
    start-up queries; every row written carries as tid the identifier whose
    readers produced it, at least 0 and below [pid_max]; and the rows come in
    strictly ascending tid, so no identifier has two. *)
Theorem scan_range k w pid_max :
  fst (find_pid_max k w) = Ok pid_max ->
  (fst (main k w) = Ok tt ->
   trace (snd (main k w))
   = trace w
     ++ [call_fopen pid_max_path; call_sysconf_nprocessors_conf]
     ++ flat_map probe_calls (map Z.of_nat (seq 0 (Z.to_nat pid_max)))) /\
  exists rows,
    stdout (snd (main k w)) = stdout w ++ header_format :: map row_text rows /\
    StronglySorted Z.lt (map row_tid rows) /\
    Forall (fun ro =>
              0 <= row_tid ro < pid_max /\
              exists all_cpus, live k all_cpus (row_tid ro) ro) rows.
Proof.
  intros Hp.
  destruct (main_inv k w) as (r & w' & rows & E & O & Srt & F & T).
  rewrite E. cbn [fst snd]. split.
  - intros Hr. destruct (T Hr) as (pid_max' & Hp' & T').
    rewrite Hp in Hp'. inversion Hp'; subst pid_max'.
    rewrite T', ids_seq. reflexivity.
  - exists rows. repeat split; auto.
    apply Forall_forall. intros ro Hin.
    destruct (F ro Hin) as (pid_max' & all_cpus & Hp' & _ & B & L).
    rewrite Hp in Hp'. inversion Hp'; subst pid_max'. eauto.
Qed.

Lemma scan_range_witness :
  trace (snd (main k_demo world0))
  = trace world0
    ++ [call_fopen pid_max_path; call_sysconf_nprocessors_conf]
    ++ flat_map probe_calls (map Z.of_nat (seq 0 (Z.to_nat 3))) /\
  exists rows,
    stdout (snd (main k_demo world0))
    = stdout world0 ++ header_format :: map row_text rows /\
    StronglySorted Z.lt (map row_tid rows) /\
    Forall (fun ro =>
              0 <= row_tid ro < 3 /\
              exists all_cpus, live k_demo all_cpus (row_tid ro) ro) rows.
Proof.
  assert (P : fst (find_pid_max k_demo world0) = Ok 3) by (vm_compute; reflexivity).
  destruct (scan_range k_demo world0 3 P) as [T R].
  split; [| exact R].
  apply T. vm_compute. reflexivity.
Defined.

(** * The statistics record *)

(** ** How the loop of [read_stat] cuts a record into fields *)

Ltac state_simpl :=
  unfold next_field, with_parens;
  cbn [result_bind app st_pid st_ppid st_sid st_field st_field_start st_parens].

Lemma with_parens_same (s : stat_state) : with_parens s (st_parens s) = s.
Proof. destruct s; reflexivity. Qed.

Lemma plain_inv (c : ascii) :
  plain c = true ->
  Ascii.eqb c zero = false /\ Ascii.eqb c " " = false /\
  Ascii.eqb c "(" = false /\ Ascii.eqb c ")" = false.
Proof.
  unfold plain. rewrite negb_true_iff, !orb_false_iff. tauto.
Qed.

(** Plain characters outside parentheses are passed over. *)
Lemma stat_loop_plain buffer word :
  forall rest i s,
    st_parens s = 0 ->
    forallb plain word = true ->
    stat_loop buffer (word ++ rest) i s
    = stat_loop buffer rest (i + List.length word) s.
Proof.
  induction word as [| c word IH]; intros rest i s Hp Hw.
  - cbn. now rewrite Nat.add_0_r.
  - cbn [forallb] in Hw. apply andb_true_iff in Hw. destruct Hw as [Hc Hw].
    apply plain_inv in Hc. destruct Hc as (H0 & Hs & Ho & Hc).
    cbn [app stat_loop List.length]. rewrite H0, Ho, Hs, Hp.
    change (0 >? 0) with false. cbv iota.
    fold (with_parens s 0). rewrite <- Hp at 1. rewrite with_parens_same.
    rewrite IH by assumption. f_equal. lia.
Qed.

(** So are the characters of a parenthesised stretch, blanks included. *)
Lemma stat_loop_opaque buffer comm :
  forall rest i s,
    opaque (st_parens s) comm = true ->
    stat_loop buffer (comm ++ rest) i s
    = stat_loop buffer rest (i + List.length comm) (with_parens s 0).
Proof.
  induction comm as [| c comm IH]; intros rest i s Hc.
  - cbn in Hc. apply Z.eqb_eq in Hc. cbn.
    now rewrite Nat.add_0_r, <- Hc, with_parens_same.
  - cbn [opaque] in Hc. apply andb_true_iff in Hc. destruct Hc as [H0 Hc].
    apply negb_true_iff in H0. cbv zeta in Hc.
    apply andb_true_iff in Hc. destruct Hc as [Hd Hc].
    cbn [app stat_loop List.length]. rewrite H0, Hd.
    fold (with_parens s
            (if Ascii.eqb c ")"
             then (if Ascii.eqb c "(" then st_parens s + 1 else st_parens s) - 1
             else if Ascii.eqb c "(" then st_parens s + 1 else st_parens s)).
    rewrite IH by exact Hc. f_equal. lia.
Qed.

(** A blank outside parentheses completes the field that started at
    [st_field_start]. *)
Lemma stat_loop_space buffer rest i s :
  st_parens s = 0 ->
  stat_loop buffer (" "%char :: rest) i s
  = result_bind
      (stat_store (firstn (i - st_field_start s) (skipn (st_field_start s) buffer)) s)
      (fun s' => stat_loop buffer rest (S i) (next_field s' i)).
Proof.
  intros Hp. cbn [stat_loop].
  change (Ascii.eqb " " zero) with false. change (Ascii.eqb " " "(") with false.
  change (Ascii.eqb " " " ") with true. cbv iota. rewrite Hp.
  change (0 >? 0) with false. cbv iota. reflexivity.
Qed.

(** A whole plain field and the blank after it. *)
Lemma stat_loop_word buffer pre word rest s :
  buffer = pre ++ word ++ " "%char :: rest ->
  st_parens s = 0 ->
  st_field_start s = List.length pre ->
  forallb plain word = true ->
  stat_loop buffer (word ++ " "%char :: rest) (List.length pre) s
  = result_bind (stat_store word s)
      (fun s' =>
         stat_loop buffer rest (S (List.length (pre ++ word)))
           (next_field s' (List.length (pre ++ word)))).
Proof.
  intros Hb Hp Hs Hw.
  rewrite stat_loop_plain, stat_loop_space by assumption.
  rewrite Hs, Hb, skipn_app, skipn_all, Nat.sub_diag. cbn [skipn app].
  replace (List.length pre + List.length word - List.length pre)%nat
    with (List.length word + 0)%nat by lia.
  rewrite firstn_app_2. cbn [firstn]. rewrite app_nil_r, length_app.
  reflexivity.
Qed.

(** Once five fields are complete the loop stores nothing more and cannot
    fail. *)
Lemma stat_loop_tail buffer tail :
  forall i s,
    5 <= st_field s ->
    exists s',
      stat_loop buffer tail i s = Ok s' /\
      st_pid s' = st_pid s /\ st_ppid s' = st_ppid s /\ st_sid s' = st_sid s /\
      5 <= st_field s'.
Proof.
  induction tail as [| c tail IH]; intros i s Hf.
  - exists s. cbn. auto.
  - cbn [stat_loop]. destruct (Ascii.eqb c zero); [exists s; auto |].
    set (d := if Ascii.eqb c "(" then st_parens s + 1 else st_parens s).
    destruct (d >? 0).
    + match goal with |- context [stat_loop buffer tail (S i) ?s1] =>
        destruct (IH (S i) s1) as (s' & E & H) end; [exact Hf |].
      exists s'. split; [exact E | exact H].
    + destruct (Ascii.eqb c " ").
      * unfold stat_store.
        replace (st_field s =? 0) with false by (symmetry; apply Z.eqb_neq; lia).
        replace (st_field s =? 3) with false by (symmetry; apply Z.eqb_neq; lia).
        replace (st_field s =? 4) with false by (symmetry; apply Z.eqb_neq; lia).
        cbn [result_bind].
        match goal with |- context [stat_loop buffer tail (S i) ?s1] =>
          destruct (IH (S i) s1) as (s' & E & H) end; [cbn; lia |].
        exists s'. split; [exact E |]. cbn in H. intuition lia.
      * match goal with |- context [stat_loop buffer tail (S i) ?s1] =>
          destruct (IH (S i) s1) as (s' & E & H) end; [exact Hf |].
        exists s'. split; [exact E | exact H].
Qed.

(** A record whose first field is the identifier, whose second is a
    parenthesised name, with blanks and nested parentheses or not, and whose
    fourth and fifth are numbers: the name counts as one field, and the
    loop extracts the identifier from field 0, the parent id from field 3
    and the session id from field 4. *)
Lemma scan_stat_fields pid comm state ppid sid tail p pp sd ppid0 sid0 :
  forallb plain pid = true ->
  opaque 0 comm = true ->
  forallb plain state = true ->
  forallb plain ppid = true ->
  forallb plain sid = true ->
  stoi pid = Ok p -> stoi ppid = Ok pp -> stoi sid = Ok sd ->
  exists s,
    scan_stat
      (string_of_list_ascii
         (pid ++ " "%char :: comm ++ " "%char :: state ++ " "%char
              :: ppid ++ " "%char :: sid ++ " "%char :: tail))
      ppid0 sid0
    = Ok s /\
    st_pid s = p /\ st_ppid s = pp /\ st_sid s = sd /\ 5 <= st_field s.
Proof.
  intros Hpid Hcomm Hstate Hppid Hsid Ep Epp Esd.
  unfold scan_stat. rewrite list_ascii_of_string_of_list_ascii.
  set (buffer := pid ++ " "%char :: comm ++ " "%char :: state ++ " "%char
                     :: ppid ++ " "%char :: sid ++ " "%char :: tail).
  (* field 0 *)
  change (stat_loop buffer buffer 0)
    with (stat_loop buffer
            (pid ++ " "%char :: comm ++ " "%char :: state ++ " "%char
                 :: ppid ++ " "%char :: sid ++ " "%char :: tail)
            (List.length (@nil ascii))).
  rewrite (stat_loop_word buffer [] pid);
    [| reflexivity | reflexivity | reflexivity | assumption].
  unfold stat_store at 1. cbn [st_field]. change (0 =? 0) with true. cbv iota.
  rewrite Ep. state_simpl.
  (* field 1 *)
  rewrite stat_loop_opaque by exact Hcomm.
  rewrite stat_loop_space by reflexivity.
  unfold stat_store at 1. state_simpl.
  change (0 + 1 =? 0) with false. change (0 + 1 =? 3) with false.
  change (0 + 1 =? 4) with false. cbv iota. state_simpl.
  (* field 2 *)
  set (pre2 := pid ++ " "%char :: comm ++ [" "%char]).
  assert (L2 : S (S (List.length pid) + List.length comm) = List.length pre2).
  { subst pre2. rewrite length_app. cbn [List.length]. rewrite length_app.
    cbn [List.length]. lia. }
  rewrite L2.
  rewrite (stat_loop_word buffer pre2 state);
    [| subst buffer pre2; repeat (rewrite <- app_assoc; cbn [app]); reflexivity
     | reflexivity | reflexivity | assumption].
  unfold stat_store at 1. state_simpl.
  change (0 + 1 + 1 =? 0) with false. change (0 + 1 + 1 =? 3) with false.
  change (0 + 1 + 1 =? 4) with false. cbv iota. state_simpl.
  (* field 3 *)
  set (pre3 := (pre2 ++ state) ++ [" "%char]).
  assert (L3 : S (List.length (pre2 ++ state)) = List.length pre3).
  { subst pre3. rewrite (length_app (pre2 ++ state)). cbn [List.length]. lia. }
  rewrite L3.
  rewrite (stat_loop_word buffer pre3 ppid);
    [| subst buffer pre3 pre2; repeat (rewrite <- app_assoc; cbn [app]);
       reflexivity
     | reflexivity | reflexivity | assumption].
  unfold stat_store at 1. state_simpl.
  change (0 + 1 + 1 + 1 =? 0) with false. change (0 + 1 + 1 + 1 =? 3) with true.
  cbv iota. rewrite Epp. state_simpl.
  (* field 4 *)
  set (pre4 := (pre3 ++ ppid) ++ [" "%char]).
  assert (L4 : S (List.length (pre3 ++ ppid)) = List.length pre4).
  { subst pre4. rewrite (length_app (pre3 ++ ppid)). cbn [List.length]. lia. }
  rewrite L4.
  rewrite (stat_loop_word buffer pre4 sid);
    [| subst buffer pre4 pre3 pre2; repeat (rewrite <- app_assoc; cbn [app]);
       reflexivity
     | reflexivity | reflexivity | assumption].
  unfold stat_store at 1. state_simpl.
  change (0 + 1 + 1 + 1 + 1 =? 0) with false.
  change (0 + 1 + 1 + 1 + 1 =? 3) with false.
  change (0 + 1 + 1 + 1 + 1 =? 4) with true.
  cbv iota. rewrite Esd. state_simpl.
  (* the rest *)
  match goal with |- context [stat_loop buffer tail ?i ?s1] =>
    destruct (stat_loop_tail buffer tail i s1) as (s' & E & H1 & H2 & H3 & H4) end.
  { cbn. lia. }
  exists s'. split; [exact E |]. cbn in H1, H2, H3. auto.
Qed.

(** Inside parentheses a space does not end a field. *)
Lemma stat_loop_space_inside_parens buffer rest i s :
  0 < st_parens s ->
  stat_loop buffer (" "%char :: rest) i s = stat_loop buffer rest (S i) s.
Proof.
  intros H. cbn [stat_loop]. change (Ascii.eqb " " zero) with false.
  change (Ascii.eqb " " "(") with false. change (Ascii.eqb " " ")") with false.
  cbv iota. replace (st_parens s >? 0) with true by (symmetry; apply Z.gtb_lt; lia).
  destruct s; reflexivity.
Qed.

(** A record that can be opened and scanned but ends before its fourth
    field is complete ends the program. *)
Lemma read_stat_few_fields k process ppid0 sid0 not_there w stat buffer rest s :
  k_fopen k (proc_path process "/stat") = Success stat ->
  f_lines stat = buffer :: rest ->
  scan_stat buffer ppid0 sid0 = Ok s ->
  f_close stat = 0 ->
  st_field s < 4 ->
  exists w', read_stat k process ppid0 sid0 not_there w = (Abort Exit1, w').
Proof.
  intros Ho Hl Hs Hc Hf. unfold read_stat. run_monad.
  rewrite Ho. world_simpl. rewrite Hl, Hs. world_simpl. rewrite Hc.
  change (0 =? 0) with true. world_simpl.
  apply Z.ltb_lt in Hf. rewrite Hf. world_simpl. eauto.
Qed.

(** C5, where the code departs from it: the record ["7 (x) S 1 "] has four
    complete fields, fewer than five; [read_stat] does not stop the program
    but returns, with the session id still at the 0 [main] gave it, and
    the row is written with sid 0. *)
Theorem read_stat_accepts_four_fields :
  scan_stat "7 (x) S 1 " 0 0 = Ok (mkStat 7 1 0 4 10 0) /\
  fst (read_stat k_short 7 0 0 false world0) = Ok (1, 0, false) /\
  stdout (snd (main_loop_body k_short 15 7 world0))
  = [row_text (mkRow "/bin/x" "x" "all" "OTHER" 0 0 7 7 1 0)].
Proof. vm_compute. repeat split; reflexivity. Qed.

(** * Niceness *)

(** C6: [find_nice_value] gives the same result whatever the error indicator
    held on entry, and [getpriority] is the one call between clearing and
    reading it; when [getpriority] leaves the indicator clear its return
    value is the niceness, negative or not, and the flag is untouched; when
    it leaves [ESRCH] the flag is set; any other error code ends the
    program. *)
Theorem nice_value_by_indicator k process not_there w :
  (forall w0,
     fst (find_nice_value k process not_there w0)
     = fst (find_nice_value k process not_there w)) /\
  trace (snd (find_nice_value k process not_there w))
  = trace w ++ [call_getpriority process] /\
  (forall v,
     k_getpriority k process = Success v ->
     fst (find_nice_value k process not_there w) = Ok (v, not_there) /\
     errno (snd (find_nice_value k process not_there w)) = 0) /\
  (k_getpriority k process = Failure ESRCH ->
   fst (find_nice_value k process not_there w) = Ok (0, true)) /\
  (forall e,
     k_getpriority k process = Failure e -> e <> ESRCH ->
     fst (find_nice_value k process not_there w) = Abort Exit1).
Proof.
  split; [| split].
  - intros w0. unfold find_nice_value. run_monad.
    destruct (k_getpriority k process) as [n | e]; world_simpl.
    + reflexivity.
    + case_errno; reflexivity.
  - destruct (find_nice_value_spec k process not_there w)
      as (r & w' & E & _ & T & _).
    rewrite E. exact T.
  - unfold find_nice_value. run_monad.
    destruct (k_getpriority k process) as [n | e]; world_simpl.
    + cbn. split; [| split].
      * intros v H. inversion H. auto.
      * discriminate.
      * discriminate.
    + case_errno; cbn; (split; [discriminate |]); split.
      * reflexivity.
      * intros e' H Hne. inversion H; subst e'.
        apply eqb_pos_ESRCH in E. contradiction.
      * intros H. inversion H; subst e. discriminate.
      * reflexivity.
Qed.

Lemma nice_value_by_indicator_witness :
  (fst (find_nice_value k_demo 2 false world_stale) = Ok (-20, false) /\
   errno (snd (find_nice_value k_demo 2 false world_stale)) = 0) /\
  fst (find_nice_value k_gone 1 false world_stale) = Ok (0, true) /\
  fst (find_nice_value k_refusing 1 false world_stale) = Abort Exit1.
Proof.
  split; [| split].
  - apply (proj1 (proj2 (proj2
             (nice_value_by_indicator k_demo 2 false world_stale)))).
    reflexivity.
  - apply (proj1 (proj2 (proj2 (proj2
             (nice_value_by_indicator k_gone 1 false world_stale))))).
    reflexivity.
  - apply (proj2 (proj2 (proj2 (proj2
             (nice_value_by_indicator k_refusing 1 false world_stale)))) EACCES).
    + reflexivity.
    + discriminate.
Defined.

(** * The executable *)

(** C7: when [readlink] fails, [find_exe] has three outcomes: on [ENOENT] the
    text [ENOENT] with the flag untouched, on [ESRCH] the empty text with
    the flag set, on any other code the end of the program; a link that
    resolves is returned as it is.  And an identifier whose link is missing
    while every other reader finds its value gets its row, with [ENOENT]
    in the first column. *)
Theorem exe_three_outcomes k process not_there w :
  (k_readlink k (proc_path process "/exe") = Failure ENOENT ->
   fst (find_exe k process not_there w) = Ok ("ENOENT", not_there)) /\
  (k_readlink k (proc_path process "/exe") = Failure ESRCH ->
   fst (find_exe k process not_there w) = Ok ("", true)) /\
  (forall e,
     k_readlink k (proc_path process "/exe") = Failure e ->
     e <> ENOENT -> e <> ESRCH ->
     fst (find_exe k process not_there w) = Abort Exit1) /\
  (forall exe,
     k_readlink k (proc_path process "/exe") = Success exe ->
     fst (find_exe k process not_there w) = Ok (exe, not_there)) /\
  (forall all_cpus cpu_mask param scheduler nice_value s ss,
     k_readlink k (proc_path process "/exe") = Failure ENOENT ->
     k_sched_getaffinity k process = Success cpu_mask ->
     k_sched_getparam k process = Success param ->
     k_sched_getscheduler k process = Success scheduler -> scheduler <> -1 ->
     k_getpriority k process = Success nice_value ->
     stat_found k process 0 0 s ->
     status_found k process (st_ppid s) 0 "" ss ->
     stdout (snd (main_loop_body k all_cpus process w))
     = stdout w
       ++ [row_text
             (mkRow "ENOENT" (ss_name ss)
                (if CPU_EQUAL cpu_mask all_cpus then "all" else "???")
                (policy_string (scheduler mod 2 ^ 32))
                nice_value (sched_priority param) process
                (ss_pgrp ss) (st_ppid s) (st_sid s))]).
Proof.
  split; [| split; [| split; [| split]]].
  - intros H. destruct (find_exe_found k process not_there w "ENOENT") as (w' & E).
    + right. auto.
    + rewrite E. reflexivity.
  - intros H. destruct (find_exe_vanished k process not_there w H) as (w' & E).
    rewrite E. reflexivity.
  - intros e H Hne Hns. unfold find_exe. run_monad. rewrite H. world_simpl.
    change (-1 =? -1) with true. cbv iota. world_simpl.
    case_errno; [apply eqb_pos_ENOENT in E; contradiction |].
    case_errno; [apply eqb_pos_ESRCH in E0; contradiction |]. reflexivity.
  - intros exe H. destruct (find_exe_found k process not_there w exe) as (w' & E).
    + left. auto.
    + rewrite E. reflexivity.
  - intros all_cpus cpu_mask param scheduler nice_value s ss
           H4 H1 H2 H3 N3 H5 H6 H7.
    destruct (main_loop_body_live k all_cpus process
                (mkRow "ENOENT" (ss_name ss)
                   (if CPU_EQUAL cpu_mask all_cpus then "all" else "???")
                   (policy_string (scheduler mod 2 ^ 32))
                   nice_value (sched_priority param) process
                   (ss_pgrp ss) (st_ppid s) (st_sid s)) w)
      as (w' & E & O & _).
    + exists cpu_mask, param, scheduler, s, ss. cbn.
      repeat split; auto. right. auto.
    + rewrite E. exact O.
Qed.

Lemma kernel_thread_stat_found :
  stat_found k_demo 2 0 0 (mkStat 2 1 0 7 24 0).
Proof.
  exists (mkFILE [t_stat kernel_thread] None 0), (t_stat kernel_thread), [].
  vm_compute. repeat split; discriminate.
Defined.

Lemma kernel_thread_status_found :
  status_found k_demo 2 1 0 "" (mkStatus "kth (a b)" 2 1 2).
Proof.
  exists (mkFILE (t_status kernel_thread) None 0).
  vm_compute. repeat split.
Defined.

Lemma exe_three_outcomes_witness :
  fst (find_exe k_demo 2 false world0) = Ok ("ENOENT", false) /\
  fst (find_exe k_refusing 1 false world0) = Ok ("", true) /\
  fst (find_exe k_exits_midway 1 false world0) = Abort Exit1 /\
  fst (find_exe k_demo 1 false world0) = Ok ("/bin/init", false) /\
  stdout (snd (main_loop_body k_demo 15 2 world0))
  = stdout world0
    ++ [row_text (mkRow "ENOENT" "kth (a b)" "???" "FIFO" (-20) 99 2 2 1 0)].
Proof.
  split; [| split; [| split; [| split]]].
  - apply (proj1 (exe_three_outcomes k_demo 2 false world0)). reflexivity.
  - apply (proj1 (proj2 (exe_three_outcomes k_refusing 1 false world0))).
    reflexivity.
  - apply (proj1 (proj2 (proj2
             (exe_three_outcomes k_exits_midway 1 false world0))) EACCES).
    + reflexivity.
    + discriminate.
    + discriminate.
  - apply (proj1 (proj2 (proj2 (proj2
             (exe_three_outcomes k_demo 1 false world0))))).
    reflexivity.
  - apply (proj2 (proj2 (proj2 (proj2
             (exe_three_outcomes k_demo 2 false world0))))
             15 1 (mkSchedParam 99) SCHED_FIFO (-20)
             (mkStat 2 1 0 7 24 0) (mkStatus "kth (a b)" 2 1 2)).
    + reflexivity.
    + reflexivity.
    + reflexivity.
    + reflexivity.
    + discriminate.
    + reflexivity.
    + exact kernel_thread_stat_found.
    + exact kernel_thread_status_found.
Defined.

(** * The CPU mask label *)

Lemma label_all_iff (cpu_mask all_cpus : cpu_set_t) :
  (if CPU_EQUAL cpu_mask all_cpus then "all" else "???") = "all"
  <-> cpu_mask = all_cpus.
Proof.
  unfold CPU_EQUAL. destruct (Z.eqb_spec cpu_mask all_cpus) as [-> | Hne].
  - split; auto.
  - split; [discriminate | contradiction].
Qed.

(** C8: with [n] configured processors, as many as a [cpu_set_t] can hold
    at most, the cpumask of every row written is [all] exactly when the
    affinity set of its identifier is the set of the CPUs 0 to [n - 1], and
    [???] for any other set; the set of all CPUs is the one [main] computed
    before the scan. *)
Theorem cpumask_label k w n :
  k_sysconf_nprocessors_conf k = Success n ->
  0 <= n <= CPU_SETSIZE ->
  exists rows,
    stdout (snd (main k w)) = stdout w ++ header_format :: map row_text rows /\
    Forall (fun ro =>
              exists cpu_mask,
                k_sched_getaffinity k (row_tid ro) = Success cpu_mask /\
                (row_cpumask ro = "all" <->
                 forall c, 0 <= c -> (CPU_ISSET c cpu_mask = true <-> c < n)) /\
                (row_cpumask ro = "all" \/ row_cpumask ro = "???")) rows.
Proof.
  intros Hn Hr.
  destruct (main_inv k w) as (r & w' & rows & E & O & _ & F & _).
  rewrite E. cbn [snd]. exists rows. split; [exact O |].
  apply Forall_forall. intros ro Hin.
  destruct (F ro Hin) as (pid_max & all_cpus & _ & Ha & _ & L).
  destruct (find_all_cpus_bits k w n Hn) as (all_cpus' & w1 & Ea & Hbits);
    [unfold CPU_SETSIZE in Hr; lia |].
  rewrite Ea in Ha. cbn [fst] in Ha. inversion Ha; subst all_cpus'.
  destruct L as (cpu_mask & param & scheduler & s & ss & H1 & _ & _ & _ & _ & _
                 & _ & _ & Hro).
  exists cpu_mask. split; [exact H1 |].
  rewrite Hro. cbn [row_cpumask]. split.
  - rewrite label_all_iff. split.
    + intros -> c Hc. rewrite Hbits by lia.
      rewrite andb_true_iff, !Z.ltb_lt. lia.
    + intros Hset. apply Z.bits_inj'. intros c Hc.
      fold (CPU_ISSET c cpu_mask). fold (CPU_ISSET c all_cpus).
      rewrite Hbits by lia. specialize (Hset c Hc).
      destruct (CPU_ISSET c cpu_mask).
      * symmetry. apply andb_true_iff. rewrite !Z.ltb_lt.
        assert (c < n) by (apply Hset; reflexivity). lia.
      * symmetry. apply andb_false_iff. left. apply Z.ltb_ge.
        destruct (Z.lt_ge_cases c n) as [Hlt | Hge]; [| lia].
        apply Hset in Hlt. discriminate.
  - destruct (CPU_EQUAL cpu_mask all_cpus); auto.
Qed.

Lemma cpumask_label_witness :
  exists rows,
    stdout (snd (main k_demo world0))
    = stdout world0 ++ header_format :: map row_text rows /\
    Forall (fun ro =>
              exists cpu_mask,
                k_sched_getaffinity k_demo (row_tid ro) = Success cpu_mask /\
                (row_cpumask ro = "all" <->
                 forall c, 0 <= c -> (CPU_ISSET c cpu_mask = true <-> c < 4)) /\
                (row_cpumask ro = "all" \/ row_cpumask ro = "???")) rows.
Proof.
  apply (cpumask_label k_demo world0 4).
  - reflexivity.
  - unfold CPU_SETSIZE. lia.
Defined.

(** * The contract of [strip] *)

(** C10: on a view with a character that is not a space, a tab or a newline,
    [strip] returns (no [front()] or [back()] of an empty view is reached)
    the part of the view between its first and its last such character:
    what it leaves out on either side is blank, and what it returns starts
    and ends with a character that is not.  On an empty or all-blank view it
    runs off the view; that is what [read_status] meets when the value after
    a matched label is blank. *)
Theorem strip_contract (str : string_view) :
  sv_wf str ->
  ((exists c, In c (sv_chars str) /\ is_blank c = false) ->
   exists v l r,
     strip str = Some v /\
     sv_chars str = l ++ sv_chars v ++ r /\
     all_blank l /\ all_blank r /\
     (exists c rest, sv_chars v = c :: rest /\ is_blank c = false) /\
     (exists init c, sv_chars v = init ++ [c] /\ is_blank c = false)) /\
  (all_blank (sv_chars str) -> strip str = None) /\
  (forall label line,
     remove_prefix (sizeof_literal label) line = Some str ->
     all_blank (sv_chars str) ->
     label_value label line = Abort Undefined).
Proof.
  intros Hwf.
  assert (Hnone : all_blank (sv_chars str) -> strip str = None).
  { intros Hall. unfold strip.
    pose proof (strip_left_spec (sv_data str) (sv_size str) (sv_begin str) Hwf) as HL.
    destruct (strip_left (sv_data str) (sv_begin str) (sv_size str)) as [v1 |];
      [| reflexivity].
    destruct HL as (_ & _ & l & c & rest & Hl & _ & Hc & Hnb).
    unfold all_blank, sv_chars in Hall. rewrite Hl, Hc in Hall.
    apply Forall_app in Hall. destruct Hall as [_ Hall].
    inversion Hall; subst. congruence. }
  split; [| split; [exact Hnone |]].
  - intros (c0 & Hin & Hc0). unfold strip.
    pose proof (strip_left_spec (sv_data str) (sv_size str) (sv_begin str) Hwf) as HL.
    destruct (strip_left (sv_data str) (sv_begin str) (sv_size str)) as [v1 |].
    + destruct HL as (Hd1 & Hwf1 & l & c & rest & Hl & Hbl & Hc & Hnb).
      pose proof (strip_right_spec (sv_data v1) (sv_size v1) (sv_begin v1) Hwf1) as HR.
      destruct (strip_right (sv_data v1) (sv_begin v1) (sv_size v1)) as [v |].
      * destruct HR as (_ & _ & _ & r & init & c' & Hr & Hbr & Hc' & Hnb').
        fold (sv_chars v1) in Hr. fold (sv_chars str) in Hl.
        exists v, l, r. repeat split; auto.
        -- rewrite Hl, Hr. reflexivity.
        -- rewrite Hc in Hr. rewrite Hc' in Hr. rewrite Hc'.
           destruct init as [| x init]; cbn in Hr |- *; inversion Hr; subst; eauto.
        -- eauto.
      * fold (sv_chars v1) in HR. rewrite Hc in HR.
        inversion HR; subst. congruence.
    + fold (sv_chars str) in HL. unfold all_blank in HL.
      rewrite Forall_forall in HL. specialize (HL c0 Hin). congruence.
  - intros label line Hrm Hall. unfold label_value.
    rewrite Hrm, (Hnone Hall). reflexivity.
Qed.

Lemma strip_contract_witness :
  exists v l r,
    strip (view_of (list_ascii_of_string (append "  ab c " nl))) = Some v /\
    sv_chars (view_of (list_ascii_of_string (append "  ab c " nl)))
    = l ++ sv_chars v ++ r /\
    all_blank l /\ all_blank r /\
    (exists c rest, sv_chars v = c :: rest /\ is_blank c = false) /\
    (exists init c, sv_chars v = init ++ [c] /\ is_blank c = false).
Proof.
  apply (strip_contract (view_of (list_ascii_of_string (append "  ab c " nl)))).
  - unfold sv_wf. cbn. lia.
  - exists "a"%char. split; [cbn; tauto | reflexivity].
Defined.

(** * Numbers in text: [to_string], [%d] and [stoi] *)

Lemma uint_chars_digits (d : Decimal.uint) :
  Forall (fun c => is_digit c = true) (uint_chars d).
Proof.
  unfold uint_chars. induction d; cbn; constructor; auto.
Qed.

Lemma read_digits_uint (d : Decimal.uint) :
  forall rest acc,
    match rest with
    | c :: _ => is_digit c = false
    | [] => True
    end ->
    read_digits (uint_chars d ++ rest) acc = uint_value d acc.
Proof.
  unfold uint_chars.
  induction d; intros rest acc Hr; cbn [NilEmpty.string_of_uint list_ascii_of_string app];
    try (cbn [read_digits]; cbn [is_digit digit_value nat_of_ascii];
         rewrite IHd by exact Hr; reflexivity).
  cbn [uint_value]. destruct rest as [| c rest]; [reflexivity |].
  cbn [read_digits]. now rewrite Hr.
Qed.

Lemma uint_value_pos (d : Decimal.uint) :
  forall acc : positive, uint_value d (Z.pos acc) = Z.pos (Pos.of_uint_acc d acc).
Proof.
  induction d; intros acc; cbn [uint_value Pos.of_uint_acc];
    try reflexivity;
    match goal with
    | |- uint_value _ ?z = _ =>
        match type of IHd with
        | _ => idtac
        end
    end.
  all: try (rewrite <- IHd; f_equal; lia).
Qed.

Lemma uint_value_zero (d : Decimal.uint) :
  uint_value d 0 = Z.of_N (Pos.of_uint d).
Proof.
  induction d; cbn [uint_value Pos.of_uint]; try reflexivity; try exact IHd.
  all: change (10 * 0 + ?k) with k;
       match goal with
       | |- uint_value _ ?k = _ =>
           let p := eval cbv in (Z.to_pos k) in
           change k with (Z.pos p); rewrite uint_value_pos; reflexivity
       end.
Qed.

Lemma to_uint_not_nil (p : positive) : Pos.to_uint p <> Decimal.Nil.
Proof.
  intros H. pose proof (DecimalZ.of_to (Z.pos p)) as E.
  cbn [Z.to_int Z.of_int] in E. rewrite H in E. discriminate.
Qed.

Lemma to_string_chars (z : Z) :
  exists d,
    d <> Decimal.Nil /\
    uint_value d 0 = Z.abs z /\
    list_ascii_of_string (to_string z)
    = (if z <? 0 then ["-"%char] else []) ++ uint_chars d.
Proof.
  unfold to_string. destruct z as [| p | p]; cbn [Z.to_int NilZero.string_of_int].
  - exists (Decimal.D0 Decimal.Nil). repeat split. discriminate.
  - exists (Pos.to_uint p). pose proof (to_uint_not_nil p) as Hn.
    split; [exact Hn |]. split.
    + rewrite uint_value_zero. pose proof (DecimalZ.of_to (Z.pos p)) as E.
      cbn [Z.to_int Z.of_int] in E. exact E.
    + unfold NilZero.string_of_uint, uint_chars.
      destruct (Pos.to_uint p); [contradiction | reflexivity ..].
  - exists (Pos.to_uint p). pose proof (to_uint_not_nil p) as Hn.
    split; [exact Hn |]. split.
    + rewrite uint_value_zero. pose proof (DecimalZ.of_to (Z.pos p)) as E.
      cbn [Z.to_int Z.of_int] in E. exact E.
    + unfold NilZero.string_of_uint, uint_chars.
      destruct (Pos.to_uint p); [contradiction | reflexivity ..].
Qed.

Lemma uint_chars_head (d : Decimal.uint) :
  d <> Decimal.Nil ->
  exists c l, uint_chars d = c :: l /\ is_digit c = true.
Proof.
  intros Hn. pose proof (uint_chars_digits d) as F.
  destruct (uint_chars d) as [| c l] eqn:E.
  - destruct d; try contradiction; discriminate E.
  - inversion F; subst. eauto.
Qed.

Lemma digit_not_space (c : ascii) : is_digit c = true -> isspace c = false.
Proof.
  unfold is_digit, isspace. intros H. apply andb_true_iff in H.
  rewrite !Z.leb_le in H. apply orb_false_iff. split.
  - apply Z.eqb_neq. lia.
  - apply andb_false_iff. right. apply Z.leb_gt. lia.
Qed.

Lemma head_digit {A} (l : list ascii) (v : A) :
  (exists c l', l = c :: l' /\ is_digit c = true) ->
  match l with
  | [] => None
  | c :: _ => if is_digit c then Some v else None
  end = Some v.
Proof.
  intros (c & l' & -> & H). now rewrite H.
Qed.

Lemma head_digit_no_sign {A} (l : list ascii) (x y : list ascii -> A) (w : A) :
  (exists c l', l = c :: l' /\ is_digit c = true) ->
  match l with
  | "-"%char :: r => x r
  | "+"%char :: r => y r
  | _ => w
  end = w.
Proof.
  intros (c & l' & -> & H).
  destruct (Ascii.eqb_spec c "-") as [-> | N1]; [discriminate H |].
  destruct (Ascii.eqb_spec c "+") as [-> | N2]; [discriminate H |].
  destruct c as [[] [] [] [] [] [] [] []]; try reflexivity; contradiction.
Qed.

Lemma skip_spaces_digit (l : list ascii) :
  (exists c l', l = c :: l' /\ is_digit c = true) -> skip_spaces l = l.
Proof.
  intros (c & l' & -> & H). cbn. now rewrite (digit_not_space c H).
Qed.

(** [strtol] reads back what [%d] wrote, whatever follows that is not a
    digit. *)
Lemma strtol10_to_string (z : Z) (rest : list ascii) :
  match rest with
  | c :: _ => is_digit c = false
  | [] => True
  end ->
  strtol10 (list_ascii_of_string (to_string z) ++ rest) = Some z.
Proof.
  intros Hr. destruct (to_string_chars z) as (d & Hn & Hv & Hc).
  rewrite Hc.
  assert (Hh : exists c l', uint_chars d ++ rest = c :: l' /\ is_digit c = true).
  { destruct (uint_chars_head d Hn) as (c & l & Hd & Hdig).
    exists c, (l ++ rest). rewrite Hd. auto. }
  unfold strtol10. destruct (Z.ltb_spec z 0) as [Hneg | Hpos]; cbn [app].
  - cbn [skip_spaces]. change (isspace "-") with false. cbv iota.
    rewrite (head_digit _ _ Hh), read_digits_uint by exact Hr.
    rewrite Hv. f_equal. lia.
  - rewrite (skip_spaces_digit _ Hh).
    rewrite (head_digit_no_sign (uint_chars d ++ rest)
               (fun r => (true, r)) (fun r => (false, r)) _ Hh).
    rewrite (head_digit _ _ Hh), read_digits_uint by exact Hr.
    rewrite Hv. f_equal. lia.
Qed.

(** [std::stoi] reads back an [int] that [std::to_string] or [%d] wrote. *)
Lemma stoi_to_string (z : Z) (rest : list ascii) :
  INT_MIN <= z <= INT_MAX ->
  match rest with
  | c :: _ => is_digit c = false
  | [] => True
  end ->
  stoi (list_ascii_of_string (to_string z) ++ rest) = Ok z.
Proof.
  intros Hz Hr. unfold stoi. rewrite strtol10_to_string by exact Hr.
  replace ((INT_MIN <=? z) && (z <=? INT_MAX)) with true; [reflexivity |].
  symmetry. apply andb_true_iff. rewrite !Z.leb_le. exact Hz.
Qed.

Lemma to_string_chars_all (P : ascii -> Prop) (z : Z) :
  P "-"%char ->
  (forall c, is_digit c = true -> P c) ->
  Forall P (list_ascii_of_string (to_string z)).
Proof.
  intros Hm Hd. destruct (to_string_chars z) as (d & _ & _ & ->).
  apply Forall_app. split.
  - destruct (z <? 0); repeat constructor; auto.
  - eapply Forall_impl; [| apply uint_chars_digits]. exact Hd.
Qed.

Lemma digit_is (c : ascii) (P : ascii -> bool) :
  is_digit c = true ->
  P "0"%char = true -> P "1"%char = true -> P "2"%char = true ->
  P "3"%char = true -> P "4"%char = true -> P "5"%char = true ->
  P "6"%char = true -> P "7"%char = true -> P "8"%char = true ->
  P "9"%char = true ->
  P c = true.
Proof.
  intros H. destruct c as [[] [] [] [] [] [] [] []]; try discriminate H; auto.
Qed.

Lemma to_string_forallb (P : ascii -> bool) (z : Z) :
  P "-"%char = true ->
  P "0"%char = true -> P "1"%char = true -> P "2"%char = true ->
  P "3"%char = true -> P "4"%char = true -> P "5"%char = true ->
  P "6"%char = true -> P "7"%char = true -> P "8"%char = true ->
  P "9"%char = true ->
  forallb P (list_ascii_of_string (to_string z)) = true.
Proof.
  intros. apply forallb_forall. apply Forall_forall.
  apply to_string_chars_all; [assumption |].
  intros c Hc. apply digit_is; assumption.
Qed.

Lemma to_string_not_empty (z : Z) :
  exists c l, list_ascii_of_string (to_string z) = c :: l /\ is_blank c = false.
Proof.
  destruct (to_string_chars z) as (d & Hn & _ & ->).
  destruct (uint_chars_head d Hn) as (c & l & -> & Hc).
  destruct (z <? 0); cbn [app].
  - eauto.
  - exists c, l. split; [reflexivity |].
    apply negb_true_iff. apply (digit_is c (fun c => negb (is_blank c)) Hc);
      reflexivity.
Qed.

(** * Trimming on the view and on its characters *)

Lemma drop_blanks_nil (l : list ascii) : drop_blanks l = [] <-> all_blank l.
Proof.
  induction l as [| c l IH]; cbn.
  - split; [constructor | reflexivity].
  - destruct (is_blank c) eqn:E.
    + rewrite IH. split; [constructor; auto | intros H; now inversion H].
    + split; [discriminate | intros H; inversion H; congruence].
Qed.

Lemma drop_blanks_head (l : list ascii) c l' :
  drop_blanks l = c :: l' -> is_blank c = false.
Proof.
  induction l as [| a l IH]; cbn; [discriminate |].
  destruct (is_blank a) eqn:E; [exact IH |]. intros H. inversion H; subst. exact E.
Qed.

Lemma strip_left_chars (data : list ascii) (size : nat) :
  forall begin,
    (begin + size <= List.length data)%nat ->
    match strip_left data begin size with
    | Some v =>
        sv_data v = data /\ sv_wf v /\
        sv_chars v = drop_blanks (firstn size (skipn begin data)) /\
        (begin <= sv_begin v)%nat /\
        (sv_begin v + sv_size v = begin + size)%nat /\
        sv_chars v <> []
    | None => drop_blanks (firstn size (skipn begin data)) = []
    end.
Proof.
  induction size as [| n IH]; intros b Hb.
  - reflexivity.
  - cbn [strip_left]. rewrite (skipn_nth_cons data b) by lia.
    cbn [firstn drop_blanks].
    destruct (is_blank (nth b data zero)) eqn:Eb.
    + specialize (IH (S b)). destruct (strip_left data (S b) n) as [v |].
      * destruct IH as (Hd & Hwf & Hc & Hle & Hend & Hne); [lia |].
        repeat split; auto; lia.
      * apply IH. lia.
    + unfold sv_wf, sv_chars. cbn [sv_data sv_begin sv_size].
      rewrite (skipn_nth_cons data b) by lia. cbn [firstn].
      repeat split; auto. discriminate.
Qed.

Lemma strip_right_chars (data : list ascii) (size : nat) :
  forall begin,
    (begin + size <= List.length data)%nat ->
    match strip_right data begin size with
    | Some v =>
        sv_data v = data /\ sv_wf v /\ sv_begin v = begin /\
        (sv_size v <= size)%nat /\
        sv_chars v = rev (drop_blanks (rev (firstn size (skipn begin data)))) /\
        sv_chars v <> []
    | None => drop_blanks (rev (firstn size (skipn begin data))) = []
    end.
Proof.
  induction size as [| n IH]; intros b Hb.
  - reflexivity.
  - cbn [strip_right].
    assert (Hs : firstn (S n) (skipn b data)
                 = firstn n (skipn b data) ++ [nth (b + n) data zero]).
    { rewrite firstn_snoc_nth by (rewrite length_skipn; lia).
      now rewrite nth_skipn_plus. }
    rewrite Hs, rev_app_distr. cbn [rev app drop_blanks].
    destruct (is_blank (nth (b + n) data zero)) eqn:Eb.
    + specialize (IH b). destruct (strip_right data b n) as [v |].
      * destruct IH as (Hd & Hwf & Hbeg & Hle & Hc & Hne); [lia |].
        repeat split; auto.
      * apply IH. lia.
    + unfold sv_wf, sv_chars. cbn [sv_data sv_begin sv_size].
      cbn [rev]. rewrite rev_involutive, <- Hs.
      repeat split; auto. rewrite Hs. intros H.
      apply app_eq_nil in H. destruct H as [_ H]. discriminate.
Qed.

(** [strip] on a view is [strip_chars] on its characters. *)
Lemma strip_as_chars (str : string_view) :
  sv_wf str ->
  match strip str with
  | Some v =>
      strip_chars (sv_chars str) = Some (sv_chars v) /\
      sv_data v = sv_data str /\ sv_wf v /\
      (sv_begin str <= sv_begin v)%nat /\
      (sv_begin v + sv_size v <= sv_begin str + sv_size str)%nat
  | None => strip_chars (sv_chars str) = None
  end.
Proof.
  intros Hwf. unfold strip, strip_chars.
  pose proof (strip_left_chars (sv_data str) (sv_size str) (sv_begin str) Hwf) as HL.
  fold (sv_chars str) in HL.
  destruct (strip_left (sv_data str) (sv_begin str) (sv_size str)) as [v1 |].
  - destruct HL as (Hd1 & Hwf1 & Hc1 & Hle1 & Hend1 & Hne1).
    pose proof (strip_right_chars (sv_data v1) (sv_size v1) (sv_begin v1) Hwf1) as HR.
    fold (sv_chars v1) in HR. rewrite <- Hc1.
    destruct (sv_chars v1) as [| c l] eqn:E1; [contradiction |].
    destruct (strip_right (sv_data v1) (sv_begin v1) (sv_size v1)) as [v |].
    + destruct HR as (Hd & Hwf' & Hbeg & Hle & Hc & Hne).
      rewrite Hc. repeat split; auto; try congruence; lia.
    + exfalso. apply drop_blanks_nil in HR.
      apply Forall_rev in HR. rewrite rev_involutive in HR.
      inversion HR; subst. symmetry in Hc1.
      apply drop_blanks_head in Hc1. congruence.
  - rewrite HL. reflexivity.
Qed.

Lemma drop_blanks_split (l : list ascii) :
  exists p, l = p ++ drop_blanks l /\ all_blank p.
Proof.
  induction l as [| c l (p & Hp & Hb)]; cbn.
  - exists []. split; [reflexivity | constructor].
  - destruct (is_blank c) eqn:E.
    + exists (c :: p). split; [cbn; congruence | constructor; auto].
    + exists []. split; [reflexivity | constructor].
Qed.

Lemma drop_blanks_app_blank (p x : list ascii) :
  all_blank p -> drop_blanks (p ++ x) = drop_blanks x.
Proof.
  induction 1 as [| c p Hc _ IH]; cbn; [reflexivity |]. now rewrite Hc.
Qed.

(** What [strip_chars] returns for a text with something to keep. *)
Lemma strip_chars_trimmed (p t q : list ascii) c t' init c' :
  all_blank p -> all_blank q ->
  t = c :: t' -> is_blank c = false ->
  t = init ++ [c'] -> is_blank c' = false ->
  strip_chars (p ++ t ++ q) = Some t.
Proof.
  intros Hp Hq Ht Hc Ht' Hc'. unfold strip_chars.
  rewrite drop_blanks_app_blank by exact Hp.
  rewrite Ht at 1. cbn [app drop_blanks]. rewrite Hc.
  change (c :: t' ++ q) with ((c :: t') ++ q). rewrite <- Ht.
  rewrite rev_app_distr, drop_blanks_app_blank by (apply Forall_rev; exact Hq).
  rewrite Ht' at 1. rewrite rev_app_distr. cbn [rev app drop_blanks].
  rewrite Hc'. change (c' :: rev init) with (rev [c'] ++ rev init).
  rewrite <- rev_app_distr, <- Ht', rev_involutive. reflexivity.
Qed.

(** And what a result of [strip_chars] looks like. *)
Lemma strip_chars_some (l t : list ascii) :
  strip_chars l = Some t ->
  exists p q c t' init c',
    l = p ++ t ++ q /\ all_blank p /\ all_blank q /\
    t = c :: t' /\ is_blank c = false /\
    t = init ++ [c'] /\ is_blank c' = false.
Proof.
  unfold strip_chars. intros H.
  destruct (drop_blanks_split l) as (p & Hl & Hp).
  destruct (drop_blanks l) as [| c l1] eqn:E1; [discriminate |].
  injection H as Ht.
  pose proof (drop_blanks_head _ _ _ E1) as Hc.
  destruct (drop_blanks_split (rev (c :: l1))) as (q' & Hr & Hq').
  destruct (drop_blanks (rev (c :: l1))) as [| c' m] eqn:E2.
  - exfalso. rewrite app_nil_r in Hr. rewrite <- Hr in Hq'.
    apply Forall_rev in Hq'. rewrite rev_involutive in Hq'.
    inversion Hq'; congruence.
  - pose proof (drop_blanks_head _ _ _ E2) as Hc'.
    change (rev l1 ++ [c]) with (rev (c :: l1)) in Ht. rewrite E2 in Ht.
    subst t.
    apply (f_equal (@rev ascii)) in Hr.
    rewrite rev_involutive, rev_app_distr in Hr.
    assert (Hhead : exists t', rev (c' :: m) = c :: t').
    { destruct (rev (c' :: m)) as [| x t'] eqn:Em.
      - apply (f_equal (@List.length ascii)) in Em.
        rewrite length_rev in Em. discriminate.
      - cbn in Hr. inversion Hr; subst. eauto. }
    destruct Hhead as (t' & Hhead).
    exists p, (rev q'), c, t', (rev m), c'.
    repeat split; auto.
    + rewrite Hl. f_equal. exact Hr.
    + apply Forall_rev. exact Hq'.
Qed.

Lemma strip_chars_idempotent (l t : list ascii) :
  strip_chars l = Some t -> strip_chars t = Some t.
Proof.
  intros H.
  destruct (strip_chars_some l t H) as (p & q & c & t' & init & c' & _ & _ & _
                                        & Ht & Hc & Ht' & Hc').
  pose proof (strip_chars_trimmed [] t [] c t' init c') as E.
  cbn [app] in E. rewrite app_nil_r in E. apply E; auto; constructor.
Qed.

Lemma sv_chars_length (v : string_view) :
  sv_wf v -> List.length (sv_chars v) = sv_size v.
Proof.
  unfold sv_wf, sv_chars. intros H.
  rewrite length_firstn, length_skipn. lia.
Qed.

(** X1: on a view within its buffer, [strip] is trimming: the characters it
    returns are those of the view without the leading and trailing spaces,
    tabs and newlines, so they depend on the characters viewed alone; the
    view returned lies within the one given, over the same buffer; and
    stripping it again returns it unchanged. *)
Theorem strip_trims (str v : string_view) :
  sv_wf str ->
  strip str = Some v ->
  strip_chars (sv_chars str) = Some (sv_chars v) /\
  sv_data v = sv_data str /\
  (sv_begin str <= sv_begin v)%nat /\
  (sv_begin v + sv_size v <= sv_begin str + sv_size str)%nat /\
  strip v = Some v.
Proof.
  intros Hwf Hs. pose proof (strip_as_chars str Hwf) as H. rewrite Hs in H.
  destruct H as (Hc & Hd & Hwf' & Hb & He). repeat split; auto.
  pose proof (strip_as_chars v Hwf') as H'.
  pose proof (strip_chars_idempotent _ _ Hc) as Hi.
  destruct (strip v) as [v2 |]; [| congruence].
  destruct H' as (Hc2 & Hd2 & Hwf2 & Hb2 & He2).
  rewrite Hi in Hc2. inversion Hc2 as [Hch].
  apply (f_equal (@List.length ascii)) in Hch.
  rewrite !sv_chars_length in Hch by assumption.
  destruct v as [d b n], v2 as [d2 b2 n2]. cbn in *. subst d2.
  f_equal. f_equal; lia.
Qed.

Lemma strip_trims_witness :
  strip_chars (sv_chars (mkView (list_ascii_of_string "Name: a b  ") 5 6))
  = Some (list_ascii_of_string "a b") /\
  strip (mkView (list_ascii_of_string "Name: a b  ") 6 3)
  = Some (mkView (list_ascii_of_string "Name: a b  ") 6 3).
Proof.
  assert (Hwf : sv_wf (mkView (list_ascii_of_string "Name: a b  ") 5 6))
    by (unfold sv_wf; cbn; lia).
  assert (Hs : strip (mkView (list_ascii_of_string "Name: a b  ") 5 6)
               = Some (mkView (list_ascii_of_string "Name: a b  ") 6 3))
    by reflexivity.
  destruct (strip_trims _ _ Hwf Hs) as (Hc & _ & _ & _ & Hi).
  split; [exact Hc | exact Hi].
Defined.

(** * The lines of the status record *)

Lemma list_ascii_of_string_app (a b : string) :
  list_ascii_of_string (append a b)
  = list_ascii_of_string a ++ list_ascii_of_string b.
Proof.
  induction a as [| c a IH]; cbn; [reflexivity | now rewrite IH].
Qed.

Lemma string_length_chars (a : string) :
  String.length a = List.length (list_ascii_of_string a).
Proof.
  induction a as [| c a IH]; cbn; [reflexivity | now rewrite IH].
Qed.

Lemma c_str_no_nul (l : list ascii) : no_nul l -> c_str l = l.
Proof.
  induction 1 as [| c l Hc _ IH]; cbn; [reflexivity |]. now rewrite Hc, IH.
Qed.

Lemma sv_chars_view_of (l : list ascii) : sv_chars (view_of l) = l.
Proof.
  unfold sv_chars, view_of. cbn. apply firstn_all.
Qed.

Lemma list_prefix_app (p x : list ascii) : list_prefix p (p ++ x) = true.
Proof.
  induction p as [| c p IH]; cbn; [reflexivity |].
  now rewrite Ascii.eqb_refl, IH.
Qed.

(** The value that follows a label: [remove_prefix(sizeof(label))] drops the
    label and one more character, and [strip] trims the rest. *)
Lemma label_value_chars (label : string) (c0 : ascii) (value : list ascii) :
  match strip_chars value with
  | Some t =>
      exists v,
        label_value label (view_of (list_ascii_of_string label ++ c0 :: value))
        = Ok v /\ sv_chars v = t
  | None =>
      label_value label (view_of (list_ascii_of_string label ++ c0 :: value))
      = Abort Undefined
  end.
Proof.
  unfold label_value, remove_prefix, sizeof_literal, view_of.
  cbn [sv_data sv_begin sv_size]. rewrite string_length_chars.
  set (lab := list_ascii_of_string label).
  replace (S (List.length lab) <=? List.length (lab ++ c0 :: value))%nat with true
    by (symmetry; apply Nat.leb_le; rewrite length_app; cbn; lia).
  set (v1 := mkView (lab ++ c0 :: value) (0 + S (List.length lab))
               (List.length (lab ++ c0 :: value) - S (List.length lab))).
  assert (Hsize : sv_size v1 = List.length value).
  { subst v1. cbn [sv_size]. rewrite length_app. cbn. lia. }
  assert (Hwf : sv_wf v1).
  { unfold sv_wf. rewrite Hsize. subst v1. cbn [sv_begin sv_data].
    rewrite length_app. cbn. lia. }
  assert (Hch : sv_chars v1 = value).
  { unfold sv_chars. rewrite Hsize. subst v1. cbn [sv_begin sv_data].
    replace (0 + S (List.length lab))%nat with (List.length (lab ++ [c0]))
      by (rewrite length_app; cbn; lia).
    replace (lab ++ c0 :: value) with ((lab ++ [c0]) ++ value)
      by (rewrite <- app_assoc; reflexivity).
    rewrite skipn_app, skipn_all, Nat.sub_diag. cbn [skipn app].
    apply firstn_all. }
  pose proof (strip_as_chars v1 Hwf) as H. rewrite Hch in H.
  destruct (strip v1) as [v |].
  - destruct H as (Hc & _). rewrite Hc. eauto.
  - rewrite H. reflexivity.
Qed.

Lemma status_buffer_view (label : string) (c0 : ascii) (value : string) :
  Ascii.eqb c0 zero = false ->
  no_nul (list_ascii_of_string label) ->
  no_nul (list_ascii_of_string value) ->
  view_of (c_str (list_ascii_of_string (append label (String c0 value))))
  = view_of (list_ascii_of_string label ++ c0 :: list_ascii_of_string value).
Proof.
  intros H0 Hl Hv. rewrite list_ascii_of_string_app. cbn [list_ascii_of_string].
  rewrite c_str_no_nul; [reflexivity |].
  apply Forall_app. split; [exact Hl |]. constructor; assumption.
Qed.

Lemma starts_with_label (label other : string) (rest : list ascii) :
  starts_with (view_of (list_ascii_of_string label ++ rest)) other
  = list_prefix (list_ascii_of_string other) (list_ascii_of_string label ++ rest).
Proof.
  unfold starts_with. now rewrite sv_chars_view_of.
Qed.

(** What [read_status] takes from a line that starts with one of its four
    labels. *)
Lemma status_line_by_label (c0 : ascii) (value : string) (s : status_state) :
  Ascii.eqb c0 zero = false ->
  no_nul (list_ascii_of_string value) ->
  status_line (append "Name:" (String c0 value)) s
  = match strip_chars (list_ascii_of_string value) with
    | Some t =>
        Ok (mkStatus (string_of_list_ascii t) (ss_pid s) (ss_status_ppid s)
              (ss_pgrp s))
    | None => Abort Undefined
    end /\
  status_line (append "Pid:" (String c0 value)) s
  = match strip_chars (list_ascii_of_string value) with
    | Some t =>
        result_bind (stoi t) (fun n =>
          Ok (mkStatus (ss_name s) n (ss_status_ppid s) (ss_pgrp s)))
    | None => Abort Undefined
    end /\
  status_line (append "PPid:" (String c0 value)) s
  = match strip_chars (list_ascii_of_string value) with
    | Some t =>
        result_bind (stoi t) (fun n =>
          Ok (mkStatus (ss_name s) (ss_pid s) n (ss_pgrp s)))
    | None => Abort Undefined
    end /\
  status_line (append "Tgid:" (String c0 value)) s
  = match strip_chars (list_ascii_of_string value) with
    | Some t =>
        result_bind (stoi t) (fun n =>
          Ok (mkStatus (ss_name s) (ss_pid s) (ss_status_ppid s) n))
    | None => Abort Undefined
    end.
Proof.
  intros H0 Hv.
  assert (Hlab : forall label,
             In label ["Name:"; "Pid:"; "PPid:"; "Tgid:"] ->
             no_nul (list_ascii_of_string label)).
  { intros label [<- | [<- | [<- | [<- | []]]]]; repeat constructor. }
  repeat split; unfold status_line;
    rewrite status_buffer_view by (auto; apply Hlab; cbn; tauto);
    rewrite !starts_with_label;
    cbn [list_ascii_of_string app list_prefix Ascii.eqb Bool.eqb andb];
    match goal with
    | |- context [label_value ?lab ?line] =>
        pose proof (label_value_chars lab c0 (list_ascii_of_string value)) as HL
    end;
    cbn [list_ascii_of_string app] in HL;
    (destruct (strip_chars (list_ascii_of_string value)) as [t |];
     [ destruct HL as (v & E & Hc); rewrite E; cbn [result_bind];
       unfold sv_string; rewrite Hc; reflexivity
     | rewrite HL; reflexivity ]).
Qed.

(** X2: what [read_status] takes from a line that starts with one of its
    four labels.  The character right after the colon is dropped without
    being looked at (it does not occur on the right-hand sides); what follows
    is trimmed; a value that is empty or all blank is out of [strip]'s
    contract; [Name:] keeps the trimmed text, and the other three pass it to
    [std::stoi]. *)
Theorem status_line_labels (c0 : ascii) (value : string) (s : status_state) :
  Ascii.eqb c0 zero = false ->
  no_nul (list_ascii_of_string value) ->
  status_line (append "Name:" (String c0 value)) s
  = match strip_chars (list_ascii_of_string value) with
    | Some t =>
        Ok (mkStatus (string_of_list_ascii t) (ss_pid s) (ss_status_ppid s)
              (ss_pgrp s))
    | None => Abort Undefined
    end /\
  status_line (append "Pid:" (String c0 value)) s
  = match strip_chars (list_ascii_of_string value) with
    | Some t =>
        result_bind (stoi t) (fun n =>
          Ok (mkStatus (ss_name s) n (ss_status_ppid s) (ss_pgrp s)))
    | None => Abort Undefined
    end /\
  status_line (append "PPid:" (String c0 value)) s
  = match strip_chars (list_ascii_of_string value) with
    | Some t =>
        result_bind (stoi t) (fun n =>
          Ok (mkStatus (ss_name s) (ss_pid s) n (ss_pgrp s)))
    | None => Abort Undefined
    end /\
  status_line (append "Tgid:" (String c0 value)) s
  = match strip_chars (list_ascii_of_string value) with
    | Some t =>
        result_bind (stoi t) (fun n =>
          Ok (mkStatus (ss_name s) (ss_pid s) (ss_status_ppid s) n))
    | None => Abort Undefined
    end.
Proof. exact (status_line_by_label c0 value s). Qed.

Lemma status_line_labels_witness :
  status_line "Name:  a b  " (mkStatus "" 0 0 0) = Ok (mkStatus "a b" 0 0 0) /\
  status_line "Pid:123" (mkStatus "" 0 0 0) = Ok (mkStatus "" 23 0 0) /\
  status_line "PPid:  " (mkStatus "" 0 0 0) = Abort Undefined /\
  status_line "Tgid: x" (mkStatus "" 0 0 0) = Abort Uncaught.
Proof.
  assert (N : forall v, no_nul (list_ascii_of_string v) ->
                        no_nul (list_ascii_of_string v)) by auto.
  split; [| split; [| split]].
  - apply (proj1 (status_line_labels " " " a b  " (mkStatus "" 0 0 0) eq_refl
                    ltac:(repeat constructor))).
  - apply (proj1 (proj2 (status_line_labels "1" "23" (mkStatus "" 0 0 0) eq_refl
                           ltac:(repeat constructor)))).
  - apply (proj1 (proj2 (proj2
             (status_line_labels " " " " (mkStatus "" 0 0 0) eq_refl
                ltac:(repeat constructor))))).
  - apply (proj2 (proj2 (proj2
             (status_line_labels " " "x" (mkStatus "" 0 0 0) eq_refl
                ltac:(repeat constructor))))).
Defined.

(** * What [fgets] delivers *)

Lemma fgets_line (body rest : list ascii) :
  forall room,
    no_newline body = true ->
    (List.length body < room)%nat ->
    fgets room (body ++ newline :: rest) = (body ++ [newline], rest).
Proof.
  unfold no_newline.
  induction body as [| c body IH]; intros room Hb Hl.
  - destruct room as [| room]; [cbn in Hl; lia |]. reflexivity.
  - destruct room as [| room]; [cbn in Hl; lia |].
    cbn [forallb] in Hb. apply andb_true_iff in Hb. destruct Hb as [Hc Hb].
    apply negb_true_iff in Hc. cbn [app fgets]. rewrite Hc.
    rewrite IH by (cbn in Hl; auto; lia). reflexivity.
Qed.

(** A stretch without newline that fits the buffer is stored whole. *)
Lemma fgets_app (pre tail : list ascii) :
  forall room,
    no_newline pre = true ->
    (List.length pre <= room)%nat ->
    fgets room (pre ++ tail)
    = (pre ++ fst (fgets (room - List.length pre) tail),
       snd (fgets (room - List.length pre) tail)).
Proof.
  unfold no_newline.
  induction pre as [| c pre IH]; intros room Hb Hl.
  - cbn [app List.length]. rewrite Nat.sub_0_r.
    destruct (fgets room tail). reflexivity.
  - destruct room as [| room]; [cbn in Hl; lia |].
    cbn [forallb] in Hb. apply andb_true_iff in Hb. destruct Hb as [Hc Hb].
    apply negb_true_iff in Hc. cbn [app fgets List.length]. rewrite Hc.
    rewrite IH by (cbn in Hl; auto; lia). reflexivity.
Qed.

Lemma fgets_lines_step (calls size : nat) (text : list ascii) :
  text <> [] ->
  fgets_lines (S calls) size text
  = string_of_list_ascii (fst (fgets (size - 1) text))
    :: fgets_lines calls size (snd (fgets (size - 1) text)).
Proof.
  intros Hne. destruct text as [| c text]; [contradiction |].
  cbn [fgets_lines]. destruct (fgets (size - 1) (c :: text)). reflexivity.
Qed.

Lemma fgets_lines_end (calls size : nat) : fgets_lines calls size [] = [].
Proof. destruct calls; reflexivity. Qed.

Lemma concat_lines (x : string) (xs : list string) :
  list_ascii_of_string (String.concat "" (x :: xs))
  = list_ascii_of_string x ++ list_ascii_of_string (String.concat "" xs).
Proof.
  destruct xs as [| y ys].
  - cbn. now rewrite app_nil_r.
  - cbn [String.concat]. rewrite list_ascii_of_string_app. reflexivity.
Qed.

(** A text made of lines that each fit the buffer is delivered line by
    line. *)
Lemma fgets_lines_lines (size : nat) (lines : list string) :
  Forall (one_line size) lines ->
  forall calls,
    (List.length (list_ascii_of_string (String.concat "" lines)) <= calls)%nat ->
    fgets_lines calls size (list_ascii_of_string (String.concat "" lines))
    = lines.
Proof.
  induction 1 as [| x xs (body & Hx & Hb & Hl) _ IH]; intros calls Hc.
  - apply fgets_lines_end.
  - rewrite concat_lines in *. rewrite Hx in *. rewrite <- app_assoc in *.
    cbn [app] in *. rewrite length_app in Hc. cbn [List.length] in Hc.
    destruct calls as [| calls]; [lia |].
    rewrite fgets_lines_step by (destruct body; discriminate).
    rewrite fgets_line by (auto; lia). cbn [fst snd].
    rewrite <- Hx, string_of_list_ascii_of_string. f_equal.
    apply IH. lia.
Qed.

Lemma file_lines_lines (size : nat) (lines : list string) :
  Forall (one_line size) lines ->
  file_lines size (String.concat "" lines) = lines.
Proof.
  intros H. unfold file_lines. apply fgets_lines_lines; auto.
Qed.

(** The first string delivered from a text that begins with a stretch
    without newline that fits the buffer. *)
Lemma file_lines_first (size : nat) (pre tail : list ascii) :
  pre <> [] ->
  no_newline pre = true ->
  (List.length pre < size)%nat ->
  exists tail' more,
    file_lines size (string_of_list_ascii (pre ++ tail))
    = string_of_list_ascii (pre ++ tail') :: more.
Proof.
  intros Hne Hb Hl. unfold file_lines.
  rewrite list_ascii_of_string_of_list_ascii.
  destruct pre as [| c pre]; [contradiction |].
  cbn [app List.length].
  rewrite fgets_lines_step by discriminate.
  change (c :: pre ++ tail) with ((c :: pre) ++ tail).
  rewrite fgets_app by (auto; lia). cbn [fst snd].
  eexists _, _. reflexivity.
Qed.

(** ** How long a number is in text *)

Lemma uint_value_lower (d : Decimal.uint) :
  forall acc,
    0 <= acc ->
    acc * 10 ^ Z.of_nat (Decimal.nb_digits d) <= uint_value d acc.
Proof.
  induction d; intros acc Ha; cbn [uint_value Decimal.nb_digits];
    [cbn; lia | ..];
    (rewrite Nat2Z.inj_succ, Z.pow_succ_r by lia;
     etransitivity; [| apply IHd; lia];
     pose proof (Z.pow_nonneg 10 (Z.of_nat (Decimal.nb_digits d))); nia).
Qed.

Lemma to_uint_normal (p : positive) :
  Decimal.unorm (Pos.to_uint p) = Pos.to_uint p.
Proof.
  rewrite <- (DecimalPos.Unsigned.to_of (Pos.to_uint p)).
  rewrite DecimalPos.Unsigned.of_to. reflexivity.
Qed.

Lemma to_uint_digits (p : positive) :
  10 ^ Z.of_nat (Decimal.nb_digits (Pos.to_uint p)) <= 10 * Z.pos p.
Proof.
  pose proof (to_uint_normal p) as Hn.
  pose proof (DecimalPos.Unsigned.to_uint_nonzero p) as Hz.
  pose proof (DecimalPos.Unsigned.to_uint_nonnil p) as Hnil.
  pose proof (uint_value_zero (Pos.to_uint p)) as Hv.
  rewrite DecimalPos.Unsigned.of_to in Hv. cbn [Z.of_N] in Hv.
  rewrite <- Hv. clear Hv.
  destruct (Pos.to_uint p) as [| d | d | d | d | d | d | d | d | d | d];
    cbn [uint_value Decimal.nb_digits];
    rewrite ?Nat2Z.inj_succ, ?Z.pow_succ_r by lia.
  - contradiction.
  - exfalso. unfold Decimal.unorm in Hn. cbn [Decimal.nzhead] in Hn.
    pose proof (DecimalFacts.nb_digits_nzhead d) as Hl.
    destruct (Decimal.nzhead d); try discriminate Hn.
    + injection Hn as <-. contradiction.
    + injection Hn as <-. cbn [Decimal.nb_digits] in Hl. lia.
  - pose proof (uint_value_lower d (10 * 0 + 1)). lia.
  - pose proof (uint_value_lower d (10 * 0 + 2)). lia.
  - pose proof (uint_value_lower d (10 * 0 + 3)). lia.
  - pose proof (uint_value_lower d (10 * 0 + 4)). lia.
  - pose proof (uint_value_lower d (10 * 0 + 5)). lia.
  - pose proof (uint_value_lower d (10 * 0 + 6)). lia.
  - pose proof (uint_value_lower d (10 * 0 + 7)). lia.
  - pose proof (uint_value_lower d (10 * 0 + 8)). lia.
  - pose proof (uint_value_lower d (10 * 0 + 9)). lia.
Qed.

Lemma to_uint_short (p : positive) :
  Z.pos p <= 2 ^ 31 -> (Decimal.nb_digits (Pos.to_uint p) <= 10)%nat.
Proof.
  intros Hp. pose proof (to_uint_digits p) as H.
  destruct (Nat.le_gt_cases (Decimal.nb_digits (Pos.to_uint p)) 10) as [L | G];
    [exact L | exfalso].
  assert (P : 10 ^ 11 <= 10 ^ Z.of_nat (Decimal.nb_digits (Pos.to_uint p))).
  { apply Z.pow_le_mono_r; lia. }
  change (10 ^ 11) with 100000000000 in P.
  change (2 ^ 31) with 2147483648 in Hp. lia.
Qed.

Lemma string_of_uint_length (d : Decimal.uint) :
  d <> Decimal.Nil ->
  String.length (NilZero.string_of_uint d) = Decimal.nb_digits d.
Proof.
  intros Hd. unfold NilZero.string_of_uint.
  assert (E : forall u,
             String.length (NilEmpty.string_of_uint u) = Decimal.nb_digits u).
  { induction u; cbn; congruence. }
  destruct d; try contradiction; apply E.
Qed.

(** An [int] takes at most eleven characters. *)
Lemma to_string_short (z : Z) :
  INT_MIN <= z <= INT_MAX -> (String.length (to_string z) <= 11)%nat.
Proof.
  unfold INT_MIN, INT_MAX, to_string. intros Hz.
  destruct z as [| p | p]; cbn [Z.to_int NilZero.string_of_int].
  - cbn. lia.
  - rewrite string_of_uint_length by apply DecimalPos.Unsigned.to_uint_nonnil.
    pose proof (to_uint_short p). lia.
  - cbn [String.length].
    rewrite string_of_uint_length by apply DecimalPos.Unsigned.to_uint_nonnil.
    pose proof (to_uint_short p). lia.
Qed.

Lemma to_string_no_newline (z : Z) :
  no_newline (list_ascii_of_string (to_string z)) = true.
Proof. apply to_string_forallb; reflexivity. Qed.

Lemma trimmed_of_nonblank (l : list ascii) :
  l <> [] -> Forall (fun c => is_blank c = false) l -> trimmed l.
Proof.
  intros Hne F. unfold trimmed.
  destruct (exists_last Hne) as (init & c' & E).
  assert (Hl : is_blank c' = false).
  { rewrite E in F. apply Forall_app in F. destruct F as [_ F].
    now inversion F. }
  destruct l as [| c t]; [contradiction |].
  exists c, t, init, c'. repeat split; auto. now inversion F.
Qed.

Lemma strip_chars_line (l : list ascii) :
  trimmed l ->
  strip_chars (l ++ list_ascii_of_string nl) = Some l.
Proof.
  intros (c & t & init & c' & Hc & Hb & Hi & Hb').
  apply (strip_chars_trimmed [] l (list_ascii_of_string nl) c t init c');
    auto; repeat constructor.
Qed.

Lemma to_string_trimmed (z : Z) : trimmed (list_ascii_of_string (to_string z)).
Proof.
  apply trimmed_of_nonblank.
  - destruct (to_string_not_empty z) as (c & l & -> & _). discriminate.
  - apply to_string_chars_all; [reflexivity |].
    intros c Hc. apply negb_true_iff.
    apply (digit_is c (fun c => negb (is_blank c)) Hc); reflexivity.
Qed.

Lemma to_string_no_nul (z : Z) : no_nul (list_ascii_of_string (to_string z)).
Proof.
  apply to_string_chars_all; [reflexivity |].
  intros c Hc. apply negb_true_iff.
  apply (digit_is c (fun c => negb (Ascii.eqb c zero)) Hc); reflexivity.
Qed.

Lemma no_nul_line (v : string) :
  no_nul (list_ascii_of_string v) ->
  no_nul (list_ascii_of_string (append v nl)).
Proof.
  intros H. rewrite list_ascii_of_string_app. apply Forall_app.
  split; [exact H | repeat constructor].
Qed.

Lemma status_line_number (label_line : Z -> status_state -> status_state)
  (line : string -> string) (z : Z) (s : status_state) :
  INT_MIN <= z <= INT_MAX ->
  (forall value,
     no_nul (list_ascii_of_string value) ->
     status_line (line value) s
     = match strip_chars (list_ascii_of_string value) with
       | Some t => result_bind (stoi t) (fun n => Ok (label_line n s))
       | None => Abort Undefined
       end) ->
  status_line (line (append (to_string z) nl)) s = Ok (label_line z s).
Proof.
  intros Hz H. rewrite H by (apply no_nul_line, to_string_no_nul).
  rewrite list_ascii_of_string_app, strip_chars_line by apply to_string_trimmed.
  pose proof (stoi_to_string z [] Hz I) as E. rewrite app_nil_r in E.
  rewrite E. reflexivity.
Qed.

(** Reading back a status record in the kernel's layout. *)
Lemma scan_status_record (name : string) (tgid pid ppid : Z) (s0 : status_state) :
  trimmed (list_ascii_of_string name) ->
  no_nul (list_ascii_of_string name) ->
  INT_MIN <= tgid <= INT_MAX ->
  INT_MIN <= pid <= INT_MAX ->
  INT_MIN <= ppid <= INT_MAX ->
  scan_status (status_record name tgid pid ppid) s0
  = Ok (mkStatus name pid ppid tgid).
Proof.
  intros Ht Hn Htg Hp Hpp. unfold status_record. cbn [scan_status].
  (* Name *)
  change (append tab (append name nl))
    with (String (ascii_of_nat 9) (append name nl)).
  rewrite (proj1 (status_line_by_label (ascii_of_nat 9) _ s0 eq_refl (no_nul_line _ Hn))).
  rewrite list_ascii_of_string_app, strip_chars_line by exact Ht.
  rewrite string_of_list_ascii_of_string. cbn [result_bind].
  (* Umask *)
  match goal with
  | |- result_bind (status_line ?b ?s) _ = _ =>
      change (status_line b s) with (Ok s)
  end.
  cbn [result_bind].
  (* Tgid *)
  change (append tab (append (to_string tgid) nl))
    with (String (ascii_of_nat 9) (append (to_string tgid) nl)).
  rewrite (status_line_number
             (fun n s => mkStatus (ss_name s) (ss_pid s) (ss_status_ppid s) n)
             (fun v => append "Tgid:" (String (ascii_of_nat 9) v)) tgid _ Htg).
  2:{ intros value Hv.
      apply (proj2 (proj2 (proj2 (status_line_by_label (ascii_of_nat 9) value _ eq_refl Hv)))). }
  cbn [result_bind].
  (* Pid *)
  change (append tab (append (to_string pid) nl))
    with (String (ascii_of_nat 9) (append (to_string pid) nl)).
  rewrite (status_line_number
             (fun n s => mkStatus (ss_name s) n (ss_status_ppid s) (ss_pgrp s))
             (fun v => append "Pid:" (String (ascii_of_nat 9) v)) pid _ Hp).
  2:{ intros value Hv.
      apply (proj1 (proj2 (status_line_by_label (ascii_of_nat 9) value _ eq_refl Hv))). }
  cbn [result_bind].
  (* PPid *)
  change (append tab (append (to_string ppid) nl))
    with (String (ascii_of_nat 9) (append (to_string ppid) nl)).
  rewrite (status_line_number
             (fun n s => mkStatus (ss_name s) (ss_pid s) n (ss_pgrp s))
             (fun v => append "PPid:" (String (ascii_of_nat 9) v)) ppid _ Hpp).
  2:{ intros value Hv.
      apply (proj1 (proj2 (proj2 (status_line_by_label (ascii_of_nat 9) value _ eq_refl Hv)))). }
  reflexivity.
Qed.

Lemma labelled_line (size : nat) (label value : string) :
  no_newline (list_ascii_of_string label) = true ->
  no_newline (list_ascii_of_string value) = true ->
  (String.length label + String.length value + 3 <= size)%nat ->
  one_line size (append label (append tab (append value nl))).
Proof.
  intros Hl Hv Hs.
  exists (list_ascii_of_string label ++ list_ascii_of_string tab
            ++ list_ascii_of_string value).
  split; [| split].
  - rewrite !list_ascii_of_string_app, <- !app_assoc. reflexivity.
  - unfold no_newline in *. rewrite !forallb_app, Hl, Hv. reflexivity.
  - rewrite !length_app, <- !string_length_chars. cbn [String.length tab]. lia.
Qed.

(** Each line of a status record fits the buffer of [read_status] when the
    name does. *)
Lemma status_record_lines (name : string) (tgid pid ppid : Z) :
  no_newline (list_ascii_of_string name) = true ->
  (String.length name <= 1000)%nat ->
  INT_MIN <= tgid <= INT_MAX ->
  INT_MIN <= pid <= INT_MAX ->
  INT_MIN <= ppid <= INT_MAX ->
  Forall (one_line 1024) (status_record name tgid pid ppid).
Proof.
  intros Hn Hl Htg Hp Hpp.
  pose proof (to_string_short tgid Htg). pose proof (to_string_short pid Hp).
  pose proof (to_string_short ppid Hpp).
  unfold status_record.
  repeat constructor; apply labelled_line;
    auto using to_string_no_newline; cbn [String.length]; lia.
Qed.

(** X3: [read_status] reads back a status record in the kernel's layout,
    read line by line through its buffer of 1024 characters: when the
    record carries the identifier asked for as [Pid:] and the parent id
    given as [PPid:], the reader returns its [Tgid:] and its [Name:], for
    any name of at most 1000 characters that has no NUL and no newline and
    does not begin or end with a blank, and leaves the flag as it was;
    lines with other labels are passed over. *)
Theorem read_status_record k process ppid name tgid status not_there w :
  k_fopen k (proc_path process "/status") = Success status ->
  f_lines status
  = file_lines 1024 (String.concat "" (status_record name tgid process ppid)) ->
  f_error status = None ->
  f_close status = 0 ->
  trimmed (list_ascii_of_string name) ->
  no_nul (list_ascii_of_string name) ->
  no_newline (list_ascii_of_string name) = true ->
  (String.length name <= 1000)%nat ->
  INT_MIN <= tgid <= INT_MAX ->
  INT_MIN <= process <= INT_MAX ->
  INT_MIN <= ppid <= INT_MAX ->
  fst (read_status k process ppid 0 "" not_there w) = Ok (tgid, name, not_there).
Proof.
  intros Ho Hf He Hc Ht Hn Hnl Hlen Htg Hp Hpp.
  rewrite file_lines_lines in Hf by (apply status_record_lines; assumption).
  destruct (read_status_found k process ppid 0 "" not_there w
              (mkStatus name process ppid tgid)) as (w' & E).
  - exists status. rewrite Hf. cbn [ss_pid ss_status_ppid].
    repeat split; auto. apply scan_status_record; assumption.
  - rewrite E. reflexivity.
Qed.

Lemma read_status_record_witness :
  fst (read_status k_demo 2 1 0 "" false world0) = Ok (2, "kth (a b)", false).
Proof.
  apply (read_status_record k_demo 2 1 "kth (a b)" 2
           (mkFILE (status_record "kth (a b)" 2 2 1) None 0) false world0).
  - reflexivity.
  - vm_compute. reflexivity.
  - reflexivity.
  - reflexivity.
  - exists "k"%char, (list_ascii_of_string "th (a b)"),
      (list_ascii_of_string "kth (a b"), ")"%char.
    repeat split.
  - repeat constructor.
  - reflexivity.
  - cbn. lia.
  - unfold INT_MIN, INT_MAX. lia.
  - unfold INT_MIN, INT_MAX. lia.
  - unfold INT_MIN, INT_MAX. lia.
Defined.

(** * Statistics records in the kernel's layout *)

Lemma to_string_plain (z : Z) :
  forallb plain (list_ascii_of_string (to_string z)) = true.
Proof. apply to_string_forallb; reflexivity. Qed.

Lemma stoi_to_string_exact (z : Z) :
  INT_MIN <= z <= INT_MAX -> stoi (list_ascii_of_string (to_string z)) = Ok z.
Proof.
  intros Hz. pose proof (stoi_to_string z [] Hz I) as E.
  now rewrite app_nil_r in E.
Qed.

(** The five fields of a statistics record and the blank after each. *)
Lemma stat_record_tail pid comm state ppid sid tail :
  stat_record pid comm state ppid sid tail
  = string_of_list_ascii
      (list_ascii_of_string (stat_record pid comm state ppid sid []) ++ tail).
Proof.
  unfold stat_record. rewrite list_ascii_of_string_of_list_ascii. f_equal.
  repeat (rewrite <- app_assoc; cbn [app]). reflexivity.
Qed.

(** What the one [fgets] of [read_stat] stores from a statistics record
    whose name and state have no newline and are short enough for the five
    fields to fit its buffer: the five fields and some of what follows. *)
Lemma stat_record_chunk pid comm state ppid sid tail :
  no_newline comm = true ->
  no_newline state = true ->
  (List.length comm + List.length state <= 2000)%nat ->
  INT_MIN <= pid <= INT_MAX ->
  INT_MIN <= ppid <= INT_MAX ->
  INT_MIN <= sid <= INT_MAX ->
  exists tail' more,
    file_lines 2048 (stat_record pid comm state ppid sid tail)
    = stat_record pid comm state ppid sid tail' :: more.
Proof.
  intros Hc Hs Hl Hp Hpp Hsd.
  pose proof (to_string_short pid Hp) as L1.
  pose proof (to_string_short ppid Hpp) as L2.
  pose proof (to_string_short sid Hsd) as L3.
  rewrite string_length_chars in L1, L2, L3.
  rewrite stat_record_tail.
  destruct (file_lines_first 2048
              (list_ascii_of_string (stat_record pid comm state ppid sid []))
              tail) as (tail' & more & E).
  - unfold stat_record. rewrite list_ascii_of_string_of_list_ascii.
    destruct (list_ascii_of_string (to_string pid)); discriminate.
  - unfold stat_record. rewrite list_ascii_of_string_of_list_ascii.
    pose proof (to_string_no_newline pid) as N1.
    pose proof (to_string_no_newline ppid) as N2.
    pose proof (to_string_no_newline sid) as N3.
    unfold no_newline in *.
    repeat (rewrite forallb_app; cbn [forallb]).
    rewrite Hc, Hs, N1, N2, N3. reflexivity.
  - unfold stat_record. rewrite list_ascii_of_string_of_list_ascii.
    repeat (rewrite length_app; cbn [List.length]). lia.
  - exists tail', more. rewrite E, <- stat_record_tail. reflexivity.
Qed.

(** X4: [read_stat] reads back a statistics record in the kernel's layout,
    read through its buffer of 2048 characters: for a name and a state
    without newline and short enough for the five fields to fit the buffer,
    whatever the name between the parentheses, blanks and matched
    parentheses included, as long as the loop's nesting depth is back at
    zero where the name ends, the reader returns the parent id and field 4
    of the record of the identifier asked for, and leaves the flag as it
    was. *)
Theorem read_stat_record k process comm state ppid sid tail stat
  ppid0 sid0 not_there w :
  k_fopen k (proc_path process "/stat") = Success stat ->
  f_lines stat = file_lines 2048 (stat_record process comm state ppid sid tail) ->
  f_close stat = 0 ->
  opaque 0 ("("%char :: comm ++ [")"%char]) = true ->
  forallb plain state = true ->
  no_newline comm = true ->
  no_newline state = true ->
  (List.length comm + List.length state <= 2000)%nat ->
  INT_MIN <= process <= INT_MAX ->
  INT_MIN <= ppid <= INT_MAX ->
  INT_MIN <= sid <= INT_MAX ->
  fst (read_stat k process ppid0 sid0 not_there w) = Ok (ppid, sid, not_there).
Proof.
  intros Ho Hf Hcl Hcomm Hstate Hnc Hns Hlen Hp Hpp Hsd.
  destruct (stat_record_chunk process comm state ppid sid tail)
    as (tail' & more & E); auto.
  rewrite E in Hf.
  destruct (scan_stat_fields
              (list_ascii_of_string (to_string process))
              ("("%char :: comm ++ [")"%char]) state
              (list_ascii_of_string (to_string ppid))
              (list_ascii_of_string (to_string sid)) tail'
              process ppid sid ppid0 sid0)
    as (s & Es & H1 & H2 & H3 & H4);
    auto using to_string_plain, stoi_to_string_exact.
  destruct (read_stat_found k process ppid0 sid0 not_there w s) as (w' & E').
  - exists stat, (stat_record process comm state ppid sid tail'), more.
    repeat split; auto. lia.
  - rewrite E', H2, H3. reflexivity.
Qed.

Lemma read_stat_record_witness :
  fst (read_stat k_demo 2 0 0 false world0) = Ok (1, 0, false).
Proof.
  apply (read_stat_record k_demo 2 (list_ascii_of_string "kth (a b)")
           ["S"%char] 1 0 (list_ascii_of_string (append "0 0 -1" nl))
           (mkFILE [t_stat kernel_thread] None 0) 0 0 false world0).
  - reflexivity.
  - vm_compute. reflexivity.
  - reflexivity.
  - reflexivity.
  - reflexivity.
  - reflexivity.
  - reflexivity.
  - cbn. lia.
  - unfold INT_MIN, INT_MAX. lia.
  - unfold INT_MIN, INT_MAX. lia.
  - unfold INT_MIN, INT_MAX. lia.
Defined.

(** Within parentheses that are never all closed the loop completes no
    field. *)
Lemma stat_loop_stays_open buffer rest :
  forall i s,
    stays_open (st_parens s) rest = true ->
    exists s',
      stat_loop buffer rest i s = Ok s' /\
      st_pid s' = st_pid s /\ st_field s' = st_field s.
Proof.
  induction rest as [| c rest IH]; intros i s H.
  - exists s. auto.
  - cbn [stat_loop]. cbn [stays_open] in H.
    destruct (Ascii.eqb c zero); [exists s; auto |].
    cbv zeta in H. apply andb_true_iff in H. destruct H as [Hd H].
    rewrite Hd.
    match goal with |- context [stat_loop buffer rest (S i) ?s1] =>
      destruct (IH (S i) s1) as (s' & E & H1 & H2) end; [exact H |].
    exists s'. auto.
Qed.

(** X5: a name whose parentheses are never all closed ends the scan: when,
    from the blank after the identifier on, the loop's nesting depth never
    returns to zero, no further field is completed, and [read_stat] stops
    the program with [LOG(FATAL)], whatever identifier was asked for. *)
Theorem read_stat_unclosed_name k process pid after rest err
  ppid0 sid0 not_there w :
  k_fopen k (proc_path process "/stat")
  = Success
      (mkFILE
         (string_of_list_ascii
            (list_ascii_of_string (to_string pid) ++ " "%char :: after) :: rest)
         err 0) ->
  INT_MIN <= pid <= INT_MAX ->
  stays_open 0 after = true ->
  fst (read_stat k process ppid0 sid0 not_there w) = Abort Exit1.
Proof.
  intros Ho Hp Hopen.
  set (digits := list_ascii_of_string (to_string pid)).
  set (buffer := digits ++ " "%char :: after).
  assert (Es : exists s,
             scan_stat (string_of_list_ascii buffer) ppid0 sid0 = Ok s /\
             st_field s = 1).
  { unfold scan_stat. rewrite list_ascii_of_string_of_list_ascii.
    change (stat_loop buffer buffer 0)
      with (stat_loop buffer (digits ++ " "%char :: after)
              (List.length (@nil ascii))).
    rewrite (stat_loop_word buffer [] digits);
      [| reflexivity | reflexivity | reflexivity | apply to_string_plain].
    unfold stat_store at 1. cbn [st_field]. change (0 =? 0) with true. cbv iota.
    subst digits. rewrite stoi_to_string_exact by exact Hp. state_simpl.
    match goal with |- context [stat_loop buffer after ?i ?s1] =>
      destruct (stat_loop_stays_open buffer after i s1) as (s' & E & _ & Hf) end;
      [exact Hopen |].
    exists s'. split; [exact E | exact Hf]. }
  destruct Es as (s & Es & Hf).
  destruct (read_stat_few_fields k process ppid0 sid0 not_there w
              (mkFILE (string_of_list_ascii buffer :: rest) err 0)
              (string_of_list_ascii buffer) rest s Ho)
    as (w' & E); auto.
  - rewrite Hf. lia.
  - rewrite E. reflexivity.
Qed.

Lemma read_stat_unclosed_name_witness :
  fst (read_stat k_unclosed 7 0 0 false world0) = Abort Exit1.
Proof.
  apply (read_stat_unclosed_name k_unclosed 7 7
           (list_ascii_of_string (append "(a(b) S 1 7 7 0 -1" nl)) [] None
           0 0 false world0).
  - reflexivity.
  - unfold INT_MIN, INT_MAX. lia.
  - reflexivity.
Defined.

(** * The policy column *)

Lemma policy_string_label (policy : Z) : In (policy_string policy) policy_labels.
Proof.
  unfold policy_string, policy_labels.
  repeat match goal with
         | |- context [if ?b then _ else _] => destruct b
         end; cbn; tauto.
Qed.

Lemma policy_string_unknown (policy : Z) :
  policy_string policy = "???" <-> ~ In policy known_policies.
Proof.
  unfold policy_string, known_policies.
  destruct (Z.eqb_spec policy SCHED_OTHER); [split; [discriminate | intros H; exfalso; apply H; subst; cbn; tauto] |].
  destruct (Z.eqb_spec policy SCHED_BATCH); [split; [discriminate | intros H; exfalso; apply H; subst; cbn; tauto] |].
  destruct (Z.eqb_spec policy SCHED_IDLE); [split; [discriminate | intros H; exfalso; apply H; subst; cbn; tauto] |].
  destruct (Z.eqb_spec policy SCHED_FIFO); [split; [discriminate | intros H; exfalso; apply H; subst; cbn; tauto] |].
  destruct (Z.eqb_spec policy SCHED_RR); [split; [discriminate | intros H; exfalso; apply H; subst; cbn; tauto] |].
  destruct (Z.eqb_spec policy SCHED_DEADLINE);
    [split; [discriminate | intros H; exfalso; apply H; subst; cbn; tauto] |].
  split; [| reflexivity]. intros _ H. cbn in H.
  repeat destruct H as [H | H]; auto; congruence.
Qed.

Lemma known_policy_uint32 (scheduler : Z) :
  INT_MIN <= scheduler <= INT_MAX ->
  In (scheduler mod 2 ^ 32) known_policies <-> In scheduler known_policies.
Proof.
  unfold INT_MIN, INT_MAX, known_policies, SCHED_OTHER, SCHED_BATCH, SCHED_IDLE,
    SCHED_FIFO, SCHED_RR, SCHED_DEADLINE.
  intros H. destruct (Z.le_gt_cases 0 scheduler) as [Hs | Hs].
  - rewrite Z.mod_small by lia. tauto.
  - assert (E : scheduler mod 2 ^ 32 = scheduler + 2 ^ 32).
    { symmetry. apply (Z.mod_unique _ _ (-1)); lia. }
    rewrite E. cbn [In]. lia.
Qed.

(** X6: the policy column of a written row is always one of the seven
    labels, and it is [???] exactly when the value [sched_getscheduler]
    returned for the identifier is none of the six policies the program
    knows; and an unknown value neither stops the program nor suppresses
    the row: when every reader finds its value, the turn ends normally and
    writes the row, with [???] for the policy. *)
Theorem row_policy_label k all_cpus i w :
  (forall line,
     stdout (snd (main_loop_body k all_cpus i w)) = stdout w ++ [line] ->
     exists ro scheduler,
       line = row_text ro /\
       k_sched_getscheduler k i = Success scheduler /\
       In (row_policy ro) policy_labels /\
       (INT_MIN <= scheduler <= INT_MAX ->
        (row_policy ro = "???" <-> ~ In scheduler known_policies))) /\
  (forall cpu_mask param scheduler exe nice_value s ss,
     k_sched_getaffinity k i = Success cpu_mask ->
     k_sched_getparam k i = Success param ->
     k_sched_getscheduler k i = Success scheduler ->
     scheduler <> -1 ->
     INT_MIN <= scheduler <= INT_MAX ->
     ~ In scheduler known_policies ->
     exe_found k i exe ->
     k_getpriority k i = Success nice_value ->
     stat_found k i 0 0 s ->
     status_found k i (st_ppid s) 0 "" ss ->
     exists w',
       main_loop_body k all_cpus i w = (Ok tt, w') /\
       stdout w'
       = stdout w
         ++ [row_text
               (mkRow exe (ss_name ss)
                  (if CPU_EQUAL cpu_mask all_cpus then "all" else "???")
                  "???" nice_value (sched_priority param) i
                  (ss_pgrp ss) (st_ppid s) (st_sid s))]).
Proof.
  split.
  - intros line H.
    destruct (main_loop_body_line k all_cpus i w line H) as (ro & L & ->).
    destruct L as (cpu_mask & param & scheduler & s & ss & _ & _ & H3 & _ & _
                   & _ & _ & _ & Hro).
    exists ro, scheduler. rewrite Hro. cbn [row_policy].
    repeat split; auto using policy_string_label.
    + rewrite policy_string_unknown, known_policy_uint32 by assumption. tauto.
    + rewrite policy_string_unknown, known_policy_uint32 by assumption. tauto.
  - intros cpu_mask param scheduler exe nice_value s ss
           H1 H2 H3 N3 Hr Hu H4 H5 H6 H7.
    assert (P : policy_string (scheduler mod 2 ^ 32) = "???").
    { apply policy_string_unknown. rewrite known_policy_uint32 by exact Hr.
      exact Hu. }
    destruct (main_loop_body_live k all_cpus i
                (mkRow exe (ss_name ss)
                   (if CPU_EQUAL cpu_mask all_cpus then "all" else "???")
                   "???" nice_value (sched_priority param) i
                   (ss_pgrp ss) (st_ppid s) (st_sid s)) w)
      as (w' & E & O & _).
    + exists cpu_mask, param, scheduler, s, ss. cbn [row_exe row_nice].
      rewrite P. repeat split; auto.
    + exists w'. split; [exact E | exact O].
Qed.

Lemma row_policy_label_witness :
  (exists ro scheduler,
     append "/bin/init,init,all,???,0,10,1,1,0,1" nl = row_text ro /\
     k_sched_getscheduler k_reset_on_fork 1 = Success scheduler /\
     In (row_policy ro) policy_labels /\
     (INT_MIN <= scheduler <= INT_MAX ->
      (row_policy ro = "???" <-> ~ In scheduler known_policies))) /\
  (exists w',
     main_loop_body k_reset_on_fork 15 1 world0 = (Ok tt, w') /\
     stdout w'
     = stdout world0
       ++ [row_text (mkRow "/bin/init" "init" "all" "???" 0 10 1 1 0 1)]).
Proof.
  split.
  - apply (proj1 (row_policy_label k_reset_on_fork 15 1 world0)).
    vm_compute. reflexivity.
  - apply (proj2 (row_policy_label k_reset_on_fork 15 1 world0)
             15 (mkSchedParam 10) (SCHED_FIFO + 2 ^ 30) "/bin/init" 0
             (mkStat 1 0 1 7 19 0) (mkStatus "init" 1 0 1)).
    + reflexivity.
    + reflexivity.
    + reflexivity.
    + discriminate.
    + unfold INT_MIN, INT_MAX, SCHED_FIFO. lia.
    + unfold known_policies, SCHED_OTHER, SCHED_BATCH, SCHED_IDLE, SCHED_FIFO,
        SCHED_RR, SCHED_DEADLINE. cbn [In]. lia.
    + left. reflexivity.
    + reflexivity.
    + exists (mkFILE [append "1 (init) S 0 1 1 0 -1" nl] None 0),
        (append "1 (init) S 0 1 1 0 -1" nl), [].
      vm_compute. repeat split; discriminate.
    + exists (mkFILE (status_record "init" 1 1 0) None 0).
      vm_compute. repeat split.
Defined.

(** * Start-up: [pid_max] and the CPU set *)

Lemma to_int32_small (z : Z) :
  INT_MIN <= z <= INT_MAX -> to_int32 (clamp_long z) = z.
Proof.
  unfold INT_MIN, INT_MAX, to_int32, clamp_long, LONG_MIN, LONG_MAX. intros H.
  rewrite Z.min_r, Z.max_r by lia. rewrite Z.mod_small by lia. lia.
Qed.

Lemma fscanf_d_number (n : Z) (rest : list string) (err : option positive)
  (close : Z) :
  INT_MIN <= n <= INT_MAX ->
  fscanf_d (mkFILE [append (to_string n) nl] err close) = (1, n).
Proof.
  intros Hrange. unfold fscanf_d. cbn [f_lines String.concat].
  rewrite list_ascii_of_string_app.
  assert (Hh : exists c l,
             list_ascii_of_string (to_string n) ++ list_ascii_of_string nl
             = c :: l).
  { destruct (to_string_not_empty n) as (c & l & -> & _). cbn. eauto. }
  destruct Hh as (c & l & Hh).
  assert (Hs : skip_spaces (list_ascii_of_string (to_string n)
                              ++ list_ascii_of_string nl) <> []).
  { destruct (to_string_chars n) as (d & Hn & _ & Hc). rewrite Hc.
    destruct (uint_chars_head d Hn) as (c1 & l1 & Hd & Hdig). rewrite Hd.
    destruct (n <? 0); cbn [app skip_spaces].
    - change (isspace "-") with false. discriminate.
    - rewrite (digit_not_space c1 Hdig). discriminate. }
  destruct (skip_spaces _) as [| x y]; [contradiction |].
  rewrite strtol10_to_string by reflexivity.
  rewrite to_int32_small by exact Hrange. reflexivity.
Qed.

(** X7: [find_pid_max] returns the number written in the configuration
    file, as the kernel writes it (decimal digits and a newline), when the
    file opens and closes without error; it ends the program with
    [LOG(FATAL)] when the file cannot be opened, and by an exception when
    [fscanf] converts nothing (an empty file, a word) or [fclose] fails. *)
Theorem find_pid_max_outcomes k w :
  (forall n err,
     k_fopen k pid_max_path = Success (mkFILE [append (to_string n) nl] err 0) ->
     INT_MIN <= n <= INT_MAX ->
     fst (find_pid_max k w) = Ok n) /\
  (forall e,
     k_fopen k pid_max_path = Failure e ->
     fst (find_pid_max k w) = Abort Exit1) /\
  (forall f,
     k_fopen k pid_max_path = Success f ->
     strtol10 (list_ascii_of_string (String.concat "" (f_lines f))) = None ->
     fst (find_pid_max k w) = Abort Uncaught) /\
  (forall f,
     k_fopen k pid_max_path = Success f ->
     f_close f <> 0 ->
     fst (find_pid_max k w) = Abort Uncaught).
Proof.
  unfold find_pid_max. run_monad.
  split; [| split; [| split]].
  - intros n err H Hn. rewrite H. world_simpl.
    rewrite (fscanf_d_number n [] err 0 Hn). run_monad. reflexivity.
  - intros e H. rewrite H. reflexivity.
  - intros f H Hn. rewrite H. world_simpl. unfold fscanf_d. rewrite Hn.
    destruct (skip_spaces _); run_monad; reflexivity.
  - intros f H Hc. rewrite H. world_simpl.
    destruct (fscanf_d f) as [n r]. run_monad.
    destruct (1 =? n); world_simpl; [| reflexivity].
    apply Z.eqb_neq in Hc. rewrite Hc. reflexivity.
Qed.

Lemma find_pid_max_outcomes_witness :
  fst (find_pid_max k_demo world0) = Ok 3 /\
  fst (find_pid_max
         (mkKernel (Success 4) (fun _ => Failure ENOENT) (fun _ => Failure ESRCH)
            (fun _ => Failure ESRCH) (fun _ => Failure ESRCH)
            (fun _ => Failure ENOENT) (fun _ => Failure ESRCH)) world0)
  = Abort Exit1 /\
  fst (find_pid_max
         (mkKernel (Success 4) (fun _ => Success (mkFILE ["max"] None 0))
            (fun _ => Failure ESRCH) (fun _ => Failure ESRCH)
            (fun _ => Failure ESRCH) (fun _ => Failure ENOENT)
            (fun _ => Failure ESRCH)) world0)
  = Abort Uncaught /\
  fst (find_pid_max
         (mkKernel (Success 4) (fun _ => Success (mkFILE ["3"] None (-1)))
            (fun _ => Failure ESRCH) (fun _ => Failure ESRCH)
            (fun _ => Failure ESRCH) (fun _ => Failure ENOENT)
            (fun _ => Failure ESRCH)) world0)
  = Abort Uncaught.
Proof.
  split; [| split; [| split]].
  - apply (proj1 (find_pid_max_outcomes k_demo world0) 3 None);
      [reflexivity | unfold INT_MIN, INT_MAX; lia].
  - apply (proj1 (proj2 (find_pid_max_outcomes _ world0)) ENOENT). reflexivity.
  - apply (proj1 (proj2 (proj2 (find_pid_max_outcomes _ world0)))
             (mkFILE ["max"] None 0)); reflexivity.
  - apply (proj2 (proj2 (proj2 (find_pid_max_outcomes _ world0)))
             (mkFILE ["3"] None (-1))); [reflexivity | discriminate].
Defined.

Lemma prefix_refl (t : string) : String.prefix t t = true.
Proof.
  induction t as [| c t IH]; cbn; [reflexivity |].
  destruct (ascii_dec c c); [exact IH | contradiction].
Qed.

Lemma find_pid_max_halts k w f :
  fst (find_pid_max k w) = Abort f -> f = Exit1 \/ f = Uncaught.
Proof.
  unfold find_pid_max. run_monad.
  destruct (k_fopen k pid_max_path) as [file | e]; world_simpl.
  - destruct (fscanf_d file) as [n v]. run_monad.
    destruct (1 =? n); world_simpl; [| intros H; inversion H; auto].
    destruct (f_close file =? 0); world_simpl; intros H; inversion H; auto.
  - intros H. inversion H. auto.
Qed.

Lemma find_all_cpus_halts k w f :
  fst (find_all_cpus k w) = Abort f -> f = Exit1.
Proof.
  unfold find_all_cpus. run_monad.
  destruct (k_sysconf_nprocessors_conf k) as [n | e]; world_simpl.
  - destruct (to_int16 n =? -1); world_simpl; intros H; inversion H; auto.
  - destruct (to_int16 (-1) =? -1); world_simpl; intros H; inversion H; auto.
Qed.

(** A start-up that yields no positive [pid_max]: how the program ends and
    what it has put into the stream. *)
Lemma main_start_up k w :
  (exists f, fst (find_pid_max k w) = Abort f) \/
  (exists f, fst (find_all_cpus k w) = Abort f) \/
  (exists pid_max, fst (find_pid_max k w) = Ok pid_max /\ pid_max <= 0) ->
  stdout (snd (main k w)) = stdout w ++ [header_format] /\
  (fst (main k w) = Ok tt \/ fst (main k w) = Abort Exit1 \/
   (fst (main k w) = Abort Uncaught /\
    fst (find_pid_max k w) = Abort Uncaught)) /\
  forall c,
    In c (trace (snd (main k w))) ->
    In c (trace w) \/ c = call_fopen pid_max_path \/
    c = call_sysconf_nprocessors_conf.
Proof.
  intros H. unfold main, bind. rewrite printf_header.
  set (w0 := mkWorld (errno w) (stdout w ++ [header_format]) (trace w)).
  destruct (find_pid_max_spec k w0) as (r1 & w1 & E1 & S1 & T1 & P1).
  rewrite E1. rewrite !(P1 w) in H.
  assert (T1' : forall c, In c (trace w1) ->
                          In c (trace w) \/ c = call_fopen pid_max_path \/
                          c = call_sysconf_nprocessors_conf).
  { intros c Hc. rewrite T1 in Hc. apply in_app_or in Hc.
    destruct Hc as [Hc | [<- | []]]; auto. }
  destruct r1 as [pid_max | f].
  2:{ cbn [fst snd]. split; [rewrite S1; reflexivity |]. split; [| exact T1'].
      destruct (find_pid_max_halts k w f (P1 w)) as [-> | ->];
        [auto | right; right; split; [reflexivity | apply P1]]. }
  destruct (find_all_cpus_spec k w1) as (r2 & w2 & E2 & S2 & T2 & P2).
  rewrite E2. rewrite !(P2 w) in H.
  assert (T2' : forall c, In c (trace w2) ->
                          In c (trace w) \/ c = call_fopen pid_max_path \/
                          c = call_sysconf_nprocessors_conf).
  { intros c Hc. rewrite T2 in Hc. apply in_app_or in Hc.
    destruct Hc as [Hc | [<- | []]]; auto. }
  destruct r2 as [all_cpus | f].
  2:{ cbn [fst snd]. split; [rewrite S2, S1; reflexivity |].
      split; [| exact T2'].
      rewrite (find_all_cpus_halts k w f (P2 w)). auto. }
  destruct H as [[f H] | [[f H] | (p & H & Hp)]]; try discriminate.
  inversion H; subst p.
  replace (Z.to_nat pid_max) with O by lia.
  cbn [main_loop]. unfold ret. cbn [fst snd].
  split; [rewrite S2, S1; reflexivity |]. auto.
Qed.

(** X8: when start-up does not yield a positive [pid_max] (the file cannot
    be read, the processor count cannot be had, or the number read is zero
    or negative) the program asks the kernel about no identifier: the only
    calls are the two of start-up; and what leaves the process on standard
    output is the header line and nothing else, except when start-up ended
    by an exception ([CHECK_EQ] or [PCHECK] in [find_pid_max]): then it is
    some beginning of the header line, possibly nothing. *)
Theorem main_header_only k w out :
  (exists f, fst (find_pid_max k w) = Abort f) \/
  (exists f, fst (find_all_cpus k w) = Abort f) \/
  (exists pid_max, fst (find_pid_max k w) = Ok pid_max /\ pid_max <= 0) ->
  delivered (main k w) out ->
  (fst (find_pid_max k w) <> Abort Uncaught ->
   out = String.concat "" (stdout w ++ [header_format])) /\
  String.prefix out (String.concat "" (stdout w ++ [header_format])) = true /\
  forall c,
    In c (trace (snd (main k w))) ->
    In c (trace w) \/ c = call_fopen pid_max_path \/
    c = call_sysconf_nprocessors_conf.
Proof.
  intros H D. destruct (main_start_up k w H) as (S & R & T).
  unfold delivered in D. cbv zeta in D. rewrite S in D.
  split; [| split; [| exact T]].
  - intros Hn. destruct R as [R | [R | [_ R]]]; [| | contradiction];
      rewrite R in D; exact D.
  - destruct R as [R | [R | [R _]]]; rewrite R in D;
      [subst out; apply prefix_refl | subst out; apply prefix_refl | exact D].
Qed.

(** With [pid_max] 0 the header is all that leaves the process; with a
    [pid_max] file that holds a word, [CHECK_EQ] throws and nothing at all
    may have left it. *)
Lemma main_header_only_witness :
  (header_format = String.concat "" (stdout world0 ++ [header_format]) /\
   forall c,
     In c (trace (snd (main (kernel_of (append "0" nl) 4 [init_thread]) world0))) ->
     In c (trace world0) \/ c = call_fopen pid_max_path \/
     c = call_sysconf_nprocessors_conf) /\
  String.prefix "" (String.concat "" (stdout world0 ++ [header_format])) = true.
Proof.
  split.
  - destruct (main_header_only (kernel_of (append "0" nl) 4 [init_thread])
                world0 header_format) as (E & _ & T).
    + right. right. exists 0. split; [reflexivity | lia].
    + reflexivity.
    + split; [| exact T]. apply E. discriminate.
  - apply (main_header_only (kernel_of "max" 4 [init_thread]) world0 "").
    + left. exists Uncaught. reflexivity.
    + reflexivity.
Defined.

(** X9: for any count [n] that [sysconf] returns, [find_all_cpus] works on
    [n] converted to [int16_t]: when that is -1 (for -1 itself, and for
    65535) the program ends with [LOG(FATAL)]; otherwise the set returned
    holds exactly the CPUs below both the converted count and
    [CPU_SETSIZE], so it is empty for a count that converts to a negative
    number and stops at CPU 1023 however many processors there are.  A
    failing [sysconf] ends the program. *)
Theorem all_cpus_of_count k w :
  (forall n,
     k_sysconf_nprocessors_conf k = Success n ->
     to_int16 n = -1 ->
     fst (find_all_cpus k w) = Abort Exit1) /\
  (forall n,
     k_sysconf_nprocessors_conf k = Success n ->
     to_int16 n <> -1 ->
     exists all_cpus,
       fst (find_all_cpus k w) = Ok all_cpus /\
       forall c, 0 <= c ->
         CPU_ISSET c all_cpus = (c <? to_int16 n) && (c <? CPU_SETSIZE)) /\
  (forall e,
     k_sysconf_nprocessors_conf k = Failure e ->
     fst (find_all_cpus k w) = Abort Exit1).
Proof.
  unfold find_all_cpus. run_monad. split; [| split].
  - intros n H Hm. rewrite H. world_simpl. rewrite Hm. reflexivity.
  - intros n H Hm. rewrite H. world_simpl.
    apply Z.eqb_neq in Hm. rewrite Hm. world_simpl.
    eexists. split; [reflexivity |]. intros c Hc.
    unfold CPU_ISSET. rewrite cpu_set_loop_bits by lia.
    unfold CPU_ZERO. rewrite Z.bits_0. cbn [orb].
    replace (0 <=? c) with true by (symmetry; apply Z.leb_le; lia).
    cbn [andb]. f_equal.
    destruct (Z.ltb_spec c (to_int16 n)), (Z.ltb_spec c (0 + Z.of_nat (Z.to_nat (to_int16 n))));
      auto; lia.
  - intros e H. rewrite H. reflexivity.
Qed.

Lemma all_cpus_of_count_witness :
  fst (find_all_cpus (kernel_of nl 65535 []) world0) = Abort Exit1 /\
  exists all_cpus,
    fst (find_all_cpus (kernel_of nl 2000 []) world0) = Ok all_cpus /\
    forall c, 0 <= c ->
      CPU_ISSET c all_cpus = (c <? to_int16 2000) && (c <? CPU_SETSIZE).
Proof.
  split.
  - apply (proj1 (all_cpus_of_count (kernel_of nl 65535 []) world0) 65535);
      reflexivity.
  - apply (proj1 (proj2 (all_cpus_of_count (kernel_of nl 2000 []) world0)) 2000).
    + reflexivity.
    + vm_compute. discriminate.
Defined.

(** * Commas in a row *)

Lemma count_char_app (c : ascii) (a b : string) :
  count_char c (append a b) = (count_char c a + count_char c b)%nat.
Proof.
  induction a as [| x a IH]; cbn; [reflexivity |]. rewrite IH. lia.
Qed.

Lemma count_char_none (c : ascii) (s : string) :
  forallb (fun a => negb (Ascii.eqb a c)) (list_ascii_of_string s) = true ->
  count_char c s = O.
Proof.
  induction s as [| x s IH]; cbn; [reflexivity |].
  intros H. apply andb_true_iff in H. destruct H as [Hx H].
  apply negb_true_iff in Hx. rewrite Hx, IH by exact H. reflexivity.
Qed.

Lemma to_string_no_comma (z : Z) : count_char "," (to_string z) = O.
Proof.
  apply count_char_none. apply to_string_forallb; reflexivity.
Qed.

Lemma policy_string_no_comma (policy : Z) :
  count_char "," (policy_string policy) = O.
Proof.
  pose proof (policy_string_label policy) as H. unfold policy_labels in H.
  cbn [In] in H.
  repeat destruct H as [H | H]; try contradiction; rewrite <- H; reflexivity.
Qed.

(** X10: nothing is quoted or escaped: a written line has nine commas from
    the ten values, plus as many as the executable path and the thread name
    hold, so each comma in a path or a name shifts the columns after it by
    one. *)
Theorem row_commas k all_cpus i w line :
  stdout (snd (main_loop_body k all_cpus i w)) = stdout w ++ [line] ->
  exists ro,
    line = row_text ro /\
    live k all_cpus i ro /\
    count_char "," line
    = (9 + count_char "," (row_exe ro) + count_char "," (row_name ro))%nat.
Proof.
  intros H. destruct (main_loop_body_line k all_cpus i w line H) as (ro & L & ->).
  exists ro. split; [reflexivity |]. split; [exact L |].
  destruct L as (cpu_mask & param & scheduler & s & ss & _ & _ & _ & _ & _ & _
                 & _ & _ & Hro).
  assert (Hm : count_char "," (row_cpumask ro) = O).
  { rewrite Hro. cbn [row_cpumask]. destruct (CPU_EQUAL cpu_mask all_cpus);
      reflexivity. }
  assert (Hp : count_char "," (row_policy ro) = O).
  { rewrite Hro. cbn [row_policy]. apply policy_string_no_comma. }
  unfold row_text, row_values. cbn [String.concat].
  repeat rewrite count_char_app.
  rewrite Hm, Hp, !to_string_no_comma. cbn. lia.
Qed.

Lemma row_commas_witness :
  exists ro,
    append "/bin/init,a,b,all,OTHER,0,0,1,1,0,1" nl = row_text ro /\
    live k_comma 15 1 ro /\
    count_char "," (append "/bin/init,a,b,all,OTHER,0,0,1,1,0,1" nl)
    = (9 + count_char "," (row_exe ro) + count_char "," (row_name ro))%nat.
Proof.
  apply (row_commas k_comma 15 1 world0). vm_compute. reflexivity.
Defined.

(** * The files of an identifier *)

Lemma to_string_inj (a b : Z) : to_string a = to_string b -> a = b.
Proof.
  intros H. pose proof (strtol10_to_string a [] I) as Ea.
  pose proof (strtol10_to_string b [] I) as Eb.
  rewrite H, Eb in Ea. now inversion Ea.
Qed.

Lemma chars_inj (a b : string) :
  list_ascii_of_string a = list_ascii_of_string b -> a = b.
Proof.
  intros H. apply (f_equal string_of_list_ascii) in H.
  now rewrite !string_of_list_ascii_of_string in H.
Qed.

Lemma split_at_slash (l1 l2 r1 r2 : list ascii) :
  forallb (fun c => negb (Ascii.eqb c "/")) l1 = true ->
  forallb (fun c => negb (Ascii.eqb c "/")) l2 = true ->
  l1 ++ "/"%char :: r1 = l2 ++ "/"%char :: r2 ->
  l1 = l2 /\ r1 = r2.
Proof.
  revert l2. induction l1 as [| c l1 IH]; intros l2 H1 H2 E.
  - destruct l2 as [| c2 l2]; cbn in E; [inversion E; auto |].
    inversion E; subst c2. cbn in H2. discriminate.
  - destruct l2 as [| c2 l2]; cbn in E.
    + inversion E; subst c. cbn in H1. discriminate.
    + inversion E; subst c2. cbn in H1, H2.
      apply andb_true_iff in H1, H2.
      destruct (IH l2 (proj2 H1) (proj2 H2) H3) as [-> ->]. auto.
Qed.

(** X11: the path a reader opens names its identifier and its entry and
    nothing else: two paths under [/proc] are equal only for the same
    identifier and the same entry, and none of them is the path of the
    [pid_max] file. *)
Theorem proc_path_distinct (i j : Z) (e1 e2 : string) :
  (proc_path i (String "/" e1) = proc_path j (String "/" e2) ->
   i = j /\ e1 = e2) /\
  proc_path i (String "/" e1) <> pid_max_path.
Proof.
  unfold proc_path. split.
  - intros H. cbn [append] in H. repeat injection H as H.
    apply (f_equal list_ascii_of_string) in H.
    rewrite !list_ascii_of_string_app in H. cbn [list_ascii_of_string] in H.
    apply split_at_slash in H; try (apply to_string_forallb; reflexivity).
    destruct H as [Hi He]. split.
    + apply to_string_inj, chars_inj, Hi.
    + apply chars_inj, He.
  - unfold pid_max_path. cbn [append]. intros H. repeat injection H as H.
    apply (f_equal list_ascii_of_string) in H.
    rewrite list_ascii_of_string_app in H.
    destruct (to_string_chars i) as (d & Hn & _ & Hc). rewrite Hc in H.
    destruct (uint_chars_head d Hn) as (c & l & Hd & Hdig). rewrite Hd in H.
    destruct (i <? 0); cbn in H; inversion H; subst; discriminate.
Qed.

Lemma proc_path_distinct_witness :
  (1 = 1 /\ "stat" = "stat") /\ proc_path 1 "/stat" <> pid_max_path.
Proof.
  split.
  - apply (proj1 (proc_path_distinct 1 1 "stat" "stat")). reflexivity.
  - apply (proj2 (proc_path_distinct 1 1 "stat" "stat")).
Defined.

(** * Every live identifier gets its row *)

Lemma main_loop_complete k all_cpus turns :
  forall i w,
    (forall j, i <= j < i + Z.of_nat turns -> no_fatal k j) ->
    exists w',
      main_loop k all_cpus turns i w = (Ok tt, w') /\
      (forall x, In x (stdout w) -> In x (stdout w')) /\
      (forall j ro,
         i <= j < i + Z.of_nat turns ->
         live k all_cpus j ro -> In (row_text ro) (stdout w')).
Proof.
  induction turns as [| n IH]; intros i w NF.
  - exists w. cbn. repeat split; auto. intros j ro Hj. lia.
  - cbn [main_loop]. unfold bind.
    destruct (main_loop_body_no_fatal k all_cpus i w) as (w1 & E1);
      [apply NF; lia |].
    rewrite E1.
    destruct (IH (i + 1) w1) as (w' & E & Hmono & Hrows);
      [intros j Hj; apply NF; lia |].
    exists w'. split; [exact E |].
    destruct (main_loop_body_inv k all_cpus i w) as (r & w1' & E1' & O1 & _).
    rewrite E1 in E1'. inversion E1'; subst r w1'. clear E1'.
    assert (Hmono1 : forall x, In x (stdout w) -> In x (stdout w1)).
    { intros x Hx. destruct O1 as [-> | (_ & ro & _ & ->)]; auto.
      apply in_or_app. auto. }
    split; [auto |].
    intros j ro Hj L.
    destruct (Z.eq_dec j i) as [-> | Hne]; [| apply (Hrows j ro); [lia | exact L]].
    apply Hmono.
    destruct (main_loop_body_live k all_cpus i ro w L) as (w2 & E2 & O2 & _).
    rewrite E1 in E2. inversion E2; subst w2. rewrite O2.
    apply in_or_app. right. left. reflexivity.
Qed.

(** X12: when no reader stops the program for any identifier below
    [pid_max] (each finds its value or sees the identifier gone), the scan
    runs to its end, and every identifier below [pid_max] for which all
    seven readers found their values has its row on standard output. *)
Theorem main_complete k w pid_max all_cpus :
  fst (find_pid_max k w) = Ok pid_max ->
  fst (find_all_cpus k w) = Ok all_cpus ->
  (forall j, 0 <= j < pid_max -> no_fatal k j) ->
  fst (main k w) = Ok tt /\
  forall j ro,
    0 <= j < pid_max ->
    live k all_cpus j ro ->
    In (row_text ro) (stdout (snd (main k w))).
Proof.
  intros Hp Ha NF. unfold main, bind. rewrite printf_header.
  set (w0 := mkWorld (errno w) (stdout w ++ [header_format]) (trace w)).
  destruct (find_pid_max_spec k w0) as (r1 & w1 & E1 & _ & _ & P1).
  rewrite E1. rewrite (P1 w) in Hp. subst r1.
  destruct (find_all_cpus_spec k w1) as (r2 & w2 & E2 & _ & _ & P2).
  rewrite E2. rewrite (P2 w) in Ha. subst r2.
  destruct (main_loop_complete k all_cpus (Z.to_nat pid_max) 0 w2)
    as (w' & E & _ & Hrows).
  { intros j Hj. apply NF. lia. }
  rewrite E. cbn [fst snd]. split; [reflexivity |].
  intros j ro Hj L. apply (Hrows j ro); [lia | exact L].
Qed.

Lemma init_thread_stat_found :
  stat_found k_demo 1 0 0 (mkStat 1 0 1 7 19 0).
Proof.
  exists (mkFILE [t_stat init_thread] None 0), (t_stat init_thread), [].
  vm_compute. repeat split; discriminate.
Defined.

Lemma init_thread_status_found :
  status_found k_demo 1 0 0 "" (mkStatus "init" 1 0 1).
Proof.
  exists (mkFILE (t_status init_thread) None 0).
  vm_compute. repeat split.
Defined.

Lemma k_demo_no_fatal (j : Z) : 0 <= j < 3 -> no_fatal k_demo j.
Proof.
  intros Hj.
  assert (C : j = 0 \/ j = 1 \/ j = 2) by lia.
  unfold no_fatal, answers, status_answers, stat_vanished, exe_found.
  destruct C as [-> | [-> | ->]].
  - repeat split.
    + right. reflexivity.
    + right. reflexivity.
    + right. reflexivity.
    + left. exists "ENOENT". right. split; reflexivity.
    + right. reflexivity.
    + right. split; [left | right]; reflexivity.
  - repeat split.
    + left. exists 15. reflexivity.
    + left. exists (mkSchedParam 0). reflexivity.
    + left. exists SCHED_OTHER. split; [reflexivity | discriminate].
    + left. exists "/bin/init". left. reflexivity.
    + left. exists 0. reflexivity.
    + left. exists (mkStat 1 0 1 7 19 0).
      split; [exact init_thread_stat_found |].
      left. exists (mkStatus "init" 1 0 1). exact init_thread_status_found.
  - repeat split.
    + left. exists 1. reflexivity.
    + left. exists (mkSchedParam 99). reflexivity.
    + left. exists SCHED_FIFO. split; [reflexivity | discriminate].
    + left. exists "ENOENT". right. split; reflexivity.
    + left. exists (-20). reflexivity.
    + left. exists (mkStat 2 1 0 7 24 0).
      split; [exact kernel_thread_stat_found |].
      left. exists (mkStatus "kth (a b)" 2 1 2).
      exact kernel_thread_status_found.
Defined.

(** In [k_demo], with [pid_max] 3 and four processors, identifier 0 is not
    there and identifiers 1 and 2 are live: the program ends normally and
    both rows are on standard output. *)
Lemma main_complete_witness :
  fst (main k_demo world0) = Ok tt /\
  In (row_text (mkRow "/bin/init" "init" "all" "OTHER" 0 0 1 1 0 1))
     (stdout (snd (main k_demo world0))) /\
  In (row_text (mkRow "ENOENT" "kth (a b)" "???" "FIFO" (-20) 99 2 2 1 0))
     (stdout (snd (main k_demo world0))).
Proof.
  destruct (main_complete k_demo world0 3 15 eq_refl eq_refl k_demo_no_fatal)
    as [R L].
  split; [exact R |]. split.
  - apply (L 1); [lia |].
    exists 15, (mkSchedParam 0), SCHED_OTHER,
      (mkStat 1 0 1 7 19 0), (mkStatus "init" 1 0 1).
    split; [reflexivity |]. split; [reflexivity |]. split; [reflexivity |].
    split; [discriminate |]. split; [left; reflexivity |].
    split; [reflexivity |]. split; [exact init_thread_stat_found |].
    split; [exact init_thread_status_found | reflexivity].
  - apply (L 2); [lia |].
    exists 1, (mkSchedParam 99), SCHED_FIFO,
      (mkStat 2 1 0 7 24 0), (mkStatus "kth (a b)" 2 1 2).
    split; [reflexivity |]. split; [reflexivity |]. split; [reflexivity |].
    split; [discriminate |]. split; [right; split; reflexivity |].
    split; [reflexivity |]. split; [exact kernel_thread_stat_found |].
    split; [exact kernel_thread_status_found | reflexivity].
Defined.

(** * A name that splits *)

(** Two parenthesised stretches with a blank between them count as two
    fields, so that the field after them is stored as field 3. *)
Lemma scan_stat_split pid c1 c2 state after p f ppid0 sid0 :
  forallb plain pid = true ->
  opaque 0 c1 = true ->
  opaque 0 c2 = true ->
  forallb plain state = true ->
  stoi pid = Ok p ->
  stoi state = Abort f ->
  scan_stat
    (string_of_list_ascii
       (pid ++ " "%char :: c1 ++ " "%char :: c2 ++ " "%char
            :: state ++ " "%char :: after))
    ppid0 sid0
  = Abort f.
Proof.
  intros Hpid H1 H2 Hstate Ep Es.
  unfold scan_stat. rewrite list_ascii_of_string_of_list_ascii.
  set (buffer := pid ++ " "%char :: c1 ++ " "%char :: c2 ++ " "%char
                     :: state ++ " "%char :: after).
  (* field 0 *)
  change (stat_loop buffer buffer 0)
    with (stat_loop buffer
            (pid ++ " "%char :: c1 ++ " "%char :: c2 ++ " "%char
                 :: state ++ " "%char :: after)
            (List.length (@nil ascii))).
  rewrite (stat_loop_word buffer [] pid);
    [| reflexivity | reflexivity | reflexivity | assumption].
  unfold stat_store at 1. cbn [st_field]. change (0 =? 0) with true. cbv iota.
  rewrite Ep. state_simpl.
  (* field 1 *)
  rewrite stat_loop_opaque by exact H1.
  rewrite stat_loop_space by reflexivity.
  unfold stat_store at 1. state_simpl.
  change (0 + 1 =? 0) with false. change (0 + 1 =? 3) with false.
  change (0 + 1 =? 4) with false. cbv iota. state_simpl.
  (* field 2 *)
  rewrite stat_loop_opaque by exact H2.
  rewrite stat_loop_space by reflexivity.
  unfold stat_store at 1. state_simpl.
  change (0 + 1 + 1 =? 0) with false. change (0 + 1 + 1 =? 3) with false.
  change (0 + 1 + 1 =? 4) with false. cbv iota. state_simpl.
  (* field 3 *)
  set (pre3 := pid ++ " "%char :: c1 ++ " "%char :: c2 ++ [" "%char]).
  assert (L3 : S (S (S (List.length pid) + List.length c1) + List.length c2)
               = List.length pre3).
  { subst pre3. rewrite length_app. cbn [List.length]. rewrite length_app.
    cbn [List.length]. rewrite length_app. cbn [List.length]. lia. }
  rewrite L3.
  rewrite (stat_loop_word buffer pre3 state);
    [| subst buffer pre3; repeat (rewrite <- app_assoc; cbn [app]); reflexivity
     | reflexivity | reflexivity | assumption].
  unfold stat_store at 1. state_simpl.
  change (0 + 1 + 1 + 1 =? 0) with false. change (0 + 1 + 1 + 1 =? 3) with true.
  cbv iota. rewrite Es. reflexivity.
Qed.

(** X13: a name counts as one field only while its parentheses stay open
    up to its end.  When the name closes them early, goes on after a blank
    and opens them again ([n1 ++ ") (" ++ n2], both halves matched once
    enclosed, without newline and short enough for the five fields to fit
    the buffer), the record has one field more: the state is taken for the
    parent id, and [read_stat] ends as [std::stoi] does on the state, with
    the exception no one catches when the state is not a number. *)
Theorem read_stat_split_name k process n1 n2 state ppid sid tail stat
  f ppid0 sid0 not_there w :
  k_fopen k (proc_path process "/stat") = Success stat ->
  f_lines stat
  = file_lines 2048
      (stat_record process (n1 ++ ")"%char :: " "%char :: "("%char :: n2)
         state ppid sid tail) ->
  opaque 0 ("("%char :: n1 ++ [")"%char]) = true ->
  opaque 0 ("("%char :: n2 ++ [")"%char]) = true ->
  forallb plain state = true ->
  no_newline n1 = true ->
  no_newline n2 = true ->
  no_newline state = true ->
  (List.length n1 + List.length n2 + List.length state <= 1990)%nat ->
  INT_MIN <= process <= INT_MAX ->
  INT_MIN <= ppid <= INT_MAX ->
  INT_MIN <= sid <= INT_MAX ->
  stoi state = Abort f ->
  fst (read_stat k process ppid0 sid0 not_there w) = Abort f.
Proof.
  intros Ho Hf H1 H2 Hstate Hn1 Hn2 Hns Hlen Hp Hpp Hsd Es.
  destruct (stat_record_chunk process
              (n1 ++ ")"%char :: " "%char :: "("%char :: n2)
              state ppid sid tail) as (tail' & more & Ec); auto.
  { unfold no_newline in *. rewrite forallb_app. cbn [forallb].
    rewrite Hn1, Hn2. reflexivity. }
  { rewrite length_app. cbn [List.length]. lia. }
  rewrite Ec in Hf.
  assert (E : scan_stat
                (stat_record process
                   (n1 ++ ")"%char :: " "%char :: "("%char :: n2)
                   state ppid sid tail') ppid0 sid0
              = Abort f).
  { unfold stat_record.
    replace (list_ascii_of_string (to_string process)
               ++ " "%char
               :: ("("%char :: (n1 ++ ")"%char :: " "%char :: "("%char :: n2)
                     ++ [")"%char])
               ++ " "%char :: state
               ++ " "%char :: list_ascii_of_string (to_string ppid)
               ++ " "%char :: list_ascii_of_string (to_string sid)
               ++ " "%char :: tail')
      with (list_ascii_of_string (to_string process)
              ++ " "%char :: ("("%char :: n1 ++ [")"%char])
              ++ " "%char :: ("("%char :: n2 ++ [")"%char])
              ++ " "%char :: state
              ++ " "%char
              :: (list_ascii_of_string (to_string ppid)
                    ++ " "%char :: list_ascii_of_string (to_string sid)
                    ++ " "%char :: tail'))
      by (f_equal; f_equal; cbn [app]; f_equal;
          repeat (rewrite <- app_assoc; cbn [app]); reflexivity).
    apply (scan_stat_split _ _ _ _ _ process);
      auto using to_string_plain, stoi_to_string_exact. }
  unfold read_stat. run_monad.
  rewrite Ho. world_simpl. rewrite Hf, E. reflexivity.
Qed.

Lemma read_stat_split_name_witness :
  fst (read_stat k_split 7 0 0 false world0) = Abort Uncaught /\
  fst (main k_split world0) = Abort Uncaught.
Proof.
  split; [| vm_compute; reflexivity].
  apply (read_stat_split_name k_split 7 ["a"%char] ["b"%char] ["S"%char] 1 7
           (list_ascii_of_string (append "7 0 -1" nl))
           (mkFILE [append "7 (a) (b) S 1 7 7 0 -1" nl] None 0) Uncaught
           0 0 false world0).
  - reflexivity.
  - vm_compute. reflexivity.
  - reflexivity.
  - reflexivity.
  - reflexivity.
  - reflexivity.
  - reflexivity.
  - reflexivity.
  - cbn. lia.
  - unfold INT_MIN, INT_MAX. lia.
  - unfold INT_MIN, INT_MAX. lia.
  - unfold INT_MIN, INT_MAX. lia.
  - reflexivity.
Defined.

(** * A refused scheduling query *)

Lemma find_cpu_mask_refused k i not_there w :
  refuses (k_sched_getaffinity k i) ->
  exists w',
    find_cpu_mask k i not_there w = (Abort Exit1, w') /\
    stdout w' = stdout w /\
    trace w' = trace w ++ [call_sched_getaffinity i].
Proof.
  intros (e & H & Hne).
  destruct (find_cpu_mask_spec k i not_there w) as (r & w' & E & S & T & _).
  assert (R : fst (find_cpu_mask k i not_there w) = Abort Exit1).
  { unfold find_cpu_mask. run_monad. rewrite H. world_simpl.
    case_errno; [apply eqb_pos_ESRCH in E0; contradiction |]. reflexivity. }
  rewrite E in R. cbn [fst] in R. subst r. eauto.
Qed.

Lemma find_sched_param_refused k i not_there w :
  refuses (k_sched_getparam k i) ->
  exists w',
    find_sched_param k i not_there w = (Abort Exit1, w') /\
    stdout w' = stdout w /\
    trace w' = trace w ++ [call_sched_getparam i].
Proof.
  intros (e & H & Hne).
  destruct (find_sched_param_spec k i not_there w) as (r & w' & E & S & T & _).
  assert (R : fst (find_sched_param k i not_there w) = Abort Exit1).
  { unfold find_sched_param. run_monad. rewrite H. world_simpl.
    case_errno; [apply eqb_pos_ESRCH in E0; contradiction |]. reflexivity. }
  rewrite E in R. cbn [fst] in R. subst r. eauto.
Qed.

Lemma find_scheduler_refused k i not_there w :
  refuses (k_sched_getscheduler k i) ->
  exists w',
    find_scheduler k i not_there w = (Abort Exit1, w') /\
    stdout w' = stdout w /\
    trace w' = trace w ++ [call_sched_getscheduler i].
Proof.
  intros (e & H & Hne).
  destruct (find_scheduler_spec k i not_there w) as (r & w' & E & S & T & _).
  assert (R : fst (find_scheduler k i not_there w) = Abort Exit1).
  { unfold find_scheduler. run_monad. rewrite H. world_simpl.
    case_errno; [apply eqb_pos_ESRCH in E0; contradiction |]. reflexivity. }
  rewrite E in R. cbn [fst] in R. subst r. eauto.
Qed.

Lemma find_cpu_mask_answers k i not_there w :
  answers (k_sched_getaffinity k i) ->
  exists a nt w',
    find_cpu_mask k i not_there w = (Ok (a, nt), w') /\
    stdout w' = stdout w /\
    trace w' = trace w ++ [call_sched_getaffinity i].
Proof.
  intros A.
  destruct (find_cpu_mask_spec k i not_there w) as (r & w' & E & S & T & _).
  destruct A as [[a H] | H].
  - destruct (find_cpu_mask_found k i not_there w a H) as (w1 & E1).
    rewrite E1 in E. inversion E; subst. eauto 8.
  - destruct (find_cpu_mask_vanished k i not_there w H) as (w1 & E1).
    rewrite E1 in E. inversion E; subst. eauto 8.
Qed.

Lemma find_sched_param_answers k i not_there w :
  answers (k_sched_getparam k i) ->
  exists a nt w',
    find_sched_param k i not_there w = (Ok (a, nt), w') /\
    stdout w' = stdout w /\
    trace w' = trace w ++ [call_sched_getparam i].
Proof.
  intros A.
  destruct (find_sched_param_spec k i not_there w) as (r & w' & E & S & T & _).
  destruct A as [[a H] | H].
  - destruct (find_sched_param_found k i not_there w a H) as (w1 & E1).
    rewrite E1 in E. inversion E; subst. eauto 8.
  - destruct (find_sched_param_vanished k i not_there w H) as (w1 & E1).
    rewrite E1 in E. inversion E; subst. eauto 8.
Qed.

(** The turn of an identifier with a refused scheduling query ends the
    program at that query. *)
Lemma main_loop_body_refused k all_cpus i n w :
  sched_refused k i n ->
  exists w',
    main_loop_body k all_cpus i w = (Abort Exit1, w') /\
    stdout w' = stdout w /\
    trace w' = trace w ++ firstn n (probe_calls i).
Proof.
  intros R. unfold main_loop_body, bind.
  destruct n as [| [| [| [| n]]]]; cbn [sched_refused] in R;
    try contradiction.
  - destruct (find_cpu_mask_refused k i false w R) as (w1 & E1 & S1 & T1).
    rewrite E1. eauto.
  - destruct R as [A1 R].
    destruct (find_cpu_mask_answers k i false w A1)
      as (a1 & nt1 & w1 & E1 & S1 & T1).
    rewrite E1.
    destruct (find_sched_param_refused k i nt1 w1 R) as (w2 & E2 & S2 & T2).
    rewrite E2. exists w2. split; [reflexivity |]. split; [congruence |].
    rewrite T2, T1, <- app_assoc. reflexivity.
  - destruct R as (A1 & A2 & R).
    destruct (find_cpu_mask_answers k i false w A1)
      as (a1 & nt1 & w1 & E1 & S1 & T1).
    rewrite E1.
    destruct (find_sched_param_answers k i nt1 w1 A2)
      as (a2 & nt2 & w2 & E2 & S2 & T2).
    rewrite E2.
    destruct (find_scheduler_refused k i nt2 w2 R) as (w3 & E3 & S3 & T3).
    rewrite E3. exists w3. split; [reflexivity |]. split; [congruence |].
    rewrite T3, T2, T1, <- !app_assoc. reflexivity.
Qed.

Lemma main_loop_refused k all_cpus i n turns :
  forall i0 w,
    i0 <= i < i0 + Z.of_nat turns ->
    (forall j, i0 <= j < i -> no_fatal k j) ->
    sched_refused k i n ->
    exists w' rows,
      main_loop k all_cpus turns i0 w = (Abort Exit1, w') /\
      stdout w' = stdout w ++ map row_text rows /\
      Forall (fun ro => i0 <= row_tid ro < i /\
                        live k all_cpus (row_tid ro) ro) rows /\
      trace w'
      = trace w ++ flat_map probe_calls (ids (Z.to_nat (i - i0)) i0)
                ++ firstn n (probe_calls i).
Proof.
  induction turns as [| m IH]; intros i0 w Hi NF R; [cbn in Hi; lia |].
  cbn [main_loop]. unfold bind.
  destruct (Z.eq_dec i0 i) as [-> | Hne].
  - destruct (main_loop_body_refused k all_cpus i n w R) as (w1 & E1 & S1 & T1).
    rewrite E1. exists w1, []. cbn [map]. rewrite app_nil_r, Z.sub_diag.
    cbn [Z.to_nat ids flat_map app]. auto.
  - destruct (main_loop_body_no_fatal k all_cpus i0 w) as (w1 & E1);
      [apply NF; lia |].
    rewrite E1.
    destruct (main_loop_body_inv k all_cpus i0 w) as (r & w1' & E1' & O1 & T1).
    rewrite E1 in E1'. inversion E1'; subst r w1'. clear E1'.
    specialize (T1 eq_refl).
    destruct (IH (i0 + 1) w1) as (w' & rows & E & O & F & T);
      [lia | intros j Hj; apply NF; lia | exact R |].
    rewrite E.
    assert (F' : Forall (fun ro => i0 <= row_tid ro < i /\
                                   live k all_cpus (row_tid ro) ro) rows).
    { eapply Forall_impl; [| exact F]. cbn beta. intros ro [B L].
      split; [lia | exact L]. }
    assert (T' : trace w'
                 = trace w ++ flat_map probe_calls (ids (Z.to_nat (i - i0)) i0)
                           ++ firstn n (probe_calls i)).
    { replace (Z.to_nat (i - i0)) with (S (Z.to_nat (i - (i0 + 1)))) by lia.
      cbn [ids flat_map]. rewrite T, T1, <- !app_assoc. reflexivity. }
    destruct O1 as [O1 | (_ & ro & L & O1)].
    + exists w', rows. repeat split; auto. congruence.
    + exists w', (ro :: rows). cbn [map].
      pose proof (live_tid _ _ _ _ L) as Htid.
      split; [reflexivity |]. split; [| split; [| exact T']].
      * rewrite O, O1, <- app_assoc. reflexivity.
      * constructor; [| exact F']. rewrite Htid. split; [lia | exact L].
Qed.

(** X14: when one of the three scheduling queries (affinity, parameter,
    policy) for an identifier [i] below [pid_max] fails with a code other
    than [ESRCH], while the queries before it for [i] and every reader for
    the identifiers below [i] find their value or see the identifier gone,
    the program ends with exit status 1 at that query: standard output
    holds the header and rows of identifiers below [i] only, and no
    kernel interface is called after the refused query. *)
Theorem sched_error_stops_scan k w pid_max all_cpus i n :
  fst (find_pid_max k w) = Ok pid_max ->
  fst (find_all_cpus k w) = Ok all_cpus ->
  0 <= i < pid_max ->
  (forall j, 0 <= j < i -> no_fatal k j) ->
  sched_refused k i n ->
  exists w' rows,
    main k w = (Abort Exit1, w') /\
    stdout w' = stdout w ++ header_format :: map row_text rows /\
    Forall (fun ro => 0 <= row_tid ro < i /\
                      live k all_cpus (row_tid ro) ro) rows /\
    trace w'
    = trace w
      ++ [call_fopen pid_max_path; call_sysconf_nprocessors_conf]
      ++ flat_map probe_calls (ids (Z.to_nat i) 0)
      ++ firstn n (probe_calls i).
Proof.
  intros Hp Ha Hi NF R. unfold main, bind. rewrite printf_header.
  set (w0 := mkWorld (errno w) (stdout w ++ [header_format]) (trace w)).
  destruct (find_pid_max_spec k w0) as (r1 & w1 & E1 & S1 & T1 & P1).
  rewrite E1. rewrite (P1 w) in Hp. subst r1.
  destruct (find_all_cpus_spec k w1) as (r2 & w2 & E2 & S2 & T2 & P2).
  rewrite E2. rewrite (P2 w) in Ha. subst r2.
  destruct (main_loop_refused k all_cpus i n (Z.to_nat pid_max) 0 w2)
    as (w' & rows & E & O & F & T); [lia | exact NF | exact R |].
  rewrite E. exists w', rows. split; [reflexivity |].
  split; [| split; [exact F |]].
  - rewrite O, S2, S1. subst w0. cbn [stdout].
    rewrite <- app_assoc. reflexivity.
  - rewrite T, T2, T1, Z.sub_0_r. subst w0. cbn [trace].
    rewrite <- !app_assoc. reflexivity.
Qed.

Lemma k_denied_no_fatal (j : Z) : 0 <= j < 2 -> no_fatal k_denied j.
Proof.
  intros Hj.
  assert (C : j = 0 \/ j = 1) by lia.
  unfold no_fatal, answers, status_answers, stat_vanished, exe_found.
  destruct C as [-> | ->].
  - repeat split.
    + right. reflexivity.
    + right. reflexivity.
    + right. reflexivity.
    + left. exists "ENOENT". right. split; reflexivity.
    + right. reflexivity.
    + right. split; [left | right]; reflexivity.
  - repeat split.
    + left. exists 15. reflexivity.
    + left. exists (mkSchedParam 0). reflexivity.
    + left. exists SCHED_OTHER. split; [reflexivity | discriminate].
    + left. exists "/bin/init". left. reflexivity.
    + left. exists 0. reflexivity.
    + left. exists (mkStat 1 0 1 7 19 0).
      split; [exact init_thread_stat_found |].
      left. exists (mkStatus "init" 1 0 1). exact init_thread_status_found.
Defined.

(** In [k_denied] the parameter query for identifier 2 fails with [EPERM]
    after the affinity query succeeded: the program ends with status 1,
    having made two of the seven calls for identifier 2. *)
Lemma sched_error_stops_scan_witness :
  exists w' rows,
    main k_denied world0 = (Abort Exit1, w') /\
    stdout w' = stdout world0 ++ header_format :: map row_text rows /\
    Forall (fun ro => 0 <= row_tid ro < 2 /\
                      live k_denied 15 (row_tid ro) ro) rows /\
    trace w'
    = trace world0
      ++ [call_fopen pid_max_path; call_sysconf_nprocessors_conf]
      ++ flat_map probe_calls (ids (Z.to_nat 2) 0)
      ++ firstn 2 (probe_calls 2).
Proof.
  apply (sched_error_stops_scan k_denied world0 3 15 2 2).
  - reflexivity.
  - reflexivity.
  - lia.
  - exact k_denied_no_fatal.
  - split.
    + left. exists 1. reflexivity.
    + exists EPERM. split; [reflexivity | discriminate].
Defined.

(** * Lines of the status record that carry no label *)

Lemma status_line_unlabelled buffer s :
  labelled buffer = false -> status_line buffer s = Ok s.
Proof.
  unfold labelled, status_line. cbn [existsb]. cbv zeta.
  rewrite !orb_false_iff. intros (H1 & H2 & H3 & H4 & _).
  rewrite H1, H2, H3, H4. reflexivity.
Qed.

(** A line that starts with a label and its colon has that label. *)
Lemma label_prefix (p : list ascii) :
  forall l rest,
    no_colon p = true ->
    no_colon l = true ->
    list_prefix (p ++ [":"%char]) (c_str (l ++ ":"%char :: rest)) = true ->
    p = l.
Proof.
  unfold no_colon.
  induction p as [| a p IH]; intros [| c l] rest Hp Hl H.
  - reflexivity.
  - exfalso. cbn [app c_str forallb] in H, Hl.
    apply andb_true_iff in Hl. destruct Hl as [Hc _].
    destruct (Ascii.eqb c zero); [discriminate |].
    cbn [list_prefix] in H. apply andb_true_iff in H. destruct H as [H _].
    rewrite Ascii.eqb_sym, H in Hc. discriminate.
  - exfalso. cbn [app c_str forallb] in H, Hp.
    apply andb_true_iff in Hp. destruct Hp as [Ha _].
    change (Ascii.eqb ":" zero) with false in H. cbv iota in H.
    cbn [list_prefix] in H. apply andb_true_iff in H. destruct H as [H _].
    rewrite H in Ha. discriminate.
  - cbn [app c_str forallb] in H, Hp, Hl.
    apply andb_true_iff in Hp. destruct Hp as [_ Hp].
    apply andb_true_iff in Hl. destruct Hl as [_ Hl].
    destruct (Ascii.eqb c zero); [discriminate |].
    cbn [list_prefix] in H. apply andb_true_iff in H. destruct H as [Hac H].
    apply Ascii.eqb_eq in Hac. subst c. f_equal. exact (IH l rest Hp Hl H).
Qed.

(** X15: the loop of [read_status] takes its values from the lines that
    start with [Name:], [Pid:], [PPid:] or [Tgid:] and from no other.  The
    other lines, wherever they stand in the record and whatever they hold,
    make no difference to what the loop returns, be it values or an
    exception; and a line under any other label is such a line, also when
    that label ends in one of the four, as [TracerPid] does. *)
Theorem scan_status_labelled :
  (forall lines s, scan_status lines s = scan_status (filter labelled lines) s) /\
  (forall l rest,
     no_colon l = true ->
     ~ In l status_labels ->
     labelled (string_of_list_ascii (l ++ ":"%char :: rest)) = false).
Proof.
  split.
  - induction lines as [| buffer rest IH]; intros s; [reflexivity |].
    cbn [scan_status filter]. destruct (labelled buffer) eqn:L.
    + cbn [scan_status]. destruct (status_line buffer s) as [s' | f];
        cbn [result_bind]; [apply IH | reflexivity].
    + rewrite (status_line_unlabelled buffer s L). cbn [result_bind]. apply IH.
  - intros l rest Hl Hn. unfold labelled, starts_with.
    rewrite list_ascii_of_string_of_list_ascii. cbv zeta.
    apply not_true_is_false. intros H. apply Hn.
    rewrite sv_chars_view_of in H.
    cbn [existsb] in H. rewrite !orb_true_iff in H.
    unfold status_labels. cbn [map In].
    destruct H as [H | [H | [H | [H | H]]]]; [| | | | discriminate].
    + left. apply (label_prefix (list_ascii_of_string "Name") l rest);
        [reflexivity | exact Hl | exact H].
    + right. left. apply (label_prefix (list_ascii_of_string "Pid") l rest);
        [reflexivity | exact Hl | exact H].
    + right. right. left.
      apply (label_prefix (list_ascii_of_string "PPid") l rest);
        [reflexivity | exact Hl | exact H].
    + right. right. right. left.
      apply (label_prefix (list_ascii_of_string "Tgid") l rest);
        [reflexivity | exact Hl | exact H].
Qed.

(** The line [TracerPid:] of a status record is not taken for [Pid:]. *)
Lemma scan_status_labelled_witness :
  labelled (append "TracerPid:" (append tab (append "0" nl))) = false.
Proof.
  apply (proj2 scan_status_labelled (list_ascii_of_string "TracerPid")
           (list_ascii_of_string (append tab (append "0" nl)))).
  - reflexivity.
  - unfold status_labels. cbn [map In list_ascii_of_string].
    intros [H | [H | [H | [H | []]]]]; discriminate.
Defined.

(** * The header and the rows *)

Lemma live_row_commas k all_cpus i ro :
  live k all_cpus i ro ->
  count_char "," (row_text ro)
  = (9 + count_char "," (row_exe ro) + count_char "," (row_name ro))%nat.
Proof.
  intros (cpu_mask & param & scheduler & s & ss & _ & _ & _ & _ & _ & _
          & _ & _ & Hro).
  assert (Hm : count_char "," (row_cpumask ro) = O).
  { rewrite Hro. cbn [row_cpumask]. destruct (CPU_EQUAL cpu_mask all_cpus);
      reflexivity. }
  assert (Hp : count_char "," (row_policy ro) = O).
  { rewrite Hro. cbn [row_policy]. apply policy_string_no_comma. }
  unfold row_text, row_values. cbn [String.concat].
  repeat rewrite count_char_app.
  rewrite Hm, Hp, !to_string_no_comma. cbn. lia.
Qed.

Lemma to_string_last_digit (z : Z) :
  exists init c,
    list_ascii_of_string (to_string z) = init ++ [c] /\ is_digit c = true.
Proof.
  destruct (to_string_chars z) as (d & Hn & _ & Hc).
  destruct (uint_chars_head d Hn) as (c0 & l & Hd & _).
  assert (Hne : uint_chars d <> []) by (rewrite Hd; discriminate).
  destruct (exists_last Hne) as (init & c & E).
  pose proof (uint_chars_digits d) as F. rewrite E in F.
  apply Forall_app in F. destruct F as [_ F]. inversion F; subst.
  exists ((if z <? 0 then ["-"%char] else []) ++ init), c.
  split; [| assumption]. rewrite Hc, E, app_assoc. reflexivity.
Qed.

(** A data line ends in a number, the header in [cpu]: no data line is the
    header. *)
Lemma row_text_not_header (ro : row) : row_text ro <> header_format.
Proof.
  intros H. apply (f_equal list_ascii_of_string) in H.
  unfold row_text, row_values in H. cbn [String.concat] in H.
  rewrite !list_ascii_of_string_app in H.
  destruct (to_string_last_digit (row_sid ro)) as (init & c & E & Hc).
  rewrite E in H. apply (f_equal (@rev ascii)) in H.
  rewrite !rev_app_distr in H. cbn in H.
  inversion H; subst c. discriminate Hc.
Qed.

(** C9, what fails: in [k_comma] the thread name holds a comma, and the line
    written for it has ten commas, that is eleven comma-separated values;
    and in [k_split] the run ends by an exception nobody catches, so that
    the stream is never flushed and nothing, not even the header, may have
    left the process. *)
Lemma eleven_values_and_no_header :
  (stdout (snd (main k_comma world0))
   = [header_format; append "/bin/init,a,b,all,OTHER,0,0,1,1,0,1" nl] /\
   count_char "," (append "/bin/init,a,b,all,OTHER,0,0,1,1,0,1" nl) = 10%nat) /\
  (fst (main k_split world0) = Abort Uncaught /\
   delivered (main k_split world0) "").
Proof. vm_compute. repeat split; reflexivity. Qed.

(** C9, amended: the program puts the header line into its output stream
    first and once, before the scan, and after it one line per row; the
    header joins eleven labels with commas, the last being [cpu]; every row
    is the row of a live identifier, written without quoting, so that its
    line has nine commas between the ten values plus those within the
    executable path and the name: ten comma-separated values, none of them
    under [cpu], when these two hold no comma.  That text is what leaves the
    process when the run ends normally or with [exit(1)]; when it ends by an
    exception nobody catches, only some beginning of it does, possibly
    without the header. *)
Theorem header_then_rows k w out :
  delivered (main k w) out ->
  exists rows,
    stdout (snd (main k w)) = stdout w ++ header_format :: map row_text rows /\
    ~ In header_format (map row_text rows) /\
    header_format = append (String.concat "," header_labels) nl /\
    List.length header_labels = 11%nat /\
    last header_labels "" = "cpu" /\
    Forall (fun ro =>
              (exists all_cpus,
                 fst (find_all_cpus k w) = Ok all_cpus /\
                 live k all_cpus (row_tid ro) ro) /\
              count_char "," (row_text ro)
              = (9 + count_char "," (row_exe ro)
                 + count_char "," (row_name ro))%nat) rows /\
    (fst (main k w) = Ok tt \/ fst (main k w) = Abort Exit1 ->
     out = String.concat "" (stdout w ++ header_format :: map row_text rows)) /\
    (fst (main k w) = Abort Uncaught ->
     String.prefix out
       (String.concat "" (stdout w ++ header_format :: map row_text rows))
     = true).
Proof.
  intros D. destruct (main_inv k w) as (r & w' & rows & E & O & _ & L & _).
  unfold delivered in D. cbv zeta in D. rewrite E in *. cbn [fst snd] in *.
  rewrite O in D. exists rows.
  split; [exact O |]. split.
  { intros Hin. apply in_map_iff in Hin. destruct Hin as (ro & Hro & _).
    exact (row_text_not_header ro Hro). }
  split; [reflexivity |]. split; [reflexivity |].
  split; [reflexivity |]. split; [| split].
  - apply Forall_forall. intros ro Hin.
    destruct (L ro Hin) as (pid_max & all_cpus & _ & Ha & _ & Hl).
    split; [exists all_cpus; auto |].
    exact (live_row_commas k all_cpus (row_tid ro) ro Hl).
  - intros [-> | ->]; exact D.
  - intros ->. exact D.
Qed.

(** In [k_demo] the run ends normally, and the header and the two rows
    leave the process. *)
Lemma header_then_rows_witness :
  exists rows,
    stdout (snd (main k_demo world0))
    = stdout world0 ++ header_format :: map row_text rows /\
    ~ In header_format (map row_text rows) /\
    header_format = append (String.concat "," header_labels) nl /\
    List.length header_labels = 11%nat /\
    last header_labels "" = "cpu" /\
    Forall (fun ro =>
              (exists all_cpus,
                 fst (find_all_cpus k_demo world0) = Ok all_cpus /\
                 live k_demo all_cpus (row_tid ro) ro) /\
              count_char "," (row_text ro)
              = (9 + count_char "," (row_exe ro)
                 + count_char "," (row_name ro))%nat) rows /\
    (fst (main k_demo world0) = Ok tt \/
     fst (main k_demo world0) = Abort Exit1 ->
     String.concat ""
       [header_format;
        append "/bin/init,init,all,OTHER,0,0,1,1,0,1" nl;
        append "ENOENT,kth (a b),???,FIFO,-20,99,2,2,1,0" nl]
     = String.concat ""
         (stdout world0 ++ header_format :: map row_text rows)) /\
    (fst (main k_demo world0) = Abort Uncaught ->
     String.prefix
       (String.concat ""
          [header_format;
           append "/bin/init,init,all,OTHER,0,0,1,1,0,1" nl;
           append "ENOENT,kth (a b),???,FIFO,-20,99,2,2,1,0" nl])
       (String.concat ""
          (stdout world0 ++ header_format :: map row_text rows))
     = true).
Proof.
  apply (header_then_rows k_demo world0). vm_compute. reflexivity.
Defined.
